(** * The llmspecs prebuild pipelines: build-skills.mjs and build-definitions.mjs

    A shallow embedding of the two build scripts of the website
    (website/scripts/build-skills.mjs and website/scripts/build-definitions.mjs)
    and the properties their specification states about them.

    JavaScript strings are sequences of UTF-16 code units, JavaScript values
    are an inductive type, object literals are association lists in the order
    the source writes their keys, and the mutable counters, the console and
    the writes to disk are fields of an explicit run state. *)

From Stdlib Require Import ZArith NArith QArith Qcanon List String Ascii Lia Bool.
From stdpp Require Import base gmap list strings sets.

Set Warnings "-register-all".

Local Open Scope string_scope.
Local Open Scope Z_scope.
Local Open Scope list_scope.

(** ** JavaScript strings *)

Module JS.

(** A string is its sequence of UTF-16 code units, so that [length] is
    [String.prototype.length] and the ellipsis U+2026 is one unit. *)
Definition jsstring := list N.

(** String literals of the source (all of them Basic Latin). *)
Definition lit (s : string) : jsstring :=
  map N_of_ascii (list_ascii_of_string s).

Definition ellipsis : N := 8230%N.

Definition str_eqb (a b : jsstring) : bool := bool_decide (a = b).

(** [String.prototype.startsWith] *)
Fixpoint startsWith (s p : jsstring) : bool :=
  match p, s with
  | [], _ => true
  | _ :: _, [] => false
  | c :: p', d :: s' => N.eqb c d && startsWith s' p'
  end.

(** [String.prototype.endsWith] *)
Definition endsWith (s p : jsstring) : bool :=
  startsWith (rev s) (rev p).

(** [String.prototype.includes] *)
Fixpoint includes (s p : jsstring) : bool :=
  startsWith s p ||
  match s with
  | [] => false
  | _ :: s' => includes s' p
  end.

(** [String.prototype.split] with a one-unit separator: the pieces between
    the separators, empty pieces kept. *)
Fixpoint split (sep : N) (s : jsstring) : list jsstring :=
  match s with
  | [] => [[]]
  | c :: s' =>
    if N.eqb c sep then [] :: split sep s'
    else match split sep s' with
         | [] => [[c]]
         | w :: ws => (c :: w) :: ws
         end
  end.

(** [Array.prototype.join] *)
Fixpoint join (sep : jsstring) (ws : list jsstring) : jsstring :=
  match ws with
  | [] => []
  | [w] => w
  | w :: ws' => w ++ sep ++ join sep ws'
  end.

(** ToIntegerOrInfinity on a finite number: truncation towards zero. *)
Definition toIntegerOrInfinity (q : Qc) : Z :=
  Z.quot (Qnum (this q)) (Zpos (Qden (this q))).

(** [String.prototype.slice (start, end)] on integers: a negative index
    counts from the end, both are clamped to the string. *)
Definition slice (s : jsstring) (start end_ : Z) : jsstring :=
  let len := Z.of_nat (length s) in
  let from := if start <? 0 then Z.max (len + start) 0 else Z.min start len in
  let to := if end_ <? 0 then Z.max (len + end_) 0 else Z.min end_ len in
  take (Z.to_nat (to - from)) (drop (Z.to_nat from) s).

(** The white space and line terminators [String.prototype.trim] removes. *)
Definition isWhiteSpace (c : N) : bool :=
  ((9 <=? c) && (c <=? 13) || N.eqb c 32 || N.eqb c 160 || N.eqb c 5760
   || (8192 <=? c) && (c <=? 8202) || N.eqb c 8232 || N.eqb c 8233
   || N.eqb c 8239 || N.eqb c 8287 || N.eqb c 12288 || N.eqb c 65279)%N.

Fixpoint trimStart (s : jsstring) : jsstring :=
  match s with
  | c :: s' => if isWhiteSpace c then trimStart s' else s
  | [] => []
  end.

Definition trim (s : jsstring) : jsstring :=
  rev (trimStart (rev (trimStart s))).

(** ** JavaScript values *)

(** A number is a rational (every finite double is one), or one of the three
    values [Number.isFinite] rejects. *)
Inductive jsnum :=
| NaN
| Infinity
| NegInfinity
| Finite (q : Qc).

Definition ofZ (z : Z) : jsnum := Finite (Q2Qc (inject_Z z)).
Definition ofNat (n : nat) : jsnum := ofZ (Z.of_nat n).

(** The values the scripts handle: what the frontmatter and TOML parsers
    return and what the scripts build.  A [VDate] is the object a TOML
    date-time parses to; [VObj] keeps its keys in insertion order. *)
Inductive jsval :=
| VUndef
| VNull
| VBool (b : bool)
| VNum (n : jsnum)
| VStr (s : jsstring)
| VDate (iso : jsstring)
| VArr (items : list jsval)
| VObj (props : list (string * jsval)).

(** Property read [o.k] (and [o?.k]): [undefined] when [o] has no such own
    property; the scripts never read a property of a primitive other than
    through [?.]. *)
Fixpoint lookupProp (props : list (string * jsval)) (k : string) : jsval :=
  match props with
  | [] => VUndef
  | (k', v) :: rest => if String.eqb k' k then v else lookupProp rest k
  end.

Definition getProp (o : jsval) (k : string) : jsval :=
  match o with
  | VObj props => lookupProp props k
  | _ => VUndef
  end.

(** Property write [o.k = v]: an existing key keeps its place, a new key is
    appended. *)
Fixpoint assignProp (props : list (string * jsval)) (k : string) (v : jsval)
  : list (string * jsval) :=
  match props with
  | [] => [(k, v)]
  | (k', v') :: rest =>
    if String.eqb k' k then (k', v) :: rest
    else (k', v') :: assignProp rest k v
  end.

Definition setProp (o : jsval) (k : string) (v : jsval) : jsval :=
  match o with
  | VObj props => VObj (assignProp props k v)
  | _ => o
  end.

(** The elements of an array value. *)
Definition elements (a : jsval) : list jsval :=
  match a with
  | VArr items => items
  | _ => []
  end.

(** [o.k.push(v)] *)
Definition pushProp (o : jsval) (k : string) (v : jsval) : jsval :=
  setProp o k (VArr (elements (getProp o k) ++ [v])).

(** [v === undefined] *)
Definition isUndefined (v : jsval) : bool :=
  match v with VUndef => true | _ => false end.

(** JavaScript truthiness. *)
Definition truthy (v : jsval) : bool :=
  match v with
  | VUndef | VNull => false
  | VBool b => b
  | VNum NaN => false
  | VNum (Finite q) => negb (Qeq_bool (this q) 0)
  | VNum _ => true
  | VStr s => negb (str_eqb s [])
  | VDate _ | VArr _ | VObj _ => true
  end.

End JS.
Export JS.

(** ** The file system the scripts read *)

(** A node of the corpus on disk.  A file carries what the structured parser
    makes of its text ([matter(raw).data] for a SKILL.md, [parseToml(raw)]
    for a TOML file), [None] when reading or parsing it throws; a directory
    carries its entries in the order [readdir] lists them and whether the
    process may list and search it; a symbolic link carries its target when
    it is not dangling; [Special] is any other kind of entry. *)
Inductive node :=
| File (doc : option jsval)
| Dir (readable : bool) (entries : list (jsstring * node))
| Symlink (target : option node)
| Special.

(** [Dirent.isDirectory()] and [Dirent.isFile()] do not follow links. *)
Definition direntIsDirectory (n : node) : bool :=
  match n with Dir _ _ => true | _ => false end.

Definition direntIsFile (n : node) : bool :=
  match n with File _ => true | _ => false end.

(** [fsp.stat] and [fsp.access] follow links. *)
Fixpoint stat (n : node) : option node :=
  match n with
  | Symlink None => None
  | Symlink (Some t) => stat t
  | _ => Some n
  end.

Fixpoint lookupEntry (name : jsstring) (es : list (jsstring * node))
  : option node :=
  match es with
  | [] => None
  | (n, x) :: rest => if str_eqb n name then Some x else lookupEntry name rest
  end.

(** The node at [path.resolve(dir, name)] for a plain name. *)
Definition child (dir : option node) (name : jsstring) : option node :=
  match dir ≫= stat with
  | Some (Dir true es) => lookupEntry name es
  | _ => None
  end.

(** [fsp.readdir(p, { withFileTypes: true })]; [None] when it throws. *)
Definition readdir (dir : option node) : option (list (jsstring * node)) :=
  match dir ≫= stat with
  | Some (Dir true es) => Some es
  | _ => None
  end.

(** [pathExists(p)] and [isDirectory(p)] of both scripts. *)
Definition pathExists (p : option node) : bool :=
  match p ≫= stat with Some _ => true | None => false end.

Definition isDirectory (p : option node) : bool :=
  match p ≫= stat with Some (Dir _ _) => true | _ => false end.

(** ** What the host provides *)

(** The parts of Node.js, ICU and the archiver package the scripts call and
    this development does not fix: Unicode lower-casing, the collation
    [a.localeCompare(b, undefined, { sensitivity: 'base' })] (negative, zero
    or positive), the working directory, the directory of the running script
    ([__dirname], absolute), the size of the archive [createSkillZip]
    leaves at [zipOutAbs] ([None] when archiving or the [stat] after it
    throws), and whether [fsp.mkdir(p, { recursive: true })] and
    [fsp.writeFile(p, text, 'utf8')] succeed at a path of the output tree
    ([false] when the promise rejects). *)
Class Host := {
  toLowerCase : jsstring -> jsstring;
  localeCompare : jsstring -> jsstring -> Z;
  cwd : jsstring;
  __dirname : jsstring;
  createSkillZip : node -> jsstring -> jsstring -> option N;
  mkdir : jsstring -> bool;
  writeFile : jsstring -> bool;
}.

(** ** Helpers shared by both scripts *)

Definition VERSION : jsstring := lit "1.0.0".
Definition BASE_URL : jsstring := lit "https://www.llmspec.dev".
Definition PUBLIC_DESC_MAX_CHARS : jsnum := ofZ 500.

(** [maxChars - 1] for a budget greater than zero, as an index of [slice].
    The subtraction is one of doubles: a budget of at most 2^-54 is absorbed
    and the difference is -1; above that the difference lies strictly
    between -1 and 0, where the index is 0, or it is exact (for a budget
    under 2^53, which every budget smaller than the length of a string
    is). *)
Definition budgetLessOne (m : Qc) : Z :=
  if Qle_bool (this m) (1 # 18014398509481984) then -1
  else toIntegerOrInfinity (m - 1)%Qc.

(** [truncate(str, maxChars)] of both scripts. *)
Definition truncate (str maxChars : jsval) : jsstring :=
  match str with
  | VStr s =>
    match maxChars with
    | VNum (Finite m) =>
      if Qle_bool (this m) 0 then []
      else if Qle_bool (inject_Z (Z.of_nat (length s))) (this m) then s
      else if Qeq_bool (this m) 1 then [ellipsis]
      else slice s 0 (budgetLessOne m) ++ [ellipsis]
    | _ => []
    end
  | _ => []
  end.

(** [path.sep] on POSIX. *)
Definition sep : N := 47%N.
Definition slash : jsstring := lit "/".

Definition nonEmpty (s : jsstring) : bool := negb (str_eqb s []).

(** [path.posix.basename]: the last component, trailing separators dropped. *)
Definition basename (p : jsstring) : jsstring :=
  default [] (last (filter (fun s => nonEmpty s = true) (split sep p))).

Definition excludedDirNames : list jsstring :=
  [ lit "__pycache__"; lit ".ssh"; lit "node_modules"; lit ".venv";
    lit "venv"; lit "env"; lit "dist"; lit ".idea"; lit ".vscode";
    lit ".terraform" ].

(** [set.has(x)] on a set of strings written as a list. *)
Definition has (set : list jsstring) (x : jsstring) : bool :=
  existsb (str_eqb x) set.

(** [shouldExcludePath(relPathLike, { isDirectory })] of both scripts. *)
Definition shouldExcludePath `{Host} (relPathLike : jsstring)
    (isDirectory : bool) : bool :=
  let rel := join slash (split sep relPathLike) in
  let base := basename rel in
  let baseLower := toLowerCase base in
  if str_eqb base (lit ".DS_Store") then true
  else if endsWith baseLower (lit ".pyc") then true
  else if str_eqb base (lit ".git") || str_eqb base (lit ".svn")
          || str_eqb base (lit ".hg") then true
  else if includes rel (lit "/.git/") || includes rel (lit "/.svn/")
          || includes rel (lit "/.hg/") then true
  else if str_eqb base (lit ".env") || startsWith base (lit ".env.") then true
  else if str_eqb base (lit ".npmrc") then true
  else if str_eqb base (lit ".yarnrc") || str_eqb base (lit ".yarnrc.yml")
       then true
  else if str_eqb base (lit ".pypirc") then true
  else if str_eqb baseLower (lit "id_rsa")
          || str_eqb baseLower (lit "id_ed25519") then true
  else if endsWith baseLower (lit ".pem") then true
  else if endsWith baseLower (lit ".key") then true
  else if endsWith baseLower (lit ".p12") then true
  else if endsWith baseLower (lit ".pfx") then true
  else if endsWith baseLower (lit ".swp") || endsWith baseLower (lit ".swo")
       then true
  else
    let segments := filter (fun s => nonEmpty s = true) (split (47%N) rel) in
    if existsb (fun seg => has excludedDirNames seg) segments then true
    else if isDirectory && startsWith base (lit ".") then true
    else false.

(** *** slugifyGroupName *)

Definition isLowerAlnum (c : N) : bool :=
  ((97 <=? c) && (c <=? 122) || (48 <=? c) && (c <=? 57))%N.

Definition isUpper (c : N) : bool := ((65 <=? c) && (c <=? 90))%N.

Definition dash : N := 45%N.

(** [.replace(/([a-z0-9])([A-Z])/g, '$1-$2')]: matches are found left to
    right and do not overlap. *)
Fixpoint insertWordDashes (s : jsstring) : jsstring :=
  match s with
  | a :: rest =>
    match rest with
    | b :: rest' =>
      if isLowerAlnum a && isUpper b
      then a :: dash :: b :: insertWordDashes rest'
      else a :: insertWordDashes rest
    | [] => [a]
    end
  | [] => []
  end.

(** [.replace(/[^a-z0-9]+/g, '-')]: every maximal run of other units becomes
    one dash; [inRun] tells that the current run already has its dash. *)
Fixpoint collapseNonAlnum (inRun : bool) (s : jsstring) : jsstring :=
  match s with
  | [] => []
  | c :: s' =>
    if isLowerAlnum c then c :: collapseNonAlnum false s'
    else if inRun then collapseNonAlnum true s'
    else dash :: collapseNonAlnum true s'
  end.

Fixpoint dropDashes (s : jsstring) : jsstring :=
  match s with
  | c :: s' => if N.eqb c dash then dropDashes s' else s
  | [] => []
  end.

(** [.replace(/^-+|-+$/g, '')] *)
Definition stripDashes (s : jsstring) : jsstring :=
  rev (dropDashes (rev (dropDashes s))).

Definition slugifyGroupName `{Host} (groupName : jsstring) : jsstring :=
  let withDashes := insertWordDashes groupName in
  stripDashes (collapseNonAlnum false (toLowerCase (trim withDashes))).

(** Case folding of Basic Latin, as the [i] flag of a regular expression
    folds the letters of [.toml]. *)
Definition asciiLower (c : N) : N := if isUpper c then (c + 32)%N else c.

(** *** node:path on POSIX *)

Definition isAbsolute (p : jsstring) : bool :=
  match p with
  | c :: _ => N.eqb c sep
  | [] => false
  end.

(** [normalizeString] of node:path on the components of a path; [acc] holds
    the components kept so far, last first. *)
Fixpoint normalizeSegments (allowAboveRoot : bool) (acc segs : list jsstring)
  : list jsstring :=
  match segs with
  | [] => rev acc
  | seg :: rest =>
    if str_eqb seg [] || str_eqb seg (lit ".")
    then normalizeSegments allowAboveRoot acc rest
    else if str_eqb seg (lit "..") then
      match acc with
      | top :: acc' =>
        if str_eqb top (lit "..")
        then normalizeSegments allowAboveRoot
               (if allowAboveRoot then seg :: acc else acc) rest
        else normalizeSegments allowAboveRoot acc' rest
      | [] =>
        normalizeSegments allowAboveRoot
          (if allowAboveRoot then [seg] else []) rest
      end
    else normalizeSegments allowAboveRoot (seg :: acc) rest
  end.

(** The loop of [path.resolve]: arguments are taken from the last to the
    first until one is absolute, then the working directory. *)
Fixpoint resolveLoop `{Host} (argsRev : list jsstring) (resolvedPath : jsstring)
  : jsstring * bool :=
  match argsRev with
  | [] => (cwd ++ slash ++ resolvedPath, isAbsolute cwd)
  | p :: rest =>
    if str_eqb p [] then resolveLoop rest resolvedPath
    else if isAbsolute p then (p ++ slash ++ resolvedPath, true)
    else resolveLoop rest (p ++ slash ++ resolvedPath)
  end.

(** [path.resolve(...args)] *)
Definition resolve `{Host} (args : list jsstring) : jsstring :=
  let '(resolvedPath, resolvedAbsolute) := resolveLoop (rev args) [] in
  let normalized :=
    join slash
      (normalizeSegments (negb resolvedAbsolute) [] (split sep resolvedPath)) in
  if resolvedAbsolute then slash ++ normalized
  else if nonEmpty normalized then normalized else lit ".".

Fixpoint dropCommon (a b : list jsstring) : list jsstring * list jsstring :=
  match a, b with
  | x :: a', y :: b' => if str_eqb x y then dropCommon a' b' else (a, b)
  | _, _ => (a, b)
  end.

(** [path.relative(from, to)]: both are resolved, their common leading
    components dropped, one [..] written for each component left of [from],
    then what is left of [to]. *)
Definition relative `{Host} (from to : jsstring) : jsstring :=
  if str_eqb from to then []
  else
    let from' := resolve [from] in
    let to' := resolve [to] in
    if str_eqb from' to' then []
    else
      let comps p := filter (fun s => nonEmpty s = true) (split sep p) in
      let '(up, down) := dropCommon (comps from') (comps to') in
      join slash (map (fun _ => lit "..") up ++ down).

Fixpoint dropSlashes (s : jsstring) : jsstring :=
  match s with
  | c :: s' => if N.eqb c sep then dropSlashes s' else s
  | [] => []
  end.

Fixpoint dropComponent (s : jsstring) : jsstring :=
  match s with
  | c :: s' => if N.eqb c sep then s else dropComponent s'
  | [] => []
  end.

(** [path.dirname]: the path up to the separator before its last component;
    the scan runs from the end and stops before the first unit. *)
Definition dirname (p : jsstring) : jsstring :=
  match p with
  | [] => lit "."
  | c0 :: rest =>
    let hasRoot := N.eqb c0 sep in
    match dropComponent (dropSlashes (rev rest)) with
    | [] => if hasRoot then lit "/" else lit "."
    | _ :: before =>
      if hasRoot && bool_decide (before = []) then lit "//"
      else c0 :: rev before
    end
  end.

(** [sortAlphaCaseInsensitive] and the other [sort] calls, on a key, with the
    host's collation.  [Array.prototype.sort] is stable: an item goes before
    the first item that compares greater or equal among those that followed
    it, so items that compare equal keep their order. *)
Section Sorting.
Context `{Host} {A : Type} (key : A -> jsstring).

Fixpoint insertSorted (x : A) (l : list A) : list A :=
  match l with
  | [] => [x]
  | y :: l' =>
    if localeCompare (key y) (key x) <? 0 then y :: insertSorted x l'
    else x :: l
  end.

Definition sortBy (l : list A) : list A :=
  fold_right insertSorted [] l.
End Sorting.

Definition sortAlphaCaseInsensitive `{Host} (values : list jsstring)
  : list jsstring :=
  sortBy (fun v => v) values.

(** Number addition [a + b] on the counts the scripts add up. *)
Definition addNum (a b : jsval) : jsval :=
  match a, b with
  | VNum (Finite x), VNum (Finite y) => VNum (Finite (x + y)%Qc)
  | _, _ => VNum NaN
  end.

Definition VInt (z : Z) : jsval := VNum (ofZ z).
Definition VLen {A} (l : list A) : jsval := VNum (ofNat (length l)).
Definition VLit (s : string) : jsval := VStr (lit s).

(** The [name] an output record is sorted by. *)
Definition nameOf (v : jsval) : jsstring :=
  match getProp v "name" with
  | VStr s => s
  | _ => []
  end.

(** What a file parses to; [None] when [readFile] or the parser throws. *)
Definition readDoc (f : option node) : option jsval :=
  match f ≫= stat with
  | Some (File (Some d)) => Some d
  | _ => None
  end.

(** The writes a script makes: a directory made with its parents, an archive
    streamed to a path (with the size [stat] then reports, [None] when the
    archive layer failed), a value serialised as JSON to a path.  A [mkdir]
    or a [writeFile] that rejects leaves no entry. *)
Inductive effect :=
| Mkdir (p : jsstring)
| WriteZip (p : jsstring) (size : option N)
| WriteJson (p : jsstring) (data : jsval).

(** ** build-skills.mjs *)

Module BuildSkills.
Section Script.
Context `{Host}.

Definition websiteDir := resolve [__dirname; lit ".."].
Definition repoRootDir := resolve [websiteDir; lit ".."].
Definition skillsRootDir := resolve [repoRootDir; lit "skills"].
Definition publicDir := resolve [websiteDir; lit "public"].
Definition downloadsDir := resolve [publicDir; lit "skills"; lit "downloads"].
Definition publicManifestPath :=
  resolve [publicDir; lit "skills"; lit "skills.json"].
Definition schemaPath := resolve [publicDir; lit "skills"; lit "schema.json"].
Definition astroDataDir := resolve [websiteDir; lit "src"; lit "data"].
Definition internalCatalogPath :=
  resolve [astroDataDir; lit "skills-catalog.json"].

Inductive error :=
| SkillsRootNotFound (p : jsstring)
| ReaddirFailed (p : jsstring)
| MkdirFailed (p : jsstring)
| WriteFailed (p : jsstring).

(** The console: one constructor for each message of the script. *)
Inductive message :=
| WarnMissingDescription (skillMdAbs : jsstring)
| WarnFrontmatterFailed (skillMdAbs : jsstring)
| WarnDuplicate (skillFolderName groupName : jsstring)
| WarnOutsideDownloads (groupName skillFolderName zipOutAbs : jsstring)
| WarnPackageFailed (skillName zipOutAbs : jsstring)
| LogBuilding (root downloads : jsstring)
| LogPackaging (skillName : jsstring)
| LogPackaged (skillFolderName : jsstring) (zipSizeBytes : N) (fileCount : nat)
| LogSummary (groups : nat) (skills : jsval) (packaged zipTotal warnings : N)
| ErrorBuildFailed (err : error).

(** The variables of [main] that outlive one skill, with the console and
    the writes made so far. *)
Record Run := {
  seenSkillFolderNames : gset jsstring;
  packagedCount : N;
  errorCount : N;
  totalZipBytes : N;
  console : list message;
  disk : list effect;
}.

Definition say (m : message) (r : Run) : Run :=
  {| seenSkillFolderNames := seenSkillFolderNames r;
     packagedCount := packagedCount r;
     errorCount := errorCount r;
     totalZipBytes := totalZipBytes r;
     console := console r ++ [m];
     disk := disk r |}.

Definition sayAll (ms : list message) (r : Run) : Run :=
  fold_left (fun r m => say m r) ms r.

Definition perform (e : effect) (r : Run) : Run :=
  {| seenSkillFolderNames := seenSkillFolderNames r;
     packagedCount := packagedCount r;
     errorCount := errorCount r;
     totalZipBytes := totalZipBytes r;
     console := console r;
     disk := disk r ++ [e] |}.

(** [errorCount += 1] *)
Definition countError (r : Run) : Run :=
  {| seenSkillFolderNames := seenSkillFolderNames r;
     packagedCount := packagedCount r;
     errorCount := errorCount r + 1;
     totalZipBytes := totalZipBytes r;
     console := console r;
     disk := disk r |}.

(** [seenSkillFolderNames.add(name)] *)
Definition markSeen (name : jsstring) (r : Run) : Run :=
  {| seenSkillFolderNames := {[ name ]} ∪ seenSkillFolderNames r;
     packagedCount := packagedCount r;
     errorCount := errorCount r;
     totalZipBytes := totalZipBytes r;
     console := console r;
     disk := disk r |}.

(** [totalZipBytes += zipSizeBytes; packagedCount += 1] *)
Definition countPackaged (zipSizeBytes : N) (r : Run) : Run :=
  {| seenSkillFolderNames := seenSkillFolderNames r;
     packagedCount := packagedCount r + 1;
     errorCount := errorCount r;
     totalZipBytes := totalZipBytes r + zipSizeBytes;
     console := console r;
     disk := disk r |}.

(** [await fsp.mkdir(p, { recursive: true })]: [inr] when it rejects, with
    the run as it was then. *)
Definition makeDir (p : jsstring) (r : Run) : Run + Run * error :=
  if mkdir p then inl (perform (Mkdir p) r) else inr (r, MkdirFailed p).

(** [ensureDirs]: the four directories in turn, up to the first [mkdir]
    that rejects. *)
Definition ensureDirs (r : Run) : Run + Run * error :=
  match makeDir downloadsDir r with
  | inr thrown => inr thrown
  | inl r =>
    match makeDir (dirname publicManifestPath) r with
    | inr thrown => inr thrown
    | inl r =>
      match makeDir (dirname schemaPath) r with
      | inr thrown => inr thrown
      | inl r => makeDir astroDataDir r
      end
    end
  end.

(** [writeJsonPretty]: [inr] when [writeFile] rejects. *)
Definition writeJsonPretty (fileAbs : jsstring) (data : jsval) (r : Run)
  : Run + Run * error :=
  if writeFile fileAbs then inl (perform (WriteJson fileAbs data) r)
  else inr (r, WriteFailed fileAbs).

(** [listGroups]: the names of the directories under the skills root;
    [None] when [readdir] throws. *)
Definition listGroups (skillsRoot : option node) : option (list jsstring) :=
  match readdir skillsRoot with
  | None => None
  | Some entries =>
    let groups :=
      map fst (filter (fun e => direntIsDirectory (snd e) = true) entries) in
    Some (sortAlphaCaseInsensitive groups)
  end.

Record Candidate := {
  dirName : jsstring;
  absPath : jsstring;
  dirNode : node;
}.

(** [listSkillDirs]: the directories of a group that hold a SKILL.md,
    sorted by folder name; [None] when [readdir] throws. *)
Definition listSkillDirs (groupDirAbs : jsstring) (groupDir : option node)
  : option (list Candidate) :=
  match readdir groupDir with
  | None => None
  | Some entries =>
    let candidates :=
      map (fun e => {| dirName := fst e;
                       absPath := resolve [groupDirAbs; fst e];
                       dirNode := snd e |})
          (filter (fun e => direntIsDirectory (snd e) = true) entries) in
    let skills :=
      filter (fun c =>
                pathExists (child (Some (dirNode c)) (lit "SKILL.md")) = true)
             candidates in
    Some (sortBy dirName skills)
  end.

(** [parseSkillFrontmatter]: the name and description, and what it warns. *)
Definition parseSkillFrontmatter (skillMdAbs fallbackName : jsstring)
    (skillMd : option node) : jsstring * jsstring * list message :=
  match readDoc skillMd with
  | Some data =>
    let name :=
      match getProp data "name" with
      | VStr s => if nonEmpty (trim s) then trim s else fallbackName
      | _ => fallbackName
      end in
    let description :=
      match getProp data "description" with
      | VStr s => trim s
      | _ => []
      end in
    (name, description,
     if nonEmpty description then []
     else [WarnMissingDescription skillMdAbs])
  | None => (fallbackName, [], [WarnFrontmatterFailed skillMdAbs])
  end.

(** [countIncludedFiles]: the regular files under a directory that the
    exclusion filter lets through; [None] when a [readdir] throws. *)
Fixpoint walkCount (dir : node) (relFromRoot : jsstring) : option nat :=
  match dir with
  | Dir true entries =>
    (fix each (es : list (jsstring * node)) : option nat :=
       match es with
       | [] => Some 0%nat
       | (name, ent) :: rest =>
         let childRel :=
           if nonEmpty relFromRoot then relFromRoot ++ slash ++ name
           else name in
         if shouldExcludePath childRel (direntIsDirectory ent) then each rest
         else if direntIsDirectory ent then
           match walkCount ent childRel with
           | None => None
           | Some inner => Nat.add inner <$> each rest
           end
         else if direntIsFile ent then S <$> each rest
         else each rest
       end) entries
  | _ => None
  end.

Definition countIncludedFiles (rootDir : node) : option nat :=
  walkCount rootDir [].

Definition detectSkillContents (skillDir : node) : jsval :=
  let at_ name := child (Some skillDir) (lit name) in
  let hasLicense :=
    existsb (fun f => pathExists (at_ f))
            ["LICENSE.txt"; "LICENSE.md"; "LICENSE"] in
  VObj [ ("has_scripts", VBool (isDirectory (at_ "scripts")));
         ("has_references", VBool (isDirectory (at_ "references")));
         ("has_license", VBool hasLicense) ].

(** The boundary check of [main]: the archive path must stay inside the
    downloads directory. *)
Definition escapesDownloads (zipOutAbs : jsstring) : bool :=
  let relToDownloads := relative downloadsDir zipOutAbs in
  let relToDownloadsPosix := join slash (split sep relToDownloads) in
  isAbsolute relToDownloads
  || str_eqb relToDownloadsPosix (lit "..")
  || startsWith relToDownloadsPosix (lit "../").

Definition downloadUrl (skillFolderName : jsstring) : jsstring :=
  lit "/skills/downloads/" ++ skillFolderName ++ lit ".zip".

(** The two records [main] builds for a packaged skill. *)
Definition newSkillPublic (skillName fullDescription groupSlug
    skillFolderName : jsstring) (zipSizeBytes : N) (fileCount : nat)
    (contents : jsval) : jsval :=
  VObj [ ("name", VStr skillName);
         ("description",
          VStr (truncate (VStr fullDescription)
                  (VNum PUBLIC_DESC_MAX_CHARS)));
         ("group", VStr groupSlug);
         ("download_url", VStr (downloadUrl skillFolderName));
         ("zip_size_bytes", VInt (Z.of_N zipSizeBytes));
         ("file_count", VInt (Z.of_nat fileCount));
         ("contents", contents) ].

Definition newSkillInternal (skillName fullDescription groupSlug
    skillFolderName : jsstring) (zipSizeBytes : N) (fileCount : nat)
    (contents : jsval) : jsval :=
  VObj [ ("name", VStr skillName);
         ("description", VStr fullDescription);
         ("group", VStr groupSlug);
         ("download_url", VStr (downloadUrl skillFolderName));
         ("zip_size_bytes", VInt (Z.of_N zipSizeBytes));
         ("file_count", VInt (Z.of_nat fileCount));
         ("contents", contents) ].

(** The body of the loop over the skills of one group.  The accumulator is
    the run and the two group records being filled. *)
Definition processSkill (groupName groupSlug : jsstring) (s : Candidate)
    (acc : Run * jsval * jsval) : Run * jsval * jsval :=
  let '(r, groupOutPublic, groupOutInternal) := acc in
  let skillFolderName := dirName s in
  let skillDir := dirNode s in
  let skillMdAbs := resolve [absPath s; lit "SKILL.md"] in
  let '(skillName, fullDescription, warnings) :=
    parseSkillFrontmatter skillMdAbs skillFolderName
      (child (Some skillDir) (lit "SKILL.md")) in
  let r := sayAll warnings r in
  if bool_decide (skillFolderName ∈ seenSkillFolderNames r) then
    (countError (say (WarnDuplicate skillFolderName groupName) r),
     groupOutPublic, groupOutInternal)
  else
    let r := markSeen skillFolderName r in
    let zipOutAbs := resolve [downloadsDir; skillFolderName ++ lit ".zip"] in
    if escapesDownloads zipOutAbs then
      (countError
         (say (WarnOutsideDownloads groupName skillFolderName zipOutAbs) r),
       groupOutPublic, groupOutInternal)
    else
      let r := say (LogPackaging skillName) r in
      let '(r, zipSizeBytes, fileCount) :=
        match countIncludedFiles skillDir with
        | None =>
          (say (WarnPackageFailed skillName zipOutAbs) (countError r),
           0%N, 0%nat)
        | Some fileCount =>
          match createSkillZip skillDir skillFolderName zipOutAbs with
          | Some size =>
            (countPackaged size
               (say (LogPackaged skillFolderName size fileCount)
                  (perform (WriteZip zipOutAbs (Some size)) r)),
             size, fileCount)
          | None =>
            (say (WarnPackageFailed skillName zipOutAbs)
               (countError (perform (WriteZip zipOutAbs None) r)),
             0%N, fileCount)
          end
        end in
      let contents := detectSkillContents skillDir in
      let skillPublic :=
        newSkillPublic skillName fullDescription groupSlug skillFolderName
          zipSizeBytes fileCount contents in
      let skillInternal :=
        newSkillInternal skillName fullDescription groupSlug skillFolderName
          zipSizeBytes fileCount contents in
      (r, pushProp groupOutPublic "skills" skillPublic,
       pushProp groupOutInternal "skills" skillInternal).

(** [group.skills.sort(by name); group.skill_count = group.skills.length] *)
Definition finishGroup (groupOut : jsval) : jsval :=
  let sorted :=
    setProp groupOut "skills"
      (VArr (sortBy nameOf (elements (getProp groupOut "skills")))) in
  setProp sorted "skill_count" (VLen (elements (getProp sorted "skills"))).

Definition newGroup (groupName groupSlug : jsstring) : jsval :=
  VObj [ ("name", VStr groupName); ("slug", VStr groupSlug);
         ("skill_count", VInt 0); ("skills", VArr []) ].

(** The body of the loop over the groups; the accumulator is the run and
    the two manifests.  [inr] when [listSkillDirs] throws. *)
Definition processGroup (skillsRoot : option node) (groupName : jsstring)
    (acc : Run * jsval * jsval) : Run * jsval * jsval + Run * error :=
  let '(r, manifestPublic, manifestInternal) := acc in
  let groupSlug := slugifyGroupName groupName in
  let groupDirAbs := resolve [skillsRootDir; groupName] in
  match listSkillDirs groupDirAbs (child skillsRoot groupName) with
  | None => inr (r, ReaddirFailed groupDirAbs)
  | Some skillDirs =>
    let '(r, groupOutPublic, groupOutInternal) :=
      fold_left (fun acc s => processSkill groupName groupSlug s acc)
        skillDirs
        (r, newGroup groupName groupSlug, newGroup groupName groupSlug) in
    inl (r,
         pushProp manifestPublic "groups" (finishGroup groupOutPublic),
         pushProp manifestInternal "groups" (finishGroup groupOutInternal))
  end.

Fixpoint forGroups (skillsRoot : option node) (groupNames : list jsstring)
    (acc : Run * jsval * jsval) : Run * jsval * jsval + Run * error :=
  match groupNames with
  | [] => inl acc
  | groupName :: rest =>
    match processGroup skillsRoot groupName acc with
    | inl acc' => forGroups skillsRoot rest acc'
    | inr thrown => inr thrown
    end
  end.

(** [manifest.groups.reduce((acc, g) => acc + g.skill_count, 0)] *)
Definition totalSkills (manifest : jsval) : jsval :=
  fold_left (fun acc g => addNum acc (getProp g "skill_count"))
    (elements (getProp manifest "groups")) (VInt 0).

Definition newManifest (generatedAt : jsstring) : jsval :=
  VObj [ ("version", VStr VERSION); ("generated_at", VStr generatedAt);
         ("base_url", VStr BASE_URL); ("total_skills", VInt 0);
         ("groups", VArr []) ].

Definition newRun : Run :=
  {| seenSkillFolderNames := ∅; packagedCount := 0; errorCount := 0;
     totalZipBytes := 0; console := []; disk := [] |}.

Definition ofType (t : string) : jsval := VObj [("type", VLit t)].
Definition count0 : jsval :=
  VObj [("type", VLit "integer"); ("minimum", VInt 0)].
Definition arrayOf (ref : string) : jsval :=
  VObj [ ("type", VLit "array");
         ("items", VObj [("$ref", VLit ref)]) ].
Definition required (ks : list string) : jsval := VArr (map VLit ks).

Definition buildJsonSchema : jsval :=
  VObj [
    ("$schema", VLit "https://json-schema.org/draft/2020-12/schema");
    ("$id", VStr (BASE_URL ++ lit "/skills/schema.json"));
    ("title", VLit "LLMSpec Skills Manifest");
    ("type", VLit "object");
    ("additionalProperties", VBool false);
    ("required",
     required ["version"; "generated_at"; "base_url"; "total_skills";
               "groups"]);
    ("properties", VObj [
       ("version", ofType "string");
       ("generated_at",
        VObj [("type", VLit "string"); ("format", VLit "date-time")]);
       ("base_url", ofType "string");
       ("total_skills", count0);
       ("groups", arrayOf "#/$defs/group") ]);
    ("$defs", VObj [
       ("group", VObj [
          ("type", VLit "object");
          ("additionalProperties", VBool false);
          ("required", required ["name"; "slug"; "skill_count"; "skills"]);
          ("properties", VObj [
             ("name", ofType "string");
             ("slug", ofType "string");
             ("skill_count", count0);
             ("skills", arrayOf "#/$defs/skill") ]) ]);
       ("skill", VObj [
          ("type", VLit "object");
          ("additionalProperties", VBool false);
          ("required",
           required ["name"; "description"; "group"; "download_url";
                     "zip_size_bytes"; "file_count"; "contents"]);
          ("properties", VObj [
             ("name", ofType "string");
             ("description", ofType "string");
             ("group", ofType "string");
             ("download_url", ofType "string");
             ("zip_size_bytes", count0);
             ("file_count", count0);
             ("contents", VObj [
                ("type", VLit "object");
                ("additionalProperties", VBool false);
                ("required",
                 required ["has_scripts"; "has_references"; "has_license"]);
                ("properties", VObj [
                   ("has_scripts", ofType "boolean");
                   ("has_references", ofType "boolean");
                   ("has_license", ofType "boolean") ]) ]) ]) ]) ])
  ].

(** What [main] leaves when it returns: the run and the two manifests it
    wrote. *)
Record Built := {
  run : Run;
  manifestPublic : jsval;
  manifestInternal : jsval;
}.

(** [main()], from a fresh run; [inr] when it throws, with the run as it
    was then. *)
Definition main (skillsRoot : option node) (generatedAt : jsstring)
  : Built + Run * error :=
  match ensureDirs newRun with
  | inr thrown => inr thrown
  | inl r =>
  if negb (isDirectory skillsRoot)
  then inr (r, SkillsRootNotFound skillsRootDir)
  else
    match listGroups skillsRoot with
    | None => inr (r, ReaddirFailed skillsRootDir)
    | Some groupNames =>
      let r := say (LogBuilding skillsRootDir downloadsDir) r in
      match forGroups skillsRoot groupNames
              (r, newManifest generatedAt, newManifest generatedAt) with
      | inr thrown => inr thrown
      | inl (r, manifestPublic, manifestInternal) =>
        let manifestPublic :=
          setProp manifestPublic "total_skills"
            (totalSkills manifestPublic) in
        let manifestInternal :=
          setProp manifestInternal "total_skills"
            (totalSkills manifestInternal) in
        let schema := buildJsonSchema in
        match writeJsonPretty publicManifestPath manifestPublic r with
        | inr thrown => inr thrown
        | inl r =>
        match writeJsonPretty internalCatalogPath manifestInternal r with
        | inr thrown => inr thrown
        | inl r =>
        match writeJsonPretty schemaPath schema r with
        | inr thrown => inr thrown
        | inl r =>
          let r :=
            say (LogSummary
                   (length (elements (getProp manifestPublic "groups")))
                   (getProp manifestPublic "total_skills")
                   (packagedCount r) (totalZipBytes r) (errorCount r)) r in
          inl {| run := r; manifestPublic := manifestPublic;
                 manifestInternal := manifestInternal |}
        end end end
      end
    end
  end.

(** The module body: [try { await main() } catch { ...; process.exitCode
    = 1 }].  The exit status is 0 unless the handler set it. *)
Definition script (skillsRoot : option node) (generatedAt : jsstring)
  : Run * Z :=
  match main skillsRoot generatedAt with
  | inl built => (run built, 0)
  | inr (r, err) => (say (ErrorBuildFailed err) r, 1)
  end.
End Script.
End BuildSkills.

(** ** build-definitions.mjs *)

Module BuildDefinitions.
Section Script.
Context `{Host}.

Definition ALLOWED_STATUSES : list jsstring :=
  [lit "alpha"; lit "beta"; lit "deprecated"].

Definition websiteDir := resolve [__dirname; lit ".."].
Definition repoRootDir := resolve [websiteDir; lit ".."].
Definition providersRootDir :=
  resolve [repoRootDir; lit "models.dev"; lit "providers"].
Definition publicDir := resolve [websiteDir; lit "public"].
Definition publicDefinitionsDir := resolve [publicDir; lit "definitions"].
Definition publicManifestPath :=
  resolve [publicDefinitionsDir; lit "definitions.json"].
Definition schemaPath := resolve [publicDefinitionsDir; lit "schema.json"].
Definition astroDataDir := resolve [websiteDir; lit "src"; lit "data"].
Definition internalCatalogPath :=
  resolve [astroDataDir; lit "definitions-catalog.json"].

Inductive error :=
| OutputBoundaryViolation (label : string) (targetAbs baseDirAbs : jsstring)
| MkdirFailed (p : jsstring)
| WriteFailed (p : jsstring).

(** The console: one constructor for each message of the script. *)
Inductive message :=
| WarnReadDirFailed (label dirAbs : jsstring)
| WarnProviderField (providerId : jsstring) (field : string)
    (providerTomlPath : jsstring)
| WarnModelField (providerId modelId : jsstring) (field : string)
    (modelTomlPath : jsstring)
| WarnUnknownStatus (providerId modelId statusRaw modelTomlPath : jsstring)
| WarnTomlFailed (label tomlAbs : jsstring)
| WarnNoProviderToml (providerId providerTomlPath : jsstring)
| WarnNoModelsDir (providerId modelsRootAbs : jsstring)
| ErrorSourceNotFound (providersRootDir : jsstring)
| LogSkipping
| LogBuilding (providersRootDir : jsstring)
| LogSummary (providers models : jsval)
| ErrorBuildFailed (err : error).

Record Run := {
  console : list message;
  disk : list effect;
}.

Definition sayAll (ms : list message) (r : Run) : Run :=
  {| console := console r ++ ms; disk := disk r |}.

Definition say (m : message) (r : Run) : Run := sayAll [m] r.

Definition perform (e : effect) (r : Run) : Run :=
  {| console := console r; disk := disk r ++ [e] |}.

Definition toPosixPath (p : jsstring) : jsstring :=
  join slash (split sep p).

(** [assertInsideDir]: [Some] of the error it throws. *)
Definition assertInsideDir (baseDirAbs targetAbs : jsstring) (label : string)
  : option error :=
  let rel := relative baseDirAbs targetAbs in
  let relPosix := join slash (split sep rel) in
  if isAbsolute rel || str_eqb relPosix (lit "..")
     || startsWith relPosix (lit "../")
  then Some (OutputBoundaryViolation label targetAbs baseDirAbs)
  else None.

(** [await fsp.mkdir(p, { recursive: true })]: [inr] when it rejects, with
    the run as it was then. *)
Definition makeDir (p : jsstring) (r : Run) : Run + Run * error :=
  if mkdir p then inl (perform (Mkdir p) r) else inr (r, MkdirFailed p).

(** [ensureDirs]: the two directories in turn, up to the first [mkdir] that
    rejects. *)
Definition ensureDirs (r : Run) : Run + Run * error :=
  match makeDir publicDefinitionsDir r with
  | inr thrown => inr thrown
  | inl r => makeDir astroDataDir r
  end.

(** [writeJsonPretty]: [inr] when [writeFile] rejects. *)
Definition writeJsonPretty (fileAbs : jsstring) (data : jsval) (r : Run)
  : Run + Run * error :=
  if writeFile fileAbs then inl (perform (WriteJson fileAbs data) r)
  else inr (r, WriteFailed fileAbs).

(** [safeReadDir]: the entries, or none and a warning when [readdir]
    throws (every caller gives a label). *)
Definition safeReadDir (dirAbs : jsstring) (dir : option node)
    (label : jsstring) : list (jsstring * node) * list message :=
  match readdir dir with
  | Some entries => (entries, [])
  | None => ([], [WarnReadDirFailed label dirAbs])
  end.

Definition isPlainObject (val : jsval) : bool :=
  match val with
  | VObj _ | VDate _ => true
  | _ => false
  end.

Definition asString (val : jsval) : option jsstring :=
  match val with
  | VStr s => Some s
  | _ => None
  end.

Definition asStringArray (val : jsval) : option (list jsstring) :=
  match val with
  | VArr items => Some (omap asString items)
  | _ => None
  end.

Definition asBoolean (val : jsval) : option bool :=
  match val with
  | VBool b => Some b
  | _ => None
  end.

Definition asNumber (val : jsval) : option jsnum :=
  match val with
  | VNum (Finite q) => Some (Finite q)
  | _ => None
  end.

(** [asString(x)?.trim()] *)
Definition trimmed (val : jsval) : option jsstring := trim <$> asString val.

(** [!s] for a string or [undefined]. *)
Definition missing (s : option jsstring) : bool :=
  match s with
  | Some s => negb (nonEmpty s)
  | None => true
  end.

(** [s || undefined], [s || null] and [s || d] for a string or
    [undefined]. *)
Definition orUndefined (s : option jsstring) : jsval :=
  if missing s then VUndef else VStr (default [] s).
Definition orNull (s : option jsstring) : jsval :=
  if missing s then VNull else VStr (default [] s).
Definition orElse (s : option jsstring) (d : jsstring) : jsstring :=
  if missing s then d else default [] s.

Definition strings (l : list jsstring) : jsval := VArr (map VStr l).

Definition normalizeProviderToml (providerId : jsstring)
    (providerToml : jsval) (providerTomlPath : jsstring)
  : jsval * list message :=
  let name := trimmed (getProp providerToml "name") in
  let env := asStringArray (getProp providerToml "env") in
  let npm := trimmed (getProp providerToml "npm") in
  let doc := trimmed (getProp providerToml "doc") in
  let api := trimmed (getProp providerToml "api") in
  let need (absent : bool) (field : string) :=
    if absent then [WarnProviderField providerId field providerTomlPath]
    else [] in
  (VObj [ ("id", VStr providerId);
          ("name", VStr (orElse name providerId));
          ("env", strings (default [] env));
          ("npm", VStr (orElse npm []));
          ("doc", VStr (orElse doc []));
          ("api", orUndefined api) ],
   need (missing name) "name"
   ++ need (match env with Some (_ :: _) => false | _ => true end) "env"
   ++ need (missing npm) "npm"
   ++ need (missing doc) "doc").

(** [b ?? false], [b ?? undefined], [n ?? null] *)
Definition boolOrFalse (b : option bool) : jsval := VBool (default false b).
Definition boolOrUndefined (b : option bool) : jsval :=
  match b with Some b => VBool b | None => VUndef end.
Definition numOrNull (n : option jsnum) : jsval :=
  match n with Some n => VNum n | None => VNull end.

Definition isNone {A} (o : option A) : bool :=
  match o with None => true | Some _ => false end.

Definition normalizeModelToml (providerId modelId : jsstring)
    (modelToml : jsval) (modelTomlPath : jsstring) : jsval * list message :=
  let need (absent : bool) (field : string) :=
    if absent
    then [WarnModelField providerId modelId field modelTomlPath]
    else [] in
  let nameRaw := trimmed (getProp modelToml "name") in
  let family := trimmed (getProp modelToml "family") in
  let releaseDate := trimmed (getProp modelToml "release_date") in
  let lastUpdated := trimmed (getProp modelToml "last_updated") in
  let attachment := asBoolean (getProp modelToml "attachment") in
  let reasoning := asBoolean (getProp modelToml "reasoning") in
  let toolCall := asBoolean (getProp modelToml "tool_call") in
  let openWeights := asBoolean (getProp modelToml "open_weights") in
  let temperature := asBoolean (getProp modelToml "temperature") in
  let structuredOutput :=
    asBoolean (getProp modelToml "structured_output") in
  let knowledge := trimmed (getProp modelToml "knowledge") in
  let statusRaw := toLowerCase <$> trimmed (getProp modelToml "status") in
  let known := has ALLOWED_STATUSES (default [] statusRaw) in
  let status := if negb (missing statusRaw) && known then statusRaw else None in
  let description := trimmed (getProp modelToml "description") in
  let cost :=
    if isPlainObject (getProp modelToml "cost")
    then getProp modelToml "cost" else VUndef in
  let limit :=
    if isPlainObject (getProp modelToml "limit")
    then getProp modelToml "limit" else VUndef in
  let limitContext := asNumber (getProp limit "context") in
  let limitOutput := asNumber (getProp limit "output") in
  let limitInput := asNumber (getProp limit "input") in
  let modalities :=
    if isPlainObject (getProp modelToml "modalities")
    then getProp modelToml "modalities" else VUndef in
  let modInput := default [] (asStringArray (getProp modalities "input")) in
  let modOutput := default [] (asStringArray (getProp modalities "output")) in
  (VObj [ ("id", VStr modelId);
          ("name", VStr (orElse nameRaw modelId));
          ("family", orUndefined family);
          ("provider", VStr providerId);
          ("release_date", orNull releaseDate);
          ("last_updated", orNull lastUpdated);
          ("attachment", boolOrFalse attachment);
          ("reasoning", boolOrFalse reasoning);
          ("tool_call", boolOrFalse toolCall);
          ("open_weights", boolOrFalse openWeights);
          ("temperature", boolOrUndefined temperature);
          ("structured_output", boolOrUndefined structuredOutput);
          ("knowledge", orUndefined knowledge);
          ("status", orUndefined status);
          ("description", orUndefined description);
          ("cost", if truthy cost then cost else VUndef);
          ("limit",
           VObj ([ ("context", numOrNull limitContext);
                   ("output", numOrNull limitOutput) ]
                 ++ match limitInput with
                    | None => []
                    | Some n => [("input", VNum n)]
                    end));
          ("modalities",
           VObj [ ("input", strings modInput);
                  ("output", strings modOutput) ]) ],
   (need (missing nameRaw) "name"
    ++ need (missing releaseDate) "release_date"
    ++ need (missing lastUpdated) "last_updated"
    ++ need (isNone attachment) "attachment"
    ++ need (isNone reasoning) "reasoning"
    ++ need (isNone toolCall) "tool_call"
    ++ need (isNone openWeights) "open_weights"
    ++ (if negb (missing statusRaw) && negb known
        then [WarnUnknownStatus providerId modelId (default [] statusRaw)
                modelTomlPath]
        else [])
    ++ need (negb (truthy limit)) "[limit]"
    ++ need (isNone limitContext) "limit.context"
    ++ need (isNone limitOutput) "limit.output"
    ++ need (negb (truthy modalities)) "[modalities]")).

(** [...(cond ? { k: v } : {})] *)
Definition spreadIf (cond : bool) (k : string) (v : jsval)
  : list (string * jsval) :=
  if cond then [(k, v)] else [].

Definition toPublicModel (modelInternal : jsval) : jsval :=
  let publicCost :=
    let c := getProp modelInternal "cost" in
    if negb (isPlainObject c) then VUndef
    else
      let input := asNumber (getProp c "input") in
      let output := asNumber (getProp c "output") in
      if isNone input && isNone output then VUndef
      else
        VObj (match input with Some n => [("input", VNum n)] | None => [] end
              ++ match output with
                 | Some n => [("output", VNum n)]
                 | None => []
                 end) in
  let field k := getProp modelInternal k in
  VObj ([ ("id", field "id"); ("name", field "name") ]
        ++ spreadIf (truthy (field "family")) "family" (field "family")
        ++ [ ("provider", field "provider");
             ("release_date", field "release_date");
             ("last_updated", field "last_updated");
             ("attachment", field "attachment");
             ("reasoning", field "reasoning");
             ("tool_call", field "tool_call");
             ("open_weights", field "open_weights") ]
        ++ spreadIf (negb (isUndefined (field "temperature")))
             "temperature" (field "temperature")
        ++ spreadIf (negb (isUndefined (field "structured_output")))
             "structured_output" (field "structured_output")
        ++ spreadIf (truthy (field "knowledge")) "knowledge"
             (field "knowledge")
        ++ spreadIf (truthy (field "status")) "status" (field "status")
        ++ spreadIf (truthy (field "description")) "description"
             (VStr (truncate (field "description")
                      (VNum PUBLIC_DESC_MAX_CHARS)))
        ++ [ ("modalities", field "modalities"); ("limit", field "limit") ]
        ++ spreadIf (truthy publicCost) "cost" publicCost).

(** [readTomlFile]: the parsed document, or [null] and a warning. *)
Definition readTomlFile (tomlAbs : jsstring) (file : option node)
    (labelForWarnings : jsstring) : jsval * list message :=
  match readDoc file with
  | Some parsed => (parsed, [])
  | None => (VNull, [WarnTomlFailed labelForWarnings tomlAbs])
  end.

Definition listProviderDirs (providersRoot : option node)
  : list jsstring * list message :=
  let '(entries, warnings) :=
    safeReadDir providersRootDir providersRoot (lit "providers root") in
  let out :=
    map fst
      (filter (fun e => direntIsDirectory (snd e) = true
                        /\ shouldExcludePath (fst e) true = false)
              entries) in
  (sortAlphaCaseInsensitive out, warnings).

Record ModelFile := {
  abs : jsstring;
  rel : jsstring;
  file : node;
}.

(** The walk of [listModelTomlFiles]: the TOML files under a directory the
    exclusion filter lets through, in the order they are met, and the
    warnings of the directories that could not be read. *)
Fixpoint walk (dirAbs : jsstring) (dir : node) (relFromModelsRoot : jsstring)
  : list ModelFile * list message :=
  let label :=
    if nonEmpty relFromModelsRoot
    then lit "models scan: " ++ relFromModelsRoot
    else lit "models scan: <root>" in
  match dir with
  | Dir true entries =>
    (fix each (es : list (jsstring * node)) : list ModelFile * list message :=
       match es with
       | [] => ([], [])
       | (name, ent) :: rest =>
         let childAbs := resolve [dirAbs; name] in
         let childRel :=
           if nonEmpty relFromModelsRoot
           then relFromModelsRoot ++ slash ++ name
           else name in
         if shouldExcludePath childRel (direntIsDirectory ent) then each rest
         else if direntIsDirectory ent then
           let '(inner, warned) := walk childAbs ent childRel in
           let '(others, warned') := each rest in
           (inner ++ others, warned ++ warned')
         else if direntIsFile ent then
           if negb (endsWith (toLowerCase name) (lit ".toml")) then each rest
           else
             let '(others, warned') := each rest in
             ({| abs := childAbs; rel := childRel; file := ent |} :: others,
              warned')
         else each rest
       end) entries
  | _ => ([], [WarnReadDirFailed label dirAbs])
  end.

Definition listModelTomlFiles (modelsRootAbs : jsstring) (modelsRoot : node)
  : list ModelFile * list message :=
  let '(out, warnings) := walk modelsRootAbs modelsRoot [] in
  (sortBy rel out, warnings).

(** [.replace(/\.toml$/i, '')] *)
Definition stripToml (s : jsstring) : jsstring :=
  if endsWith (map asciiLower s) (lit ".toml")
  then take (length s - 5) s else s.

Definition ofType (t : string) : jsval := VObj [("type", VLit t)].
Definition ofTypes (ts : list string) : jsval :=
  VObj [("type", VArr (map VLit ts))].
Definition count0 : jsval :=
  VObj [("type", VLit "integer"); ("minimum", VInt 0)].
Definition number0 : jsval :=
  VObj [("type", VLit "number"); ("minimum", VInt 0)].
Definition numberOrNull0 : jsval :=
  VObj [("type", VArr [VLit "number"; VLit "null"]); ("minimum", VInt 0)].
Definition arrayOf (items : jsval) : jsval :=
  VObj [("type", VLit "array"); ("items", items)].
Definition ref (r : string) : jsval := VObj [("$ref", VLit r)].
Definition required (ks : list string) : jsval := VArr (map VLit ks).

Definition buildJsonSchema : jsval :=
  VObj [
    ("$schema", VLit "https://json-schema.org/draft/2020-12/schema");
    ("$id", VStr (BASE_URL ++ lit "/definitions/schema.json"));
    ("title", VLit "LLMSpec Model Definitions Manifest");
    ("type", VLit "object");
    ("additionalProperties", VBool false);
    ("required",
     required ["version"; "generated_at"; "base_url"; "total_providers";
               "total_models"; "providers"]);
    ("properties", VObj [
       ("version", ofType "string");
       ("generated_at",
        VObj [("type", VLit "string"); ("format", VLit "date-time")]);
       ("base_url", ofType "string");
       ("total_providers", count0);
       ("total_models", count0);
       ("providers", arrayOf (ref "#/$defs/provider")) ]);
    ("$defs", VObj [
       ("provider", VObj [
          ("type", VLit "object");
          ("additionalProperties", VBool false);
          ("required",
           required ["id"; "name"; "npm"; "doc"; "has_logo"; "model_count";
                     "models"]);
          ("properties", VObj [
             ("id", ofType "string");
             ("name", ofType "string");
             ("npm", ofType "string");
             ("doc", ofType "string");
             ("api", ofType "string");
             ("has_logo", ofType "boolean");
             ("model_count", count0);
             ("models", arrayOf (ref "#/$defs/model")) ]) ]);
       ("model", VObj [
          ("type", VLit "object");
          ("additionalProperties", VBool false);
          ("required",
           required ["id"; "name"; "provider"; "release_date";
                     "last_updated"; "attachment"; "reasoning"; "tool_call";
                     "open_weights"; "modalities"; "limit"]);
          ("properties", VObj [
             ("id", ofType "string");
             ("name", ofType "string");
             ("family", ofType "string");
             ("provider", ofType "string");
             ("release_date", ofTypes ["string"; "null"]);
             ("last_updated", ofTypes ["string"; "null"]);
             ("attachment", ofType "boolean");
             ("reasoning", ofType "boolean");
             ("tool_call", ofType "boolean");
             ("temperature", ofType "boolean");
             ("structured_output", ofType "boolean");
             ("knowledge", ofType "string");
             ("open_weights", ofType "boolean");
             ("status",
              VObj [("type", VLit "string");
                    ("enum", VArr [VLit "alpha"; VLit "beta";
                                   VLit "deprecated"])]);
             ("description", ofType "string");
             ("modalities", VObj [
                ("type", VLit "object");
                ("additionalProperties", VBool false);
                ("required", required ["input"; "output"]);
                ("properties", VObj [
                   ("input", arrayOf (ofType "string"));
                   ("output", arrayOf (ofType "string")) ]) ]);
             ("limit", VObj [
                ("type", VLit "object");
                ("additionalProperties", VBool false);
                ("required", required ["context"; "output"]);
                ("properties", VObj [
                   ("context", numberOrNull0);
                   ("output", numberOrNull0);
                   ("input", number0) ]) ]);
             ("cost", VObj [
                ("type", VLit "object");
                ("additionalProperties", VBool false);
                ("properties", VObj [
                   ("input", number0);
                   ("output", number0) ]) ]) ]) ]) ])
  ].

(** The body of the loop over the model files of one provider: the models
    normalised so far and the warnings. *)
Definition processModel (providerId : jsstring) (f : ModelFile)
    (acc : list jsval * list message) : list jsval * list message :=
  let '(modelsInternal, warned) := acc in
  let relPosix := toPosixPath (rel f) in
  let modelId := stripToml relPosix in
  let '(parsed, w1) :=
    readTomlFile (abs f) (Some (file f))
      (lit "model:" ++ providerId ++ slash ++ modelId) in
  if negb (truthy parsed) then (modelsInternal, warned ++ w1)
  else
    let '(normalized, w2) :=
      normalizeModelToml providerId modelId parsed (abs f) in
    (modelsInternal ++ [normalized], warned ++ w1 ++ w2).

(** The variables of [main] that outlive one provider. *)
Record Loop := {
  run : Run;
  manifestInternal : jsval;
  manifestPublic : jsval;
  modelTotal : nat;
}.

(** The body of the loop over the providers. *)
Definition processProvider (providersRoot : option node)
    (providerId : jsstring) (st : Loop) : Loop :=
  let providerDirAbs := resolve [providersRootDir; providerId] in
  let providerDir := child providersRoot providerId in
  let providerTomlPath := resolve [providerDirAbs; lit "provider.toml"] in
  let '(providerToml, w1) :=
    if pathExists (child providerDir (lit "provider.toml"))
    then readTomlFile providerTomlPath
           (child providerDir (lit "provider.toml"))
           (lit "provider:" ++ providerId)
    else (VNull, [WarnNoProviderToml providerId providerTomlPath]) in
  let '(providerMeta, w2) :=
    normalizeProviderToml providerId
      (if truthy providerToml then providerToml else VObj [])
      providerTomlPath in
  let hasLogo := pathExists (child providerDir (lit "logo.svg")) in
  let modelsRootAbs := resolve [providerDirAbs; lit "models"] in
  let modelsRoot := child providerDir (lit "models") in
  let w3 :=
    if negb (isDirectory modelsRoot)
    then [WarnNoModelsDir providerId modelsRootAbs] else [] in
  let '(modelFiles, w4) :=
    match modelsRoot ≫= stat with
    | Some (Dir readable entries) =>
      listModelTomlFiles modelsRootAbs (Dir readable entries)
    | _ => ([], [])
    end in
  let '(unsorted, w5) :=
    fold_left (fun acc f => processModel providerId f acc) modelFiles
      ([], []) in
  let modelsInternal := sortBy nameOf unsorted in
  let api := getProp providerMeta "api" in
  let providerOutInternal :=
    VObj ([ ("id", getProp providerMeta "id");
            ("name", getProp providerMeta "name");
            ("env", getProp providerMeta "env");
            ("npm", getProp providerMeta "npm");
            ("doc", getProp providerMeta "doc") ]
          ++ spreadIf (truthy api) "api" api
          ++ [ ("has_logo", VBool hasLogo);
               ("model_count", VLen modelsInternal);
               ("models", VArr modelsInternal) ]) in
  let providerOutPublic :=
    VObj ([ ("id", getProp providerMeta "id");
            ("name", getProp providerMeta "name");
            ("npm", getProp providerMeta "npm");
            ("doc", getProp providerMeta "doc") ]
          ++ spreadIf (truthy api) "api" api
          ++ [ ("has_logo", VBool hasLogo);
               ("model_count", VLen modelsInternal);
               ("models", VArr (map toPublicModel modelsInternal)) ]) in
  {| run := sayAll (w1 ++ w2 ++ w3 ++ w4 ++ w5) (run st);
     manifestInternal :=
       pushProp (manifestInternal st) "providers" providerOutInternal;
     manifestPublic :=
       pushProp (manifestPublic st) "providers" providerOutPublic;
     modelTotal := (modelTotal st + length modelsInternal)%nat |}.

Definition newManifest (generatedAt : jsstring) : jsval :=
  VObj [ ("version", VStr VERSION); ("generated_at", VStr generatedAt);
         ("base_url", VStr BASE_URL); ("total_providers", VInt 0);
         ("total_models", VInt 0); ("providers", VArr []) ].

(** [manifest.providers.sort(by name); manifest.total_providers =
    manifest.providers.length; manifest.total_models = modelTotal] *)
Definition finishManifest (modelTotal : nat) (manifest : jsval) : jsval :=
  let sorted :=
    setProp manifest "providers"
      (VArr (sortBy nameOf (elements (getProp manifest "providers")))) in
  let counted :=
    setProp sorted "total_providers"
      (VLen (elements (getProp sorted "providers"))) in
  setProp counted "total_models" (VNum (ofNat modelTotal)).

(** How [main] ends: it wrote the manifests, it returned early because the
    providers root is missing, or it threw. *)
Inductive outcome :=
| Built (r : Run) (manifestPublic manifestInternal : jsval)
| Skipped (r : Run)
| Threw (r : Run) (err : error).

Definition newRun : Run := {| console := []; disk := [] |}.

Definition main (providersRoot : option node) (generatedAt : jsstring)
  : outcome :=
  match ensureDirs newRun with
  | inr (r, err) => Threw r err
  | inl r =>
  if negb (isDirectory providersRoot)
  then Skipped (say LogSkipping (say (ErrorSourceNotFound providersRootDir) r))
  else
    let '(providerIds, w) := listProviderDirs providersRoot in
    let r := say (LogBuilding providersRootDir) (sayAll w r) in
    let st :=
      fold_left (fun st providerId =>
                   processProvider providersRoot providerId st)
        providerIds
        {| run := r; manifestInternal := newManifest generatedAt;
           manifestPublic := newManifest generatedAt;
           modelTotal := 0 |} in
    let manifestInternal :=
      finishManifest (modelTotal st) (manifestInternal st) in
    let manifestPublic :=
      finishManifest (modelTotal st) (manifestPublic st) in
    let schema := buildJsonSchema in
    let r := run st in
    match assertInsideDir publicDefinitionsDir publicManifestPath
            "public manifest" with
    | Some err => Threw r err
    | None =>
    match assertInsideDir astroDataDir internalCatalogPath
            "internal catalog" with
    | Some err => Threw r err
    | None =>
    match assertInsideDir publicDefinitionsDir schemaPath "schema" with
    | Some err => Threw r err
    | None =>
    match writeJsonPretty publicManifestPath manifestPublic r with
    | inr (r, err) => Threw r err
    | inl r =>
    match writeJsonPretty internalCatalogPath manifestInternal r with
    | inr (r, err) => Threw r err
    | inl r =>
    match writeJsonPretty schemaPath schema r with
    | inr (r, err) => Threw r err
    | inl r =>
      let r :=
        say (LogSummary (getProp manifestPublic "total_providers")
               (getProp manifestPublic "total_models")) r in
      Built r manifestPublic manifestInternal
    end end end
    end end end
  end.

(** The module body: [try { await main() } catch { ...; process.exitCode
    = 1 }].  The exit status is 0 unless the handler set it. *)
Definition script (providersRoot : option node) (generatedAt : jsstring)
  : Run * Z :=
  match main providersRoot generatedAt with
  | Built r _ _ => (r, 0)
  | Skipped r => (r, 0)
  | Threw r err => (say (ErrorBuildFailed err) r, 1)
  end.
End Script.
End BuildDefinitions.

(** ** A host to run the scripts on *)

(** Collation of Basic Latin without case: the first differing unit, case
    folded, decides; a proper prefix comes first. *)
Fixpoint compareFolded (a b : jsstring) : Z :=
  match a, b with
  | [], [] => 0
  | [], _ :: _ => -1
  | _ :: _, [] => 1
  | x :: a', y :: b' =>
    match N.compare (asciiLower x) (asciiLower y) with
    | Lt => -1
    | Gt => 1
    | Eq => compareFolded a' b'
    end
  end.

(** A POSIX host for the examples: Basic Latin case folding and collation,
    the script in /repo/website/scripts, an archiver that always succeeds
    with a 1 KiB archive, and an output tree that can be written. *)
Definition exampleHost : Host :=
  {| toLowerCase := map asciiLower;
     localeCompare := compareFolded;
     cwd := lit "/repo/website";
     __dirname := lit "/repo/website/scripts";
     createSkillZip := fun _ _ _ => Some 1024%N;
     mkdir := fun _ => true;
     writeFile := fun _ => true |}.

(** The same host with an output tree that cannot be written. *)
Definition readOnlyHost : Host :=
  {| toLowerCase := map asciiLower;
     localeCompare := compareFolded;
     cwd := lit "/repo/website";
     __dirname := lit "/repo/website/scripts";
     createSkillZip := fun _ _ _ => None;
     mkdir := fun _ => false;
     writeFile := fun _ => false |}.

(** ** Notions the properties are stated with *)

(** The rules of the exclusion filter that look at the name alone. *)
Definition matchesNamePattern `{Host} (base : jsstring) : bool :=
  let baseLower := toLowerCase base in
  str_eqb base (lit ".DS_Store")
  || endsWith baseLower (lit ".pyc")
  || str_eqb base (lit ".git") || str_eqb base (lit ".svn")
  || str_eqb base (lit ".hg")
  || str_eqb base (lit ".env") || startsWith base (lit ".env.")
  || str_eqb base (lit ".npmrc")
  || str_eqb base (lit ".yarnrc") || str_eqb base (lit ".yarnrc.yml")
  || str_eqb base (lit ".pypirc")
  || str_eqb baseLower (lit "id_rsa") || str_eqb baseLower (lit "id_ed25519")
  || endsWith baseLower (lit ".pem") || endsWith baseLower (lit ".key")
  || endsWith baseLower (lit ".p12") || endsWith baseLower (lit ".pfx")
  || endsWith baseLower (lit ".swp") || endsWith baseLower (lit ".swo").

(** The path lies beneath a version-control directory. *)
Definition underVcsDirectory (rel : jsstring) : bool :=
  includes rel (lit "/.git/") || includes rel (lit "/.svn/")
  || includes rel (lit "/.hg/").

(** Some component of the path is on the directory deny-list. *)
Definition hasExcludedSegment (rel : jsstring) : bool :=
  existsb (fun seg => has excludedDirNames seg)
    (filter (fun s => nonEmpty s = true) (split sep rel)).

(** A finite number greater than zero. *)
Definition finitePositive (v : jsval) : Prop :=
  exists q : Qc, v = VNum (Finite q) /\ (0 < q)%Qc.

(** The run states [main] of build-skills.mjs can reach from [r]: zero or
    more further skills have gone through the body of the loop. *)
Inductive laterRun `{Host} (r : BuildSkills.Run) : BuildSkills.Run -> Prop :=
| later_now : laterRun r r
| later_skill (r' : BuildSkills.Run) (groupName groupSlug : jsstring)
    (s : BuildSkills.Candidate) (groupOutPublic groupOutInternal : jsval) :
    laterRun r r' ->
    laterRun r
      (BuildSkills.processSkill groupName groupSlug s
         (r', groupOutPublic, groupOutInternal)).1.1.

(** Every field a public record writes is a field of the internal record,
    level by level: a key of [pub] with a value other than [undefined]
    (JSON leaves those out) is a key of [int] with such a value, and the two
    values are related in the same way; arrays are compared item by item. *)
Fixpoint fieldsWithin (pub int : jsval) : bool :=
  match pub with
  | VObj props =>
    (fix each (ps : list (string * jsval)) : bool :=
       match ps with
       | [] => true
       | (k, v) :: rest =>
         (isUndefined v
          || negb (isUndefined (getProp int k))
             && fieldsWithin v (getProp int k))
         && each rest
       end) props
  | VArr items =>
    match int with
    | VArr items' =>
      (fix zip (xs ys : list jsval) {struct xs} : bool :=
         match xs, ys with
         | [], [] => true
         | x :: xs', y :: ys' => fieldsWithin x y && zip xs' ys'
         | _, _ => false
         end) items items'
    | _ => false
    end
  | _ => true
  end.

(** The group records of a manifest and the skills of a group record. *)
Definition groupsOf (manifest : jsval) : list jsval :=
  elements (getProp manifest "groups").
Definition skillsOf (group : jsval) : list jsval :=
  elements (getProp group "skills").
Definition providersOf (manifest : jsval) : list jsval :=
  elements (getProp manifest "providers").
Definition modelsOf (provider : jsval) : list jsval :=
  elements (getProp provider "models").

(** The sum of a list of counts. *)
Definition total (counts : list nat) : nat := fold_right Nat.add 0%nat counts.

(** What one turn of the loop over the groups adds, whatever the manifests
    hold: the run after it and the two finished group records; [None] when
    [listSkillDirs] throws. *)
Definition groupRecords `{Host} (skillsRoot : option node)
    (groupName : jsstring) (r : BuildSkills.Run)
  : option (BuildSkills.Run * jsval * jsval) :=
  let groupSlug := slugifyGroupName groupName in
  match BuildSkills.listSkillDirs
          (resolve [BuildSkills.skillsRootDir; groupName])
          (child skillsRoot groupName) with
  | None => None
  | Some skillDirs =>
    let '(r, groupOutPublic, groupOutInternal) :=
      fold_left
        (fun acc s => BuildSkills.processSkill groupName groupSlug s acc)
        skillDirs
        (r, BuildSkills.newGroup groupName groupSlug,
         BuildSkills.newGroup groupName groupSlug) in
    Some (r, BuildSkills.finishGroup groupOutPublic,
          BuildSkills.finishGroup groupOutInternal)
  end.

(** What the whole loop over the groups adds. *)
Fixpoint allGroupRecords `{Host} (skillsRoot : option node)
    (groupNames : list jsstring) (r : BuildSkills.Run)
  : BuildSkills.Run * list jsval * list jsval
    + BuildSkills.Run * BuildSkills.error :=
  match groupNames with
  | [] => inl (r, [], [])
  | groupName :: rest =>
    match groupRecords skillsRoot groupName r with
    | None =>
      inr (r, BuildSkills.ReaddirFailed
                (resolve [BuildSkills.skillsRootDir; groupName]))
    | Some (r', g, g') =>
      match allGroupRecords skillsRoot rest r' with
      | inl (r'', gs, gs') => inl (r'', g :: gs, g' :: gs')
      | inr thrown => inr thrown
      end
    end
  end.

(** A skills manifest with the given stamp, total and group records, and a
    group record with the given count and skills. *)
Definition skillsManifest (generatedAt : jsstring) (totalSkills : jsval)
    (groups : list jsval) : jsval :=
  VObj [ ("version", VStr VERSION); ("generated_at", VStr generatedAt);
         ("base_url", VStr BASE_URL); ("total_skills", totalSkills);
         ("groups", VArr groups) ].

Definition groupRecord (name slug : jsstring) (count : jsval)
    (skills : list jsval) : jsval :=
  VObj [ ("name", VStr name); ("slug", VStr slug); ("skill_count", count);
         ("skills", VArr skills) ].

Definition contentsRecord (hasScripts hasReferences hasLicense : bool)
  : jsval :=
  VObj [ ("has_scripts", VBool hasScripts);
         ("has_references", VBool hasReferences);
         ("has_license", VBool hasLicense) ].

(** [pub] and [int] are the public and the internal record of one skill. *)
Definition skillPair (groupSlug : jsstring) (pub int : jsval) : Prop :=
  exists skillName fullDescription skillFolderName zipSizeBytes fileCount
         hasScripts hasReferences hasLicense,
    pub = BuildSkills.newSkillPublic skillName fullDescription groupSlug
            skillFolderName zipSizeBytes fileCount
            (contentsRecord hasScripts hasReferences hasLicense)
    /\ int = BuildSkills.newSkillInternal skillName fullDescription groupSlug
               skillFolderName zipSizeBytes fileCount
               (contentsRecord hasScripts hasReferences hasLicense).

(** [pub] and [int] are the finished public and internal record of one
    group. *)
Definition groupPair `{Host} (pub int : jsval) : Prop :=
  exists groupName skillsPublic skillsInternal,
    pub = groupRecord groupName (slugifyGroupName groupName)
            (VLen skillsPublic) skillsPublic
    /\ int = groupRecord groupName (slugifyGroupName groupName)
               (VLen skillsInternal) skillsInternal
    /\ Forall2 (skillPair (slugifyGroupName groupName))
         skillsPublic skillsInternal.

(** A definitions manifest with the given stamp, totals and provider
    records. *)
Definition definitionsManifest (generatedAt : jsstring)
    (totalProviders totalModels : jsval) (providers : list jsval) : jsval :=
  VObj [ ("version", VStr VERSION); ("generated_at", VStr generatedAt);
         ("base_url", VStr BASE_URL); ("total_providers", totalProviders);
         ("total_models", totalModels); ("providers", VArr providers) ].

(** The loop variables of build-definitions.mjs before the first provider,
    with nothing on the console and no record in the manifests; and what one
    turn of the loop makes of them. *)
Definition blankLoop : BuildDefinitions.Loop :=
  {| BuildDefinitions.run := BuildDefinitions.newRun;
     BuildDefinitions.manifestInternal := VObj [("providers", VArr [])];
     BuildDefinitions.manifestPublic := VObj [("providers", VArr [])];
     BuildDefinitions.modelTotal := 0 |}.

Definition providerAdded `{Host} (providersRoot : option node)
    (providerId : jsstring) : BuildDefinitions.Loop :=
  BuildDefinitions.processProvider providersRoot providerId blankLoop.

Definition addedWarnings `{Host} (providersRoot : option node)
    (providerId : jsstring) : list BuildDefinitions.message :=
  BuildDefinitions.console
    (BuildDefinitions.run (providerAdded providersRoot providerId)).

Definition addedInternal `{Host} (providersRoot : option node)
    (providerId : jsstring) : jsval :=
  default VUndef
    (last (providersOf
             (BuildDefinitions.manifestInternal
                (providerAdded providersRoot providerId)))).

Definition addedPublic `{Host} (providersRoot : option node)
    (providerId : jsstring) : jsval :=
  default VUndef
    (last (providersOf
             (BuildDefinitions.manifestPublic
                (providerAdded providersRoot providerId)))).

Definition addedModels `{Host} (providersRoot : option node)
    (providerId : jsstring) : nat :=
  BuildDefinitions.modelTotal (providerAdded providersRoot providerId).

(** A value [fieldsWithin] relates to itself. *)
Definition selfWithin (v : jsval) : Prop := fieldsWithin v v = true.

(** [pub] and [int] are the public and the internal record of one provider
    with [n] models. *)
Definition providerPair `{Host} (n : nat) (pub int : jsval) : Prop :=
  exists (id name env npm doc : jsval) (api : list (string * jsval))
         (hasLogo : bool) (models : list jsval),
    int = VObj ([ ("id", id); ("name", name); ("env", env); ("npm", npm);
                  ("doc", doc) ]
                ++ api
                ++ [ ("has_logo", VBool hasLogo);
                     ("model_count", VLen models);
                     ("models", VArr models) ])
    /\ pub = VObj ([ ("id", id); ("name", name); ("npm", npm); ("doc", doc) ]
                   ++ api
                   ++ [ ("has_logo", VBool hasLogo);
                        ("model_count", VLen models);
                        ("models",
                         VArr (map BuildDefinitions.toPublicModel models)) ])
    /\ n = length models
    /\ (exists s, name = VStr s)
    /\ (exists s, id = VStr s) /\ (exists s, npm = VStr s)
    /\ (exists s, doc = VStr s)
    /\ (api = [] \/ exists s, api = [("api", VStr s)])
    /\ Forall (fun m => fieldsWithin (BuildDefinitions.toPublicModel m) m
                        = true) models.

(** A value with the value of its [generated_at] field replaced. *)
Definition stampWith (generatedAt : jsstring) (v : jsval) : jsval :=
  match v with
  | VObj props =>
    VObj (map (fun kv => if String.eqb (fst kv) "generated_at"
                         then (fst kv, VStr generatedAt) else kv) props)
  | _ => v
  end.

(** A write, with the [generated_at] of the value it serialises replaced. *)
Definition restamp (generatedAt : jsstring) (e : effect) : effect :=
  match e with
  | WriteJson p data => WriteJson p (stampWith generatedAt data)
  | _ => e
  end.

(** The counts of a group record and of a provider record agree with the
    arrays they count. *)
Definition groupCounted (group : jsval) : Prop :=
  getProp group "skill_count" = VLen (skillsOf group).
Definition providerCounted (provider : jsval) : Prop :=
  getProp provider "model_count" = VLen (modelsOf provider).

(** The totals of a skills manifest and of a definitions manifest agree with
    the records it holds. *)
Definition skillsCounted (manifest : jsval) : Prop :=
  Forall groupCounted (groupsOf manifest)
  /\ getProp manifest "total_skills"
     = VNum (ofNat (total (map (fun g => length (skillsOf g))
                             (groupsOf manifest)))).
Definition definitionsCounted (manifest : jsval) : Prop :=
  Forall providerCounted (providersOf manifest)
  /\ getProp manifest "total_models"
     = VNum (ofNat (total (map (fun p => length (modelsOf p))
                             (providersOf manifest))))
  /\ getProp manifest "total_providers" = VLen (providersOf manifest).


(** ** Example corpora *)

Definition skillDir (name description : string) : node :=
  Dir true
    [ (lit "SKILL.md",
       File (Some (VObj [ ("name", VLit name);
                          ("description", VLit description) ])));
      (lit "notes.txt", File None);
      (lit ".git", Dir true [(lit "config", File None)]) ].

(** Two groups whose names differ and whose slugs are the same. *)
Definition clashingGroups : option node :=
  Some (Dir true
          [ (lit "foo bar", Dir true [(lit "alpha", skillDir "Alpha" "First")]);
            (lit "foo-bar", Dir true [(lit "beta", skillDir "Beta" "Second")]) ]).

(** Two groups whose names differ in case alone, and the two orders in which
    [readdir] may list them. *)
Definition upperTools : jsstring * node :=
  (lit "Tools", Dir true [(lit "hammer", skillDir "Hammer" "Drives nails")]).
Definition lowerTools : jsstring * node :=
  (lit "tools", Dir true [(lit "saw", skillDir "Saw" "Cuts wood")]).
Definition upperListedFirst : option node :=
  Some (Dir true [upperTools; lowerTools]).
Definition lowerListedFirst : option node :=
  Some (Dir true [lowerTools; upperTools]).

(** One provider with a complete model and a model without [attachment]. *)
Definition modelFile (name : string) (fields : list (string * jsval)) : node :=
  File (Some (VObj ([ ("name", VLit name);
                      ("release_date", VLit "2025-01-01");
                      ("last_updated", VLit "2025-02-01");
                      ("reasoning", VBool true);
                      ("tool_call", VBool true);
                      ("open_weights", VBool false);
                      ("cost", VObj [ ("input", VInt 3); ("output", VInt 15);
                                      ("cache_read", VInt 1) ]);
                      ("limit", VObj [ ("context", VInt 200000);
                                       ("output", VInt 8192) ]);
                      ("modalities",
                       VObj [ ("input", VArr [VLit "text"]);
                              ("output", VArr [VLit "text"]) ]) ]
                    ++ fields))).

Definition sampleProviders : option node :=
  Some (Dir true
          [ (lit "acme",
             Dir true
               [ (lit "provider.toml",
                  File (Some (VObj [ ("name", VLit "Acme");
                                     ("env", VArr [VLit "ACME_API_KEY"]);
                                     ("npm", VLit "@ai-sdk/acme");
                                     ("doc", VLit "https://acme.example/docs") ])));
                 (lit "logo.svg", File None);
                 (lit "models",
                  Dir true
                    [ (lit "large.toml",
                       modelFile "Acme Large" [("attachment", VBool true)]);
                      (lit "small.toml", modelFile "Acme Small" []) ]) ]) ]).

Definition sampleStamp : jsstring := lit "2026-01-01T00:00:00.000Z".

(** One field of a public record against the internal record: it is
    [undefined], or the internal record has it and the two values are
    related by [fieldsWithin]. *)
Definition fieldOk (int : jsval) (kv : string * jsval) : bool :=
  isUndefined kv.2
  || negb (isUndefined (getProp int kv.1)) && fieldsWithin kv.2 (getProp int kv.1).

(** A skill folder whose name climbs out of the downloads directory, and an
    ordinary one. *)
Definition evilSkill : BuildSkills.Candidate :=
  {| BuildSkills.dirName := lit "../../evil";
     BuildSkills.absPath := lit "/repo/evil";
     BuildSkills.dirNode := Dir true [(lit "SKILL.md", File (Some (VObj [])))] |}.


(** A unit a slug may hold: a lower-case letter, a digit or a dash. *)
Definition slugUnit (c : N) : Prop := isLowerAlnum c = true \/ c = dash.

(** An archive write goes to a path the boundary check lets through. *)
Definition archiveInside `{Host} (e : effect) : Prop :=
  match e with
  | WriteZip p _ => BuildSkills.escapesDownloads p = false
  | _ => True
  end.

(** The description of a public skill record is within the budget. *)
Definition descriptionBounded (skill : jsval) : Prop :=
  exists d, getProp skill "description" = VStr d /\ (length d <= 500)%nat.

(** A public cost holds [input] and [output] only, each a finite number. *)
Definition coarseCost (cost : jsval) : Prop :=
  cost = VUndef
  \/ exists props,
       cost = VObj props /\ props <> []
       /\ Forall (fun kv => (fst kv = "input" \/ fst kv = "output")
                            /\ exists q, snd kv = VNum (Finite q)) props.

(** A write that makes a directory: neither an archive nor a JSON file. *)
Definition madeDirectory (e : effect) : Prop :=
  match e with
  | Mkdir _ => True
  | _ => False
  end.

(** ** Notions of the further properties *)

(** A path component [path.resolve] keeps as it is: not empty, neither [.]
    nor [..], and without a separator. *)
Definition plainName (s : jsstring) : Prop :=
  s <> [] /\ s <> lit "." /\ s <> lit ".." /\ sep ∉ s.

(** The components of a path, and the absolute path with given components. *)
Definition components (p : jsstring) : list jsstring :=
  filter (fun s => nonEmpty s = true) (split sep p).

Definition rooted (segs : list jsstring) : jsstring :=
  slash ++ join slash segs.

(** [p], resolved, has the components of [base], resolved, as its leading
    components. *)
Definition lexicallyInside `{Host} (base p : jsstring) : Prop :=
  components (resolve [base]) `prefix_of` components (resolve [p]).

(** The test both scripts make on [path.relative(base, target)]. *)
Definition climbsOut (rel : jsstring) : bool :=
  isAbsolute rel
  || str_eqb (join slash (split sep rel)) (lit "..")
  || startsWith (join slash (split sep rel)) (lit "../").

(** The [download_url] and the [zip_size_bytes] of a skill record, and all
    the skill records of a manifest. *)
Definition urlOf (skill : jsval) : jsval := getProp skill "download_url".

Definition zipSizeOf (skill : jsval) : Z :=
  match getProp skill "zip_size_bytes" with
  | VNum (Finite q) => toIntegerOrInfinity q
  | _ => 0
  end.

Definition allSkills (manifest : jsval) : list jsval :=
  concat (map skillsOf (groupsOf manifest)).

Definition sumZ (l : list Z) : Z := fold_right Z.add 0 l.

(** The skill directories [main] of build-skills.mjs goes through: those
    [listSkillDirs] returns for each group [listGroups] returns. *)
Definition skillDirsOf `{Host} (skillsRoot : option node)
    (groupName : jsstring) : list BuildSkills.Candidate :=
  default []
    (BuildSkills.listSkillDirs (resolve [BuildSkills.skillsRootDir; groupName])
       (child skillsRoot groupName)).

Definition candidateCount `{Host} (skillsRoot : option node) : nat :=
  total (map (fun g => length (skillDirsOf skillsRoot g))
           (default [] (BuildSkills.listGroups skillsRoot))).

(** What [n] turns of the loop over the skills do to the run, [x] being the
    records they added to a manifest: the counters account for each turn,
    the byte total is the sum of the sizes recorded, and each record has the
    URL of a folder name first seen in these turns. *)
Definition tally (n : nat) (r r' : BuildSkills.Run) (x : list jsval) : Prop :=
  BuildSkills.seenSkillFolderNames r ⊆ BuildSkills.seenSkillFolderNames r'
  /\ (BuildSkills.packagedCount r' + BuildSkills.errorCount r'
      = BuildSkills.packagedCount r + BuildSkills.errorCount r + N.of_nat n)%N
  /\ (BuildSkills.packagedCount r <= BuildSkills.packagedCount r')%N
  /\ (BuildSkills.packagedCount r'
      <= BuildSkills.packagedCount r + N.of_nat (length x))%N
  /\ (length x <= n)%nat
  /\ Z.of_N (BuildSkills.totalZipBytes r')
     = Z.of_N (BuildSkills.totalZipBytes r) + sumZ (map zipSizeOf x)
  /\ NoDup (map urlOf x)
  /\ Forall (fun p => exists f,
                 urlOf p = VStr (BuildSkills.downloadUrl f)
                 /\ f ∈ BuildSkills.seenSkillFolderNames r'
                 /\ f ∉ BuildSkills.seenSkillFolderNames r) x.

(** [b] does not collate before [a]. *)
Definition notAfter `{Host} (a b : jsstring) : Prop :=
  (localeCompare b a <? 0) = false.

(** No item collates before an item that precedes it. *)
Fixpoint sortedBy `{Host} {A : Type} (key : A -> jsstring) (l : list A)
  : Prop :=
  match l with
  | [] => True
  | a :: rest =>
    Forall (fun b => notAfter (key a) (key b)) rest /\ sortedBy key rest
  end.

(** The collation is a consistent comparator: [a] before [b] excludes [b]
    before [a], and not-before is transitive. *)
Definition consistentCollation `{Host} : Prop :=
  (forall a b, localeCompare a b < 0 -> ~ localeCompare b a < 0)
  /\ (forall a b c, notAfter a b -> notAfter b c -> notAfter a c).

(** A normalised model record of a provider. *)
Definition normalizedFor `{Host} (providerId : jsstring) (m : jsval) : Prop :=
  exists modelId modelToml modelTomlPath,
    m = (BuildDefinitions.normalizeModelToml providerId modelId modelToml
           modelTomlPath).1.

(** A normalised provider record. *)
Definition normalizedProvider `{Host} (providerId : jsstring) (meta : jsval)
  : Prop :=
  exists providerToml providerTomlPath,
    meta = (BuildDefinitions.normalizeProviderToml providerId providerToml
              providerTomlPath).1.

(** The public and the internal record of a provider, from its normalised
    metadata and its normalised models before they are sorted. *)
Definition providerInternal `{Host} (meta : jsval) (hasLogo : bool)
    (unsorted : list jsval) : jsval :=
  VObj ([ ("id", getProp meta "id"); ("name", getProp meta "name");
          ("env", getProp meta "env"); ("npm", getProp meta "npm");
          ("doc", getProp meta "doc") ]
        ++ BuildDefinitions.spreadIf (truthy (getProp meta "api")) "api"
             (getProp meta "api")
        ++ [ ("has_logo", VBool hasLogo);
             ("model_count", VLen (sortBy nameOf unsorted));
             ("models", VArr (sortBy nameOf unsorted)) ]).

Definition providerPublic `{Host} (meta : jsval) (hasLogo : bool)
    (unsorted : list jsval) : jsval :=
  VObj ([ ("id", getProp meta "id"); ("name", getProp meta "name");
          ("npm", getProp meta "npm"); ("doc", getProp meta "doc") ]
        ++ BuildDefinitions.spreadIf (truthy (getProp meta "api")) "api"
             (getProp meta "api")
        ++ [ ("has_logo", VBool hasLogo);
             ("model_count", VLen (sortBy nameOf unsorted));
             ("models",
              VArr (map BuildDefinitions.toPublicModel
                      (sortBy nameOf unsorted))) ]).

(** The records of a manifest and the records inside each of them are in
    the order of their names. *)
Definition skillsOrdered `{Host} (manifest : jsval) : Prop :=
  sortedBy nameOf (groupsOf manifest)
  /\ Forall (fun g => sortedBy nameOf (skillsOf g)) (groupsOf manifest).

Definition definitionsOrdered `{Host} (manifest : jsval) : Prop :=
  sortedBy nameOf (providersOf manifest)
  /\ Forall (fun p => sortedBy nameOf (modelsOf p)) (providersOf manifest).

(** [relFromRoot ? `${relFromRoot}/${name}` : name] *)
Definition childRelOf (relFromRoot name : jsstring) : jsstring :=
  if nonEmpty relFromRoot then relFromRoot ++ slash ++ name else name.

(** An entry a walk looks into: the exclusion filter lets it through and it
    is a directory or a regular file. *)
Definition visited `{Host} (relFromRoot : jsstring) (e : jsstring * node)
  : bool :=
  negb (shouldExcludePath (childRelOf relFromRoot e.1)
          (direntIsDirectory e.2))
  && (direntIsDirectory e.2 || direntIsFile e.2).

(** What one entry adds to the count of [countIncludedFiles], and the sum of
    two counts, [None] when a [readdir] threw. *)
Definition counted `{Host} (relFromRoot : jsstring) (e : jsstring * node)
  : option nat :=
  if shouldExcludePath (childRelOf relFromRoot e.1) (direntIsDirectory e.2)
  then Some 0%nat
  else if direntIsDirectory e.2
       then BuildSkills.walkCount e.2 (childRelOf relFromRoot e.1)
       else if direntIsFile e.2 then Some 1%nat else Some 0%nat.

Definition addCounts (a b : option nat) : option nat :=
  match a, b with
  | Some x, Some y => Some (x + y)%nat
  | _, _ => None
  end.

Definition sumCounts (l : list (option nat)) : option nat :=
  fold_right addCounts (Some 0%nat) l.

(** A model file as [listModelTomlFiles] returns them: a regular file the
    exclusion filter lets through, whose name ends in [.toml] whatever the
    case of its letters. *)
Definition tomlFound `{Host} (f : BuildDefinitions.ModelFile) : Prop :=
  direntIsFile (BuildDefinitions.file f) = true
  /\ shouldExcludePath (BuildDefinitions.rel f) false = false
  /\ exists dir name,
       BuildDefinitions.rel f = childRelOf dir name
       /\ endsWith (toLowerCase name) (lit ".toml") = true.

(** Every skill record names the slug of the group record that holds it. *)
Definition skillsNameTheirGroup (manifest : jsval) : Prop :=
  Forall (fun g => Forall (fun s => getProp s "group" = getProp g "slug")
                     (skillsOf g))
    (groupsOf manifest).

(** The provider records are those of the given provider ids, one for each,
    and every model record names the id of the provider record that holds
    it. *)
Definition modelsNameTheirProvider (providerIds : list jsstring)
    (manifest : jsval) : Prop :=
  map (fun p => getProp p "id") (providersOf manifest)
  ≡ₚ map VStr providerIds
  /\ Forall (fun p => Forall (fun m => getProp m "provider" = getProp p "id")
                        (modelsOf p))
       (providersOf manifest).

(** ** Validation against a JSON Schema *)

(** Equality of two strings, unit by unit. *)
Fixpoint sameUnits (a b : jsstring) : bool :=
  match a, b with
  | [], [] => true
  | x :: a', y :: b' => N.eqb x y && sameUnits a' b'
  | _, _ => false
  end.

Definition wholeNumber (q : Qc) : bool := Pos.eqb (Qden (this q)) 1.
Definition atLeast (m q : Qc) : bool := Qle_bool (this m) (this q).

(** The JSON type of a value as [JSON.stringify] writes it: a date is
    written as a string, a number that is not finite as [null]. *)
Definition hasJsonType (t : jsstring) (v : jsval) : bool :=
  match v with
  | VUndef | VNull => sameUnits t (lit "null")
  | VBool _ => sameUnits t (lit "boolean")
  | VNum (Finite q) =>
    sameUnits t (lit "number") || sameUnits t (lit "integer") && wholeNumber q
  | VNum _ => sameUnits t (lit "null")
  | VStr _ | VDate _ => sameUnits t (lit "string")
  | VArr _ => sameUnits t (lit "array")
  | VObj _ => sameUnits t (lit "object")
  end.

(** The keyword [type]: one type name or a list of them. *)
Definition typeOk (schema v : jsval) : bool :=
  match getProp schema "type" with
  | VStr t => hasJsonType t v
  | VArr ts =>
    existsb (fun t => match t with VStr t => hasJsonType t v | _ => false end)
      ts
  | _ => true
  end.

(** The keyword [enum], on the scalar values the schemas list. *)
Definition sameScalar (a b : jsval) : bool :=
  match a, b with
  | VStr x, VStr y => sameUnits x y
  | VBool x, VBool y => Bool.eqb x y
  | VNull, VNull => true
  | VNum (Finite x), VNum (Finite y) => Qeq_bool (this x) (this y)
  | _, _ => false
  end.

Definition enumOk (schema v : jsval) : bool :=
  match getProp schema "enum" with
  | VArr allowed => existsb (sameScalar v) allowed
  | _ => true
  end.

(** The keyword [minimum]: it constrains numbers only. *)
Definition minimumOk (schema v : jsval) : bool :=
  match getProp schema "minimum", v with
  | VNum (Finite m), VNum (Finite q) => atLeast m q
  | _, _ => true
  end.

(** The keyword [required]: a property whose value is [undefined] is not
    written, so it is not present. *)
Definition present (props : list (string * jsval)) (k : jsstring) : bool :=
  existsb (fun kv => sameUnits (lit kv.1) k && negb (isUndefined kv.2)) props.

Definition requiredOk (schema : jsval) (props : list (string * jsval))
  : bool :=
  match getProp schema "required" with
  | VArr ks =>
    forallb (fun k => match k with VStr k => present props k | _ => true end)
      ks
  | _ => true
  end.

(** The target of a reference [#/$defs/<name>]. *)
Definition resolveRef (root : jsval) (r : jsstring) : option jsval :=
  match getProp root "$defs" with
  | VObj defs =>
    snd <$> find (fun kv => sameUnits (lit "#/$defs/" ++ lit kv.1) r) defs
  | _ => None
  end.

(** [validate bounds root fuel schema v]: the value [v], as JSON, satisfies
    the keywords [$ref], [type], [enum], [required], [properties],
    [additionalProperties] and [items] of [schema], and [minimum] when
    [bounds] is set; other keywords are annotations.  [fuel] bounds the
    depth of the descent. *)
Fixpoint validate (bounds : bool) (root : jsval) (fuel : nat)
    (schema v : jsval) : bool :=
  match fuel with
  | O => false
  | S fuel =>
    match getProp schema "$ref" with
    | VStr r =>
      match resolveRef root r with
      | Some target => validate bounds root fuel target v
      | None => false
      end
    | _ => true
    end
    && typeOk schema v && enumOk schema v
    && (negb bounds || minimumOk schema v)
    && match v with
       | VObj props =>
         requiredOk schema props
         && forallb
              (fun kv =>
                 isUndefined kv.2
                 || match getProp (getProp schema "properties") kv.1 with
                    | VUndef =>
                      match getProp schema "additionalProperties" with
                      | VBool false => false
                      | VObj more => validate bounds root fuel (VObj more) kv.2
                      | _ => true
                      end
                    | known => validate bounds root fuel known kv.2
                    end)
              props
       | VArr items =>
         match getProp schema "items" with
         | VUndef => true
         | each => forallb (validate bounds root fuel each) items
         end
       | _ => true
       end
  end.

(** The value satisfies the schema, the schema being its own root. *)
Definition validates (bounds : bool) (schema v : jsval) : bool :=
  validate bounds schema 12 schema v.

Arguments wholeNumber : simpl never.
Arguments atLeast : simpl never.

(** No two items of the list tie: two items neither of which collates before
    the other are the same item. *)
Definition untiedBy `{Host} {A : Type} (key : A -> jsstring) (l : list A)
  : Prop :=
  forall a b, a ∈ l -> b ∈ l ->
              notAfter (key a) (key b) -> notAfter (key b) (key a) -> a = b.

(** Two groups whose names do not tie. *)
Definition writingGroup : jsstring * node :=
  (lit "writing", Dir true [(lit "notes", skillDir "Notes" "Take notes")]).
Definition codingGroup : jsstring * node :=
  (lit "Coding", Dir true [(lit "review", skillDir "Review" "Read code")]).

(** Splits a disjunction of booleans known to be false into its parts. *)
Ltac split_orb H :=
  repeat (apply orb_false_elim in H; destruct H as [H ?]).

(** * Properties *)

(** ** Numbers *)

Lemma this_ofZ (z : Z) : this (Q2Qc (inject_Z z)) = inject_Z z.
Proof.
  simpl. apply Qred_identity. simpl. apply Z.gcd_1_r.
Qed.

Lemma Qle_bool_inject (a b : Z) : Qle_bool (inject_Z a) (inject_Z b) = (a <=? b).
Proof. unfold Qle_bool. simpl. by rewrite !Z.mul_1_r. Qed.

Lemma Qeq_bool_inject (a b : Z) : Qeq_bool (inject_Z a) (inject_Z b) = (a =? b).
Proof.
  unfold Qeq_bool. simpl. by rewrite !Z.mul_1_r.
Qed.

Lemma Qc_ofZ_minus (a b : Z) :
  (Q2Qc (inject_Z a) - Q2Qc (inject_Z b))%Qc = Q2Qc (inject_Z (a - b)).
Proof.
  apply Qc_is_canon. simpl.
  rewrite !Qred_correct. unfold Qeq. simpl. lia.
Qed.

Lemma Qc_ofZ_plus (a b : Z) :
  (Q2Qc (inject_Z a) + Q2Qc (inject_Z b))%Qc = Q2Qc (inject_Z (a + b)).
Proof.
  apply Qc_is_canon. simpl.
  rewrite !Qred_correct. unfold Qeq. simpl. lia.
Qed.

Lemma toInteger_ofZ (z : Z) : toIntegerOrInfinity (Q2Qc (inject_Z z)) = z.
Proof.
  unfold toIntegerOrInfinity. rewrite this_ofZ. simpl. apply Z.quot_1_r.
Qed.

(** ** truncate *)

Lemma slice_prefix (s : jsstring) (n : Z) :
  0 <= n -> slice s 0 n = take (Z.to_nat n) s.
Proof.
  intros Hn. unfold slice.
  replace (0 <? 0) with false by reflexivity.
  destruct (Z.ltb_spec n 0) as [?|_]; [lia|].
  rewrite (Z.min_l 0) by lia. rewrite Z.sub_0_r.
  change (Z.to_nat 0) with 0%nat. rewrite drop_0.
  destruct (Z.le_ge_cases n (Z.of_nat (length s))).
  - by rewrite Z.min_l.
  - rewrite Z.min_r by lia. rewrite Nat2Z.id.
    rewrite !take_ge; [done|lia|lia].
Qed.

(** [truncate] on a string and a positive whole budget. *)
Lemma truncate_whole (s : jsstring) (n : Z) :
  0 < n ->
  truncate (VStr s) (VInt n)
  = if Z.of_nat (length s) <=? n then s
    else take (Z.to_nat (n - 1)) s ++ [ellipsis].
Proof.
  intros Hn. unfold truncate, VInt, ofZ.
  rewrite this_ofZ. change 0%Q with (inject_Z 0). change 1%Q with (inject_Z 1).
  rewrite !Qle_bool_inject, Qeq_bool_inject.
  destruct (Z.leb_spec n 0) as [?|_]; [lia|].
  destruct (Z.leb_spec (Z.of_nat (length s)) n) as [?|Hlong]; [done|].
  destruct (Z.eqb_spec n 1) as [->|Hne]; [done|].
  unfold budgetLessOne. rewrite this_ofZ.
  replace (Qle_bool (inject_Z n) (1 # 18014398509481984)) with false
    by (symmetry; unfold Qle_bool; simpl; apply Z.leb_gt; lia).
  change 1%Qc with (Q2Qc (inject_Z 1)).
  rewrite Qc_ofZ_minus, toInteger_ofZ, slice_prefix by lia. done.
Qed.

Lemma truncate_whole_length (s : jsstring) (n : Z) :
  0 < n -> (length (truncate (VStr s) (VInt n)) <= Z.to_nat n)%nat.
Proof.
  intros Hn. rewrite truncate_whole by done.
  destruct (Z.leb_spec (Z.of_nat (length s)) n); [lia|].
  rewrite length_app, length_take.
  change (length [ellipsis]) with 1%nat. lia.
Qed.

(** C8: a description longer than the budget of 500 units becomes its first
    499 units and one ellipsis, 500 units in all; a description within the
    budget is kept as it is.  This is the [description] of the public record
    of a skill. *)
Theorem public_description_truncated
    (skillName s groupSlug skillFolderName : jsstring) (zipSizeBytes : N)
    (fileCount : nat) (contents : jsval) :
  let d := truncate (VStr s) (VNum PUBLIC_DESC_MAX_CHARS) in
  getProp (BuildSkills.newSkillPublic skillName s groupSlug skillFolderName
             zipSizeBytes fileCount contents) "description" = VStr d
  /\ d = (if (500 <? length s)%nat then take 499 s ++ [ellipsis] else s)
  /\ length d = Nat.min (length s) 500.
Proof.
  intros d. split; [reflexivity|].
  assert (Hd : d = if (500 <? length s)%nat
                   then take 499 s ++ [ellipsis] else s).
  { unfold d. change (VNum PUBLIC_DESC_MAX_CHARS) with (VInt 500).
    rewrite truncate_whole by done.
    destruct (Z.leb_spec (Z.of_nat (length s)) 500),
             (Nat.ltb_spec 500 (length s)); try lia; done. }
  split; [exact Hd|]. rewrite Hd.
  destruct (Nat.ltb_spec 500 (length s)).
  - rewrite length_app, length_take.
    change (length [ellipsis]) with 1%nat. lia.
  - lia.
Qed.

(** C10: [truncate] returns the empty string for a value that is not a
    string and for a budget that is not a finite positive number; for a
    string and a positive whole budget the result is no longer than the
    budget, and a budget of one turns a longer string into the ellipsis
    alone. *)
Theorem truncate_clamps (str maxChars : jsval) :
  ((forall s, str <> VStr s) -> truncate str maxChars = [])
  /\ (~ finitePositive maxChars -> truncate str maxChars = [])
  /\ (forall s n, str = VStr s -> maxChars = VInt (Z.pos n) ->
        (length (truncate str maxChars) <= Pos.to_nat n)%nat)
  /\ (forall s, str = VStr s -> maxChars = VInt 1 -> (1 < length s)%nat ->
        truncate str maxChars = [ellipsis]).
Proof.
  repeat split.
  - intros Hns. destruct str; try reflexivity. by destruct (Hns s).
  - intros Hnp. destruct str; try reflexivity.
    destruct maxChars as [| | |[| | |q]| | | |]; try reflexivity.
    unfold truncate. destruct (Qle_bool (this q) 0) eqn:E; [done|].
    destruct Hnp. exists q. split; [done|].
    apply Qnot_le_lt. intros Hle. apply Qle_bool_iff in Hle.
    change (Qle_bool (this q) 0 = true) in Hle. congruence.
  - intros s n -> ->. rewrite truncate_whole by lia.
    destruct (Z.leb_spec (Z.of_nat (length s)) (Z.pos n)); [lia|].
    rewrite length_app, length_take.
    change (length [ellipsis]) with 1%nat. lia.
  - intros s -> -> Hs. rewrite truncate_whole by lia.
    destruct (Z.leb_spec (Z.of_nat (length s)) 1); [lia|]. done.
Qed.

Lemma truncate_clamps_witness :
  truncate (VNum NaN) (VInt 3) = []
  /\ truncate (VLit "abcdef") (VStr []) = []
  /\ (length (truncate (VLit "abcdef") (VInt 3)) <= 3)%nat
  /\ truncate (VLit "abcdef") (VInt 1) = [ellipsis].
Proof.
  destruct (truncate_clamps (VNum NaN) (VInt 3)) as (H1 & _).
  destruct (truncate_clamps (VLit "abcdef") (VStr [])) as (_ & H2 & _).
  destruct (truncate_clamps (VLit "abcdef") (VInt 3)) as (_ & _ & H3 & _).
  destruct (truncate_clamps (VLit "abcdef") (VInt 1)) as (_ & _ & _ & H4).
  split; [|split; [|split]].
  - apply H1. intros s Hs. discriminate Hs.
  - apply H2. intros (q & Hq & _). discriminate Hq.
  - apply (H3 (lit "abcdef") 3%positive); reflexivity.
  - apply (H4 (lit "abcdef")); [reflexivity|reflexivity|].
    vm_compute. lia.
Defined.

(** ** The exclusion filter *)

Lemma join_split (s : jsstring) : join slash (split sep s) = s.
Proof.
  induction s as [|c s IH]; [reflexivity|].
  simpl. destruct (N.eqb_spec c sep) as [->|Hne].
  - destruct (split sep s) eqn:E; [by destruct s; simpl in E; repeat case_match|].
    rewrite <- IH. reflexivity.
  - destruct (split sep s) as [|w ws] eqn:E.
    + destruct s; simpl in E; repeat case_match; done.
    + rewrite <- IH. destruct ws; reflexivity.
Qed.

(** C3, as amended: for a path whose last component starts with a dot, a
    directory is always excluded; a file is let through when its name matches
    none of the name patterns, the path is not beneath a version-control
    directory and no component of it is on the directory deny-list. *)
Theorem dot_prefixed_entries `{Host} (rel : jsstring) :
  startsWith (basename rel) (lit ".") = true ->
  shouldExcludePath rel true = true
  /\ (matchesNamePattern (basename rel) = false ->
      underVcsDirectory rel = false ->
      hasExcludedSegment rel = false ->
      shouldExcludePath rel false = false).
Proof.
  intros Hdot. unfold shouldExcludePath. rewrite join_split. split.
  - rewrite Hdot. change (true && true) with true.
    repeat (match goal with
            | |- (if ?b then true else _) = true => destruct b; [reflexivity|]
            end).
    reflexivity.
  - intros Hname Hvcs Hseg. unfold matchesNamePattern in Hname.
    unfold underVcsDirectory in Hvcs. unfold hasExcludedSegment in Hseg.
    split_orb Hname. split_orb Hvcs. change sep with 47%N in Hseg.
    repeat match goal with E : _ = false |- _ => rewrite E; clear E end.
    reflexivity.

Qed.

Lemma dot_prefixed_entries_witness :
  startsWith (basename (lit ".gitkeep")) (lit ".") = true
  /\ @shouldExcludePath exampleHost (lit ".gitkeep") true = true
  /\ @shouldExcludePath exampleHost (lit ".gitkeep") false = false.
Proof.
  split; [reflexivity|].
  destruct (@dot_prefixed_entries exampleHost (lit ".gitkeep") eq_refl)
    as [Hdir Hfile].
  split; [exact Hdir|]. apply Hfile; reflexivity.
Defined.

(** C3, as stated, fails: a dot-prefixed file whose name matches no pattern
    is excluded when it lies in a directory of the deny-list. *)
Lemma dot_file_in_denied_directory_excluded :
  startsWith (basename (lit "node_modules/.gitkeep")) (lit ".") = true
  /\ @matchesNamePattern exampleHost (basename (lit "node_modules/.gitkeep"))
     = false
  /\ @shouldExcludePath exampleHost (lit "node_modules/.gitkeep") false = true.
Proof. vm_compute. repeat split. Qed.

(** ** The loop over the skills *)

Section SkillLoop.
Context `{Host}.
Import BuildSkills.

Lemma sayAll_fields (ms : list message) (r : Run) :
  seenSkillFolderNames (sayAll ms r) = seenSkillFolderNames r
  /\ packagedCount (sayAll ms r) = packagedCount r
  /\ errorCount (sayAll ms r) = errorCount r
  /\ totalZipBytes (sayAll ms r) = totalZipBytes r
  /\ console (sayAll ms r) = console r ++ ms
  /\ disk (sayAll ms r) = disk r.
Proof.
  revert r. induction ms as [|m ms IH]; intros r; simpl.
  - by rewrite app_nil_r.
  - destruct (IH (say m r)) as (-> & -> & -> & -> & -> & ->).
    simpl. by rewrite <- app_assoc.
Qed.




Lemma fold_laterRun (groupName groupSlug : jsstring) (l : list Candidate)
    (r : Run) (gp gi : jsval) :
  laterRun r
    (fold_left (fun acc s => processSkill groupName groupSlug s acc) l
       (r, gp, gi)).1.1.
Proof.
  induction l as [|s l IH] using rev_ind; [constructor|].
  rewrite fold_left_app. simpl.
  destruct (fold_left _ l _) as [[r' gp'] gi'] eqn:E. simpl in IH.
  by apply later_skill.
Qed.
End SkillLoop.

(** C1: a skill whose archive path escapes the downloads directory is
    dropped before anything is written: the writes made so far and the two
    group records stay as they were, and the error counter goes up by one. *)
Theorem escaping_archive_rejected `{Host} (groupName groupSlug : jsstring)
    (s : BuildSkills.Candidate) (r : BuildSkills.Run) (gp gi : jsval) :
  BuildSkills.escapesDownloads
    (resolve [BuildSkills.downloadsDir; BuildSkills.dirName s ++ lit ".zip"])
  = true ->
  let out := BuildSkills.processSkill groupName groupSlug s (r, gp, gi) in
  BuildSkills.disk out.1.1 = BuildSkills.disk r
  /\ out.1.2 = gp /\ out.2 = gi
  /\ BuildSkills.errorCount out.1.1 = (BuildSkills.errorCount r + 1)%N
  /\ BuildSkills.packagedCount out.1.1 = BuildSkills.packagedCount r.
Proof.
  intros Hesc. unfold BuildSkills.processSkill.
  destruct (BuildSkills.parseSkillFrontmatter _ _ _)
    as [[skillName fullDescription] ws].
  destruct (sayAll_fields ws r) as (_ & Hp & He & _ & _ & Hd).
  case_bool_decide.
  - simpl. by rewrite Hp, He, Hd.
  - rewrite Hesc. simpl. by rewrite Hp, He, Hd.
Qed.


Lemma escaping_archive_rejected_witness :
  @BuildSkills.escapesDownloads exampleHost
    (@resolve exampleHost
       [@BuildSkills.downloadsDir exampleHost; lit "../../evil.zip"]) = true
  /\ BuildSkills.disk
       (@BuildSkills.processSkill exampleHost (lit "writing") (lit "writing")
          evilSkill
          (BuildSkills.newRun, BuildSkills.newGroup (lit "writing") (lit "writing"),
           BuildSkills.newGroup (lit "writing") (lit "writing"))).1.1 = [].
Proof.
  split; [reflexivity|].
  apply (@escaping_archive_rejected exampleHost (lit "writing") (lit "writing")
           evilSkill BuildSkills.newRun).
  reflexivity.
Defined.




(** What [ensureDirs] leaves: the directories made, or the error of the
    first [mkdir] that rejected with nothing but directories made. *)
Lemma skills_ensureDirs `{Host} (r : BuildSkills.Run) :
  match BuildSkills.ensureDirs r with
  | inl r' =>
    r' = BuildSkills.perform (Mkdir BuildSkills.astroDataDir)
           (BuildSkills.perform (Mkdir (dirname BuildSkills.schemaPath))
              (BuildSkills.perform
                 (Mkdir (dirname BuildSkills.publicManifestPath))
                 (BuildSkills.perform (Mkdir BuildSkills.downloadsDir) r)))
  | inr (r', err) =>
    BuildSkills.console r' = BuildSkills.console r
    /\ exists made,
         BuildSkills.disk r' = BuildSkills.disk r ++ made
         /\ Forall madeDirectory made
  end.
Proof.
  unfold BuildSkills.ensureDirs, BuildSkills.makeDir.
  repeat (destruct (mkdir _); cbn [BuildSkills.perform BuildSkills.disk
                                   BuildSkills.console];
          [|split; [done|]; eexists; rewrite <- ?app_assoc;
            (split; [reflexivity || (by rewrite app_nil_r)|]);
            by repeat constructor]).
  reflexivity.
Qed.

Lemma definitions_ensureDirs `{Host} (r : BuildDefinitions.Run) :
  match BuildDefinitions.ensureDirs r with
  | inl r' =>
    r' = BuildDefinitions.perform (Mkdir BuildDefinitions.astroDataDir)
           (BuildDefinitions.perform
              (Mkdir BuildDefinitions.publicDefinitionsDir) r)
  | inr (r', err) =>
    BuildDefinitions.console r' = BuildDefinitions.console r
    /\ exists made,
         BuildDefinitions.disk r' = BuildDefinitions.disk r ++ made
         /\ Forall madeDirectory made
  end.
Proof.
  unfold BuildDefinitions.ensureDirs, BuildDefinitions.makeDir.
  repeat (destruct (mkdir _); cbn [BuildDefinitions.perform
                                   BuildDefinitions.disk
                                   BuildDefinitions.console];
          [|split; [done|]; eexists; rewrite <- ?app_assoc;
            (split; [reflexivity || (by rewrite app_nil_r)|]);
            by repeat constructor]).
  reflexivity.
Qed.

(** C6, as amended: when the skills root is missing, build-skills.mjs
    throws, leaves nothing but output directories and exits with status 1.
    When the providers root is missing and the output directories could be
    made, build-definitions.mjs logs that the source directory was not found
    and that it skips the build, returns from [main] having written no
    manifest and no schema, and exits with status 0; when a [mkdir] rejected,
    [main] threw before it looked for the root and the status is 1. *)
Theorem missing_root `{Host} (skillsRoot providersRoot : option node)
    (generatedAt : jsstring) :
  (isDirectory skillsRoot = false ->
   (BuildSkills.script skillsRoot generatedAt).2 = 1
   /\ Forall madeDirectory
        (BuildSkills.disk (BuildSkills.script skillsRoot generatedAt).1)
   /\ match BuildSkills.ensureDirs BuildSkills.newRun with
      | inl r =>
        BuildSkills.main skillsRoot generatedAt
        = inr (r, BuildSkills.SkillsRootNotFound BuildSkills.skillsRootDir)
        /\ BuildSkills.disk r
           = [ Mkdir BuildSkills.downloadsDir;
               Mkdir (dirname BuildSkills.publicManifestPath);
               Mkdir (dirname BuildSkills.schemaPath);
               Mkdir BuildSkills.astroDataDir ]
      | inr thrown => BuildSkills.main skillsRoot generatedAt = inr thrown
      end)
  /\ (isDirectory providersRoot = false ->
      Forall madeDirectory
        (BuildDefinitions.disk
           (BuildDefinitions.script providersRoot generatedAt).1)
      /\ match BuildDefinitions.ensureDirs BuildDefinitions.newRun with
         | inl r =>
           BuildDefinitions.main providersRoot generatedAt
           = BuildDefinitions.Skipped
               (BuildDefinitions.say BuildDefinitions.LogSkipping
                  (BuildDefinitions.say
                     (BuildDefinitions.ErrorSourceNotFound
                        BuildDefinitions.providersRootDir) r))
           /\ (BuildDefinitions.script providersRoot generatedAt).2 = 0
           /\ BuildDefinitions.console
                (BuildDefinitions.script providersRoot generatedAt).1
              = [ BuildDefinitions.ErrorSourceNotFound
                    BuildDefinitions.providersRootDir;
                  BuildDefinitions.LogSkipping ]
           /\ BuildDefinitions.disk
                (BuildDefinitions.script providersRoot generatedAt).1
              = [ Mkdir BuildDefinitions.publicDefinitionsDir;
                  Mkdir BuildDefinitions.astroDataDir ]
         | inr (r, err) =>
           BuildDefinitions.main providersRoot generatedAt
           = BuildDefinitions.Threw r err
           /\ (BuildDefinitions.script providersRoot generatedAt).2 = 1
         end).
Proof.
  split; intros Hroot.
  - unfold BuildSkills.script, BuildSkills.main. rewrite Hroot.
    pose proof (skills_ensureDirs BuildSkills.newRun) as He.
    destruct (BuildSkills.ensureDirs _) as [r|[r err]].
    + subst r. cbn [negb snd fst BuildSkills.say BuildSkills.perform
                    BuildSkills.disk BuildSkills.newRun app].
      split; [done|]. split; [by repeat constructor|]. by split.
    + destruct He as (_ & made & Hd & Hmade).
      cbn [snd fst BuildSkills.say BuildSkills.disk].
      split; [done|]. split; [|done]. by rewrite Hd.
  - unfold BuildDefinitions.script, BuildDefinitions.main. rewrite Hroot.
    pose proof (definitions_ensureDirs BuildDefinitions.newRun) as He.
    destruct (BuildDefinitions.ensureDirs _) as [r|[r err]].
    + subst r. cbn [negb snd fst BuildDefinitions.say BuildDefinitions.sayAll
                    BuildDefinitions.perform BuildDefinitions.disk
                    BuildDefinitions.console BuildDefinitions.newRun app].
      split; [by repeat constructor|]. by repeat split.
    + destruct He as (_ & made & Hd & Hmade).
      cbn [snd fst BuildDefinitions.say BuildDefinitions.sayAll
           BuildDefinitions.disk].
      split; [by rewrite Hd|]. by split.
Qed.

Lemma missing_root_witness :
  isDirectory None = false
  /\ (@BuildSkills.script exampleHost None sampleStamp).2 = 1
  /\ (@BuildDefinitions.script exampleHost None sampleStamp).2 = 0
  /\ BuildDefinitions.console
       (@BuildDefinitions.script exampleHost None sampleStamp).1
     = [ BuildDefinitions.ErrorSourceNotFound
           (@BuildDefinitions.providersRootDir exampleHost);
         BuildDefinitions.LogSkipping ]
  /\ (@BuildDefinitions.script readOnlyHost None sampleStamp).2 = 1.
Proof.
  destruct (@missing_root exampleHost None None sampleStamp) as [Hs Hd].
  destruct (@missing_root readOnlyHost None None sampleStamp) as [_ Hd'].
  split; [reflexivity|]. split; [exact (proj1 (Hs eq_refl))|].
  destruct (Hd eq_refl) as [_ Hok]. destruct (Hd' eq_refl) as [_ Hfail].
  cbn in Hok, Hfail.
  split; [exact (proj1 (proj2 Hok))|].
  split; [exact (proj1 (proj2 (proj2 Hok)))|exact (proj2 Hfail)].
Defined.

(** C6, as stated, fails for the definitions: with the providers root
    missing, build-definitions.mjs returns from [main] early and ends with
    exit status 0. *)
Lemma missing_providers_root_exits_zero :
  isDirectory None = false
  /\ (@BuildDefinitions.script exampleHost None sampleStamp).2 = 0
  /\ @BuildDefinitions.main exampleHost None sampleStamp
     = BuildDefinitions.Skipped
         {| BuildDefinitions.console :=
              [ BuildDefinitions.ErrorSourceNotFound
                  (lit "/repo/models.dev/providers");
                BuildDefinitions.LogSkipping ];
            BuildDefinitions.disk :=
              [ Mkdir (lit "/repo/website/public/definitions");
                Mkdir (lit "/repo/website/src/data") ] |}.
Proof. repeat split. Qed.

(** ** Sorting *)

Section SortFacts.
Context `{Host} {A B : Type} (keyA : A -> jsstring) (keyB : B -> jsstring).

Lemma insertSorted_length (x : A) (l : list A) :
  length (insertSorted keyA x l) = S (length l).
Proof.
  induction l as [|y l IH]; simpl; [done|].
  destruct (_ <? 0); simpl; by rewrite ?IH.
Qed.

Lemma sortBy_length (l : list A) : length (sortBy keyA l) = length l.
Proof.
  induction l as [|x l IH]; simpl; [done|].
  by rewrite insertSorted_length, IH.
Qed.

Lemma insertSorted_Permutation (x : A) (l : list A) :
  insertSorted keyA x l ≡ₚ x :: l.
Proof.
  induction l as [|y l IH]; simpl; [done|].
  destruct (_ <? 0); [|done].
  rewrite IH. apply Permutation_swap.
Qed.

Lemma sortBy_Permutation (l : list A) : sortBy keyA l ≡ₚ l.
Proof.
  induction l as [|x l IH]; simpl; [done|].
  by rewrite insertSorted_Permutation, IH.
Qed.

(** Two lists related item by item, with equal keys, stay so when each is
    sorted. *)
Lemma sortBy_Forall2 (R : A -> B -> Prop) (l : list A) (l' : list B) :
  (forall a b, R a b -> keyA a = keyB b) ->
  Forall2 R l l' -> Forall2 R (sortBy keyA l) (sortBy keyB l').
Proof.
  intros Hkey. induction 1 as [|x x' l l' Hx _ IH]; simpl; [constructor|].
  induction IH as [|y y' m m' Hy Hm IHm]; simpl.
  - by repeat constructor.
  - rewrite (Hkey _ _ Hx), (Hkey _ _ Hy).
    destruct (_ <? 0); [by constructor|by repeat constructor].
Qed.

Lemma sortBy_map (f : B -> A) (l : list B) :
  (forall b, keyA (f b) = keyB b) ->
  sortBy keyA (map f l) = map f (sortBy keyB l).
Proof.
  intros Hkey. induction l as [|x l IH]; simpl; [done|].
  rewrite IH. clear IH. induction (sortBy keyB l) as [|y m IHm]; simpl; [done|].
  rewrite !Hkey. destruct (_ <? 0); simpl; by rewrite ?IHm.
Qed.
End SortFacts.

(** ** The loop over the groups of build-skills.mjs *)

Section GroupLoop.
Context `{Host}.
Import BuildSkills.

Lemma processSkill_pushes (groupName groupSlug : jsstring) (s : Candidate)
    (r : Run) (name slug : jsstring) (count : jsval)
    (ps is_ : list jsval) :
  exists r' ps' is',
    processSkill groupName groupSlug s
      (r, groupRecord name slug count ps, groupRecord name slug count is_)
    = (r', groupRecord name slug count (ps ++ ps'),
       groupRecord name slug count (is_ ++ is'))
    /\ Forall2 (skillPair groupSlug) ps' is'.
Proof.
  unfold processSkill.
  destruct (parseSkillFrontmatter _ _ _) as [[skillName fullDescription] ws].
  case_bool_decide.
  { exists (countError (say (WarnDuplicate (dirName s) groupName) (sayAll ws r))), [], [].
    rewrite !app_nil_r. split; [done|constructor]. }
  destruct (escapesDownloads _).
  { eexists _, [], []. rewrite !app_nil_r. split; [done|constructor]. }
  destruct (countIncludedFiles _); [destruct (createSkillZip _ _ _)|];
    (eexists _, [_], [_]; split; [reflexivity|]);
    repeat constructor; unfold skillPair, detectSkillContents;
    eexists _, _, _, _, _, _, _, _; split; reflexivity.
Qed.

Lemma fold_processSkill_pushes (groupName groupSlug : jsstring)
    (l : list Candidate) (r : Run) (name slug : jsstring) (count : jsval)
    (ps is_ : list jsval) :
  exists r' ps' is',
    fold_left (fun acc s => processSkill groupName groupSlug s acc) l
      (r, groupRecord name slug count ps, groupRecord name slug count is_)
    = (r', groupRecord name slug count (ps ++ ps'),
       groupRecord name slug count (is_ ++ is'))
    /\ Forall2 (skillPair groupSlug) ps' is'.
Proof.
  revert r ps is_. induction l as [|s l IH]; intros r ps is_; cbn [fold_left].
  - exists r, [], []. rewrite !app_nil_r. split; [done|constructor].
  - destruct (processSkill_pushes groupName groupSlug s r name slug count
                ps is_) as (r1 & ps1 & is1 & -> & H1).
    destruct (IH r1 (ps ++ ps1) (is_ ++ is1)) as (r2 & ps2 & is2 & -> & H2).
    exists r2, (ps1 ++ ps2), (is1 ++ is2). rewrite !app_assoc.
    split; [done|]. by apply Forall2_app.
Qed.

Lemma skillPair_name (groupSlug : jsstring) (pub int : jsval) :
  skillPair groupSlug pub int -> nameOf pub = nameOf int.
Proof. intros (?&?&?&?&?&?&?&?&->&->). reflexivity. Qed.

Lemma finishGroup_record (name slug : jsstring) (count : jsval)
    (skills : list jsval) :
  finishGroup (groupRecord name slug count skills)
  = groupRecord name slug (VLen (sortBy nameOf skills))
      (sortBy nameOf skills).
Proof. reflexivity. Qed.

(** One turn of the loop adds a pair of finished group records. *)
Lemma groupRecords_pair (skillsRoot : option node) (groupName : jsstring)
    (r r' : Run) (g g' : jsval) :
  groupRecords skillsRoot groupName r = Some (r', g, g') -> groupPair g g'.
Proof.
  unfold groupRecords. destruct (listSkillDirs _ _) as [skillDirs|]; [|done].
  destruct (fold_processSkill_pushes groupName (slugifyGroupName groupName)
              skillDirs r groupName (slugifyGroupName groupName) (VInt 0)
              [] []) as (r1 & ps & is_ & E & Hpairs).
  change (groupRecord groupName (slugifyGroupName groupName) (VInt 0) [])
    with (newGroup groupName (slugifyGroupName groupName)) in E.
  rewrite E. simpl. intros [= <- <- <-].
  rewrite !finishGroup_record.
  exists groupName, (sortBy nameOf ps), (sortBy nameOf is_).
  split; [done|]. split; [done|].
  apply sortBy_Forall2; [|done]. apply skillPair_name.
Qed.

Lemma allGroupRecords_pairs (skillsRoot : option node)
    (groupNames : list jsstring) (r r' : Run) (gs gs' : list jsval) :
  allGroupRecords skillsRoot groupNames r = inl (r', gs, gs') ->
  Forall2 groupPair gs gs'.
Proof.
  revert r r' gs gs'.
  induction groupNames as [|groupName rest IH]; intros r r' gs gs'; simpl.
  - intros [= <- <- <-]. constructor.
  - destruct (groupRecords _ _ _) as [[[r1 g] g']|] eqn:E; [|done].
    destruct (allGroupRecords _ _ _) as [[[r2 hs] hs']|] eqn:E'; [|done].
    intros [= <- <- <-]. constructor; [|by eapply IH].
    by eapply groupRecords_pair.
Qed.

Lemma processGroup_records (skillsRoot : option node) (groupName : jsstring)
    (r : Run) (mp mi : jsval) :
  processGroup skillsRoot groupName (r, mp, mi)
  = match groupRecords skillsRoot groupName r with
    | Some (r', g, g') =>
      inl (r', pushProp mp "groups" g, pushProp mi "groups" g')
    | None => inr (r, ReaddirFailed (resolve [skillsRootDir; groupName]))
    end.
Proof.
  unfold processGroup, groupRecords.
  destruct (listSkillDirs _ _); [|done].
  by destruct (fold_left _ _ _) as [[r' gp] gi].
Qed.

Lemma forGroups_records (skillsRoot : option node)
    (groupNames : list jsstring) (r : Run) (generatedAt : jsstring)
    (count : jsval) (gp gi : list jsval) :
  forGroups skillsRoot groupNames
    (r, skillsManifest generatedAt count gp,
     skillsManifest generatedAt count gi)
  = match allGroupRecords skillsRoot groupNames r with
    | inl (r', gs, gs') =>
      inl (r', skillsManifest generatedAt count (gp ++ gs),
           skillsManifest generatedAt count (gi ++ gs'))
    | inr thrown => inr thrown
    end.
Proof.
  revert r gp gi.
  induction groupNames as [|groupName rest IH]; intros r gp gi;
    cbn [forGroups allGroupRecords].
  - by rewrite !app_nil_r.
  - rewrite processGroup_records.
    destruct (groupRecords _ _ _) as [[[r1 g] g']|]; [|done].
    change (pushProp (skillsManifest generatedAt count gp) "groups" g)
      with (skillsManifest generatedAt count (gp ++ [g])).
    change (pushProp (skillsManifest generatedAt count gi) "groups" g')
      with (skillsManifest generatedAt count (gi ++ [g'])).
    rewrite IH.
    destruct (allGroupRecords _ _ _) as [[[r2 hs] hs']|]; [|done].
    by rewrite <- !app_assoc.
Qed.

(** What [main] returns, with the loop over the groups folded into
    [allGroupRecords]. *)
Lemma skills_main_records (skillsRoot : option node) (generatedAt : jsstring) :
  main skillsRoot generatedAt
  = match ensureDirs newRun with
    | inr thrown => inr thrown
    | inl r0 =>
      if negb (isDirectory skillsRoot)
      then inr (r0, SkillsRootNotFound skillsRootDir)
      else
        match listGroups skillsRoot with
        | None => inr (r0, ReaddirFailed skillsRootDir)
        | Some groupNames =>
          match allGroupRecords skillsRoot groupNames
                  (say (LogBuilding skillsRootDir downloadsDir) r0) with
          | inr thrown => inr thrown
          | inl (r, gs, gs') =>
            let mp :=
              skillsManifest generatedAt
                (totalSkills (skillsManifest generatedAt (VInt 0) gs)) gs in
            let mi :=
              skillsManifest generatedAt
                (totalSkills (skillsManifest generatedAt (VInt 0) gs')) gs' in
            match writeJsonPretty publicManifestPath mp r with
            | inr thrown => inr thrown
            | inl r1 =>
            match writeJsonPretty internalCatalogPath mi r1 with
            | inr thrown => inr thrown
            | inl r2 =>
            match writeJsonPretty schemaPath buildJsonSchema r2 with
            | inr thrown => inr thrown
            | inl r3 =>
              inl {| run :=
                       say (LogSummary (length gs)
                              (getProp mp "total_skills")
                              (packagedCount r3) (totalZipBytes r3)
                              (errorCount r3)) r3;
                     manifestPublic := mp;
                     manifestInternal := mi |}
            end end end
          end
        end
    end.
Proof.
  unfold main. destruct (ensureDirs _) as [r0|]; [|done].
  destruct (negb _); [done|].
  destruct (listGroups _) as [groupNames|]; [|done].
  change (newManifest generatedAt)
    with (skillsManifest generatedAt (VInt 0) []).
  rewrite forGroups_records.
  destruct (allGroupRecords _ _ _) as [[[r gs] gs']|]; [|done].
  reflexivity.
Qed.
End GroupLoop.

(** ** Fields of public and internal records *)


Lemma fieldsWithin_obj (props : list (string * jsval)) (int : jsval) :
  fieldsWithin (VObj props) int = forallb (fieldOk int) props.
Proof.
  simpl. induction props as [|[k v] props IH]; [done|].
  simpl. by rewrite IH.
Qed.

Lemma fieldsWithin_arr (xs ys : list jsval) :
  Forall2 (fun x y => fieldsWithin x y = true) xs ys ->
  fieldsWithin (VArr xs) (VArr ys) = true.
Proof.
  simpl. induction 1 as [|x y xs ys Hxy _ IH]; [done|].
  by rewrite Hxy, IH.
Qed.

Lemma fieldsWithin_strings (l : list jsstring) :
  fieldsWithin (VArr (map VStr l)) (VArr (map VStr l)) = true.
Proof.
  apply fieldsWithin_arr. induction l; constructor; done.
Qed.

Lemma fieldOk_self (int : jsval) (k : string) :
  fieldsWithin (getProp int k) (getProp int k) = true ->
  fieldOk int (k, getProp int k) = true.
Proof.
  intros Hself. unfold fieldOk. simpl. rewrite Hself.
  by destruct (isUndefined _).
Qed.

Lemma forallb_spreadIf (f : string * jsval -> bool) (c : bool) (k : string)
    (v : jsval) :
  forallb f (BuildDefinitions.spreadIf c k v) = (if c then f (k, v) else true).
Proof. destruct c; simpl; [by rewrite andb_true_r|done]. Qed.

Lemma truthy_defined (v : jsval) : truthy v = true -> isUndefined v = false.
Proof. by destruct v. Qed.

Lemma publicCost_within (m : jsval) (input output : option jsnum) :
  input = BuildDefinitions.asNumber (getProp (getProp m "cost") "input") ->
  output = BuildDefinitions.asNumber (getProp (getProp m "cost") "output") ->
  let publicCost :=
    if negb (BuildDefinitions.isPlainObject (getProp m "cost")) then VUndef
    else if BuildDefinitions.isNone input && BuildDefinitions.isNone output
         then VUndef
         else VObj (match input with
                    | Some n => [("input", VNum n)]
                    | None => []
                    end
                    ++ match output with
                       | Some n => [("output", VNum n)]
                       | None => []
                       end) in
  (if truthy publicCost then fieldOk m ("cost", publicCost) else true) = true.
Proof.
  intros Hi Ho. unfold fieldOk. cbn [fst snd].
  destruct (getProp m "cost") as [| | | | | | |cp] eqn:Ec; try done.
  - cbn in Hi, Ho. by subst.
  - cbn [getProp] in Hi, Ho. cbn [BuildDefinitions.isPlainObject negb].
    destruct (lookupProp cp "input") as [| | |[| | |qi]| | | |] eqn:Ei;
      destruct (lookupProp cp "output") as [| | |[| | |qo]| | | |] eqn:Eo;
      cbn in Hi, Ho; subst input output; cbn; rewrite ?Ei, ?Eo; done.
Qed.

(** The public record of a model has no field its internal record lacks,
    when the fields copied as they are relate to themselves. *)
Lemma toPublicModel_within (m : jsval) :
  Forall (fun k => fieldsWithin (getProp m k) (getProp m k) = true)
    [ "id"; "name"; "family"; "provider"; "release_date"; "last_updated";
      "attachment"; "reasoning"; "tool_call"; "open_weights"; "temperature";
      "structured_output"; "knowledge"; "status"; "modalities"; "limit" ] ->
  fieldsWithin (BuildDefinitions.toPublicModel m) m = true.
Proof.
  intros Hself. unfold BuildDefinitions.toPublicModel.
  rewrite fieldsWithin_obj, !forallb_app, !forallb_spreadIf.
  rewrite !Forall_cons in Hself.
  destruct Hself as (?&?&?&?&?&?&?&?&?&?&?&?&?&?&?&?&_).
  cbn [forallb]. rewrite !fieldOk_self by done. cbn [andb].
  repeat match goal with
         | |- context [if ?c then fieldOk m (?k, getProp m ?k) else true] =>
           rewrite (fieldOk_self m k) by done
         end.
  assert (forall c : bool, (if c then true else true) = true) as Hif
    by (by intros []).
  rewrite !Hif. cbn [andb].
  rewrite (publicCost_within m _ _ eq_refl eq_refl), andb_true_r.
  destruct (truthy (getProp m "description")) eqn:Hd; [|done].
  unfold fieldOk. cbn [fst snd isUndefined orb].
  by rewrite (truthy_defined _ Hd).
Qed.

(** ** The loop over the providers of build-definitions.mjs *)

Section ProviderLoop.
Context `{Host}.
Import BuildDefinitions.

Lemma normalized_within (providerId modelId : jsstring) (modelToml : jsval)
    (modelTomlPath : jsstring) :
  let m := (normalizeModelToml providerId modelId modelToml modelTomlPath).1 in
  fieldsWithin (toPublicModel m) m = true.
Proof.
  intros m. apply toPublicModel_within. unfold m, normalizeModelToml.
  cbn [fst getProp lookupProp String.eqb Ascii.eqb Bool.eqb].
  unfold orUndefined, orNull, boolOrFalse, boolOrUndefined.
  repeat constructor;
    try (destruct (missing _); reflexivity);
    try (destruct (asBoolean _); reflexivity).
  - rewrite fieldsWithin_obj. cbn [forallb]. unfold fieldOk.
    cbn [fst snd getProp lookupProp String.eqb Ascii.eqb Bool.eqb
         isUndefined negb orb andb].
    unfold strings. by rewrite !fieldsWithin_strings.
  - destruct (asNumber (getProp _ "context")), (asNumber (getProp _ "output")),
      (asNumber (getProp _ "input")); reflexivity.
Qed.

Lemma fold_processModel_within (providerId : jsstring) (l : list ModelFile)
    (models : list jsval) (warned : list message) :
  Forall (fun m => fieldsWithin (toPublicModel m) m = true) models ->
  Forall (fun m => fieldsWithin (toPublicModel m) m = true)
    (fold_left (fun acc f => processModel providerId f acc) l
       (models, warned)).1.
Proof.
  revert models warned.
  induction l as [|f l IH]; intros models warned Hall; cbn [fold_left];
    [done|].
  unfold processModel at 2.
  destruct (readTomlFile _ _ _) as [parsed w1].
  destruct (negb (truthy parsed)); [by apply IH|].
  destruct (normalizeModelToml _ _ _ _) as [normalized w2] eqn:E.
  apply IH. apply Forall_app. split; [done|]. repeat constructor.
  pose proof (normalized_within providerId (stripToml (toPosixPath (rel f)))
                parsed (abs f)) as Hn.
  by rewrite E in Hn.
Qed.

Lemma sayAll_sayAll (a b : list message) (r : Run) :
  sayAll b (sayAll a r) = sayAll (a ++ b) r.
Proof. unfold sayAll. simpl. by rewrite app_assoc. Qed.

(** One turn of the loop adds its warnings to the console, one record to
    each manifest and its models to the total, whatever the loop variables
    hold. *)
Lemma processProvider_adds (providersRoot : option node)
    (providerId : jsstring) (r : Run) (generatedAt : jsstring)
    (tp tm : jsval) (ps ps' : list jsval) (n : nat) :
  processProvider providersRoot providerId
    {| run := r;
       manifestInternal := definitionsManifest generatedAt tp tm ps;
       manifestPublic := definitionsManifest generatedAt tp tm ps';
       modelTotal := n |}
  = {| run := sayAll (addedWarnings providersRoot providerId) r;
       manifestInternal :=
         definitionsManifest generatedAt tp tm
           (ps ++ [addedInternal providersRoot providerId]);
       manifestPublic :=
         definitionsManifest generatedAt tp tm
           (ps' ++ [addedPublic providersRoot providerId]);
       modelTotal := (n + addedModels providersRoot providerId)%nat |}.
Proof.
  unfold addedWarnings, addedInternal, addedPublic, addedModels,
    providerAdded, processProvider.
  destruct (if pathExists _ then _ else _) as [providerToml w1].
  destruct (normalizeProviderToml _ _ _) as [providerMeta w2].
  destruct (match _ ≫= stat with Some (Dir _ _) => _ | _ => _ end)
    as [modelFiles w4].
  destruct (fold_left _ modelFiles _) as [unsorted w5].
  reflexivity.
Qed.

Lemma normalizeProviderToml_fields (providerId : jsstring)
    (providerToml : jsval) (providerTomlPath : jsstring) :
  let meta :=
    (normalizeProviderToml providerId providerToml providerTomlPath).1 in
  (exists s, getProp meta "id" = VStr s)
  /\ (exists s, getProp meta "name" = VStr s)
  /\ (exists s, getProp meta "npm" = VStr s)
  /\ (exists s, getProp meta "doc" = VStr s)
  /\ (spreadIf (truthy (getProp meta "api")) "api" (getProp meta "api") = []
      \/ exists s,
           spreadIf (truthy (getProp meta "api")) "api" (getProp meta "api")
           = [("api", VStr s)]).
Proof.
  unfold normalizeProviderToml.
  cbn [fst getProp lookupProp String.eqb Ascii.eqb Bool.eqb].
  repeat split; eauto.
  unfold orUndefined. destruct (missing _); [by left|].
  destruct (truthy _); [right|left]; eauto.
Qed.

Lemma added_pair (providersRoot : option node) (providerId : jsstring) :
  providerPair (addedModels providersRoot providerId)
    (addedPublic providersRoot providerId)
    (addedInternal providersRoot providerId).
Proof.
  unfold addedInternal, addedPublic, addedModels, providerAdded,
    processProvider.
  destruct (if pathExists _ then _ else _) as [providerToml w1].
  pose proof (normalizeProviderToml_fields providerId
                (if truthy providerToml then providerToml else VObj [])
                (resolve [resolve [providersRootDir; providerId];
                          lit "provider.toml"])) as Hmeta.
  destruct (normalizeProviderToml _ _ _) as [providerMeta w2].
  destruct (match _ ≫= stat with Some (Dir _ _) => _ | _ => _ end)
    as [modelFiles w4].
  pose proof (fold_processModel_within providerId modelFiles [] []
                (Forall_nil_2 _)) as Hmodels.
  destruct (fold_left _ modelFiles _) as [unsorted w5].
  cbn [fst] in Hmeta, Hmodels.
  destruct Hmeta as (Hid & Hname & Hnpm & Hdoc & Hapi).
  eexists _, _, _, _, _, _, _, (sortBy nameOf unsorted).
  split; [reflexivity|]. split; [reflexivity|].
  split; [simpl; lia|].
  repeat (split; [done|]).
  by rewrite sortBy_Permutation.
Qed.
End ProviderLoop.

Section ProviderFold.
Context `{Host}.
Import BuildDefinitions.

Lemma fold_processProvider (providersRoot : option node)
    (providerIds : list jsstring) (r : Run) (generatedAt : jsstring)
    (tp tm : jsval) (ps ps' : list jsval) (n : nat) :
  fold_left (fun st providerId =>
               processProvider providersRoot providerId st) providerIds
    {| run := r;
       manifestInternal := definitionsManifest generatedAt tp tm ps;
       manifestPublic := definitionsManifest generatedAt tp tm ps';
       modelTotal := n |}
  = {| run :=
         sayAll (concat (map (addedWarnings providersRoot) providerIds)) r;
       manifestInternal :=
         definitionsManifest generatedAt tp tm
           (ps ++ map (addedInternal providersRoot) providerIds);
       manifestPublic :=
         definitionsManifest generatedAt tp tm
           (ps' ++ map (addedPublic providersRoot) providerIds);
       modelTotal :=
         (n + total (map (addedModels providersRoot) providerIds))%nat |}.
Proof.
  revert r ps ps' n.
  induction providerIds as [|providerId rest IH]; intros r ps ps' n;
    cbn [fold_left map concat total fold_right].
  - unfold sayAll. destruct r. simpl. by rewrite !app_nil_r, Nat.add_0_r.
  - rewrite processProvider_adds, IH, sayAll_sayAll, <- !app_assoc.
    by rewrite Nat.add_assoc.
Qed.

(** What [main] returns when the providers root is there, with the loop
    over the providers folded. *)
Lemma definitions_main_records (providersRoot : option node) (generatedAt : jsstring) :
  isDirectory providersRoot = true ->
  main providersRoot generatedAt
  = match ensureDirs newRun with
    | inr (r, err) => Threw r err
    | inl r0 =>
      let '(providerIds, w) := listProviderDirs providersRoot in
      let r :=
        sayAll (concat (map (addedWarnings providersRoot) providerIds))
          (say (LogBuilding providersRootDir) (sayAll w r0)) in
      let modelTotal := total (map (addedModels providersRoot) providerIds) in
      let finish providers :=
        definitionsManifest generatedAt (VLen (sortBy nameOf providers))
          (VNum (ofNat modelTotal)) (sortBy nameOf providers) in
      let mi := finish (map (addedInternal providersRoot) providerIds) in
      let mp := finish (map (addedPublic providersRoot) providerIds) in
      match assertInsideDir publicDefinitionsDir publicManifestPath
              "public manifest" with
      | Some err => Threw r err
      | None =>
      match assertInsideDir astroDataDir internalCatalogPath
              "internal catalog" with
      | Some err => Threw r err
      | None =>
      match assertInsideDir publicDefinitionsDir schemaPath "schema" with
      | Some err => Threw r err
      | None =>
      match writeJsonPretty publicManifestPath mp r with
      | inr (r1, err) => Threw r1 err
      | inl r1 =>
      match writeJsonPretty internalCatalogPath mi r1 with
      | inr (r2, err) => Threw r2 err
      | inl r2 =>
      match writeJsonPretty schemaPath buildJsonSchema r2 with
      | inr (r3, err) => Threw r3 err
      | inl r3 =>
        Built
          (say (LogSummary (getProp mp "total_providers")
                  (getProp mp "total_models")) r3)
          mp mi
      end end end
      end end end
    end.
Proof.
  intros Hroot. unfold main. rewrite Hroot. cbn [negb].
  destruct (ensureDirs _) as [r0|]; [|done].
  destruct (listProviderDirs providersRoot) as [providerIds w].
  change (newManifest generatedAt)
    with (definitionsManifest generatedAt (VInt 0) (VInt 0) []).
  rewrite fold_processProvider.
  cbn [run manifestInternal manifestPublic modelTotal app Nat.add].
  reflexivity.
Qed.
End ProviderFold.

(** ** Counts *)

Lemma total_Permutation (l l' : list nat) : l ≡ₚ l' -> total l = total l'.
Proof. induction 1; simpl; lia. Qed.

Lemma ofNat_plus (a b : nat) :
  addNum (VNum (ofNat a)) (VNum (ofNat b)) = VNum (ofNat (a + b)).
Proof.
  unfold ofNat, ofZ. simpl addNum. by rewrite Qc_ofZ_plus, Nat2Z.inj_add.
Qed.

Lemma fold_counts (count : jsval -> jsval) (size : jsval -> nat)
    (l : list jsval) (k : nat) :
  Forall (fun g => count g = VNum (ofNat (size g))) l ->
  fold_left (fun acc g => addNum acc (count g)) l (VNum (ofNat k))
  = VNum (ofNat (k + total (map size l))).
Proof.
  revert k. induction l as [|g l IH]; intros k Hall;
    cbn [fold_left map total fold_right].
  - by rewrite Nat.add_0_r.
  - apply Forall_cons in Hall as [Hg Hall].
    rewrite Hg, ofNat_plus, IH by done. unfold total. by rewrite Nat.add_assoc.
Qed.

Section Manifests.
Context `{Host}.

Lemma groupPair_counted (g g' : jsval) :
  groupPair g g' -> groupCounted g /\ groupCounted g'.
Proof. intros (name & ps & is_ & -> & -> & _). by split. Qed.


Lemma skillPair_within (groupSlug : jsstring) (pub int : jsval) :
  skillPair groupSlug pub int -> fieldsWithin pub int = true.
Proof. intros (?&?&?&?&?&?&?&?&->&->). reflexivity. Qed.

Lemma groupPair_within (g g' : jsval) :
  groupPair g g' -> fieldsWithin g g' = true.
Proof.
  intros (name & ps & is_ & -> & -> & Hpairs).
  unfold groupRecord. rewrite fieldsWithin_obj. cbn [forallb].
  unfold fieldOk.
  cbn [fst snd getProp lookupProp String.eqb Ascii.eqb Bool.eqb isUndefined
       negb orb andb VLen].
  rewrite fieldsWithin_arr; [done|].
  eapply Forall2_impl; [exact Hpairs|]. apply skillPair_within.
Qed.

Lemma skillsManifest_counted (generatedAt : jsstring) (gs : list jsval) :
  Forall groupCounted gs ->
  skillsCounted
    (skillsManifest generatedAt
       (BuildSkills.totalSkills (skillsManifest generatedAt (VInt 0) gs))
       gs).
Proof.
  intros Hgs. split; [exact Hgs|].
  change (fold_left (fun acc g => addNum acc (getProp g "skill_count")) gs
            (VNum (ofNat 0))
          = VNum (ofNat (total (map (fun g => length (skillsOf g)) gs)))).
  by rewrite (fold_counts (fun g => getProp g "skill_count")
                (fun g => length (skillsOf g))).
Qed.

Lemma skillsManifest_within (generatedAt : jsstring) (gs gs' : list jsval) :
  Forall2 groupPair gs gs' ->
  fieldsWithin
    (skillsManifest generatedAt
       (BuildSkills.totalSkills (skillsManifest generatedAt (VInt 0) gs)) gs)
    (skillsManifest generatedAt
       (BuildSkills.totalSkills (skillsManifest generatedAt (VInt 0) gs'))
       gs')
  = true.
Proof.
  intros Hpairs.
  assert (Forall groupCounted gs /\ Forall groupCounted gs') as [Hc Hc'].
  { induction Hpairs as [|g g' gs gs' Hg _ [IH IH']]; [by split|].
    destruct (groupPair_counted _ _ Hg). split; by constructor. }
  destruct (skillsManifest_counted generatedAt gs Hc) as [_ Ht].
  destruct (skillsManifest_counted generatedAt gs' Hc') as [_ Ht'].
  cbn [skillsManifest getProp lookupProp String.eqb Ascii.eqb Bool.eqb]
    in Ht, Ht'.
  unfold skillsManifest at 1 3. rewrite Ht, Ht'.
  rewrite fieldsWithin_obj. cbn [forallb]. unfold fieldOk.
  cbn [fst snd getProp lookupProp String.eqb Ascii.eqb Bool.eqb isUndefined
       negb orb andb].
  rewrite fieldsWithin_arr; [done|].
  eapply Forall2_impl; [exact Hpairs|]. apply groupPair_within.
Qed.

(** *** Providers *)

Lemma providerPair_name (n : nat) (pub int : jsval) :
  providerPair n pub int -> nameOf pub = nameOf int.
Proof.
  intros (id & name & env & npm & doc & api & hasLogo & models
          & -> & -> & _). reflexivity.
Qed.

Lemma providerPair_counted (n : nat) (pub int : jsval) :
  providerPair n pub int ->
  providerCounted pub /\ providerCounted int
  /\ length (modelsOf pub) = n /\ length (modelsOf int) = n.
Proof.
  intros (id & name & env & npm & doc & api & hasLogo & models
          & -> & -> & -> & _ & _ & _ & _ & Hapi & _).
  unfold providerCounted, modelsOf.
  destruct Hapi as [->|[s ->]];
    cbn [app getProp lookupProp String.eqb Ascii.eqb Bool.eqb elements];
    unfold VLen; by rewrite length_map.
Qed.

Lemma providerPair_within (n : nat) (pub int : jsval) :
  providerPair n pub int -> fieldsWithin pub int = true.
Proof.
  intros (id & name & env & npm & doc & api & hasLogo & models
          & -> & -> & _ & [? ->] & [? ->] & [? ->] & [? ->] & Hapi
          & Hmodels).
  rewrite fieldsWithin_obj.
  assert (Forall2 (fun x y => fieldsWithin x y = true)
            (map BuildDefinitions.toPublicModel models) models) as Hm.
  { induction Hmodels; simpl; by constructor. }
  apply fieldsWithin_arr in Hm.
  destruct Hapi as [->|[s ->]]; cbn [app forallb]; unfold fieldOk;
    cbn [fst snd getProp lookupProp String.eqb Ascii.eqb Bool.eqb
         isUndefined negb orb andb VLen];
    by rewrite Hm.
Qed.

Lemma added_pairs (providersRoot : option node) (ids : list jsstring) :
  Forall2 (fun pub int => exists n, providerPair n pub int)
    (map (addedPublic providersRoot) ids)
    (map (addedInternal providersRoot) ids).
Proof.
  induction ids as [|id ids IH]; simpl; constructor; [|done].
  eexists. apply added_pair.
Qed.

Lemma sorted_pairs (providersRoot : option node) (ids : list jsstring) :
  Forall2 (fun pub int => exists n, providerPair n pub int)
    (sortBy nameOf (map (addedPublic providersRoot) ids))
    (sortBy nameOf (map (addedInternal providersRoot) ids)).
Proof.
  apply sortBy_Forall2; [|apply added_pairs].
  intros pub int [n Hp]. by eapply providerPair_name.
Qed.

Lemma added_total (providersRoot : option node) (ids : list jsstring) :
  total (map (addedModels providersRoot) ids)
  = total (map (fun p => length (modelsOf p))
             (map (addedPublic providersRoot) ids))
  /\ total (map (addedModels providersRoot) ids)
     = total (map (fun p => length (modelsOf p))
                (map (addedInternal providersRoot) ids)).
Proof.
  induction ids as [|id ids [IH IH']]; [done|]. cbn [map total fold_right].
  destruct (providerPair_counted _ _ _ (added_pair providersRoot id))
    as (_ & _ & -> & ->).
  unfold total in IH, IH'. by rewrite <- IH, <- IH'.
Qed.

Lemma definitionsManifest_counted (providersRoot : option node)
    (generatedAt : jsstring) (ids : list jsstring)
    (added : option node -> jsstring -> jsval) :
  added = addedPublic \/ added = addedInternal ->
  definitionsCounted
    (definitionsManifest generatedAt
       (VLen (sortBy nameOf (map (added providersRoot) ids)))
       (VNum (ofNat (total (map (addedModels providersRoot) ids))))
       (sortBy nameOf (map (added providersRoot) ids))).
Proof.
  intros Hadded. split; [|split; [|reflexivity]].
  - change (Forall providerCounted
              (sortBy nameOf (map (added providersRoot) ids))).
    rewrite sortBy_Permutation. apply Forall_map, Forall_forall.
    intros id _.
    destruct (providerPair_counted _ _ _ (added_pair providersRoot id))
      as (? & ? & _).
    by destruct Hadded as [->| ->].
  - change (VNum (ofNat (total (map (addedModels providersRoot) ids)))
            = VNum (ofNat (total
                             (map (fun p => length (modelsOf p))
                                (sortBy nameOf
                                   (map (added providersRoot) ids)))))).
    do 2 f_equal.
    rewrite (total_Permutation _ _
               (Permutation_map _ (sortBy_Permutation nameOf _))).
    destruct (added_total providersRoot ids).
    by destruct Hadded as [->| ->].
Qed.

Lemma definitionsManifest_within (generatedAt : jsstring) (tp tp' tm : jsval)
    (ps ps' : list jsval) :
  (exists n, tp = VNum n) -> (exists n, tp' = VNum n) ->
  (exists n, tm = VNum n) ->
  Forall2 (fun pub int => exists n, providerPair n pub int) ps ps' ->
  fieldsWithin (definitionsManifest generatedAt tp tm ps)
    (definitionsManifest generatedAt tp' tm ps') = true.
Proof.
  intros [? ->] [? ->] [? ->] Hpairs.
  unfold definitionsManifest. rewrite fieldsWithin_obj. cbn [forallb].
  unfold fieldOk.
  cbn [fst snd getProp lookupProp String.eqb Ascii.eqb Bool.eqb isUndefined
       negb orb andb].
  rewrite fieldsWithin_arr; [done|].
  eapply Forall2_impl; [exact Hpairs|].
  intros pub int [n Hp]. by eapply providerPair_within.
Qed.
End Manifests.

(** The time a run starts at reaches nothing but the top-level
    [generated_at] of the values it serialises: two runs on the same tree,
    listed in the same order, started at different times, end with the same
    exit status, print the same console and make the same writes, once that
    field is set to a common value; this holds for build-skills.mjs and for
    build-definitions.mjs. *)
Theorem runs_differ_in_stamp_only `{Host} (skillsRoot providersRoot : option node)
    (generatedAt1 generatedAt2 common : jsstring) :
  let s1 := BuildSkills.script skillsRoot generatedAt1 in
  let s2 := BuildSkills.script skillsRoot generatedAt2 in
  let d1 := BuildDefinitions.script providersRoot generatedAt1 in
  let d2 := BuildDefinitions.script providersRoot generatedAt2 in
  s1.2 = s2.2
  /\ BuildSkills.console s1.1 = BuildSkills.console s2.1
  /\ map (restamp common) (BuildSkills.disk s1.1)
     = map (restamp common) (BuildSkills.disk s2.1)
  /\ d1.2 = d2.2
  /\ BuildDefinitions.console d1.1 = BuildDefinitions.console d2.1
  /\ map (restamp common) (BuildDefinitions.disk d1.1)
     = map (restamp common) (BuildDefinitions.disk d2.1).
Proof.
  cbv zeta. split; [|split; [|split]].
  1-3: unfold BuildSkills.script; rewrite !skills_main_records;
       destruct (BuildSkills.ensureDirs _) as [r0|[r0 err0]]; [|done];
       destruct (negb _); [done|];
       destruct (BuildSkills.listGroups _) as [groupNames|]; [|done];
       destruct (allGroupRecords _ _ _) as [[[r gs] gs']|[r err]]; [|done];
       cbv zeta; unfold BuildSkills.writeJsonPretty;
       repeat destruct (writeFile _);
       first [ reflexivity
             | cbn [fst BuildSkills.run BuildSkills.say BuildSkills.perform
                    BuildSkills.disk];
               rewrite <- ?app_assoc, ?map_app; repeat f_equal ].
  destruct (isDirectory providersRoot) eqn:Hroot.
  - unfold BuildDefinitions.script.
    rewrite !definitions_main_records by done.
    destruct (BuildDefinitions.ensureDirs _) as [r0|[r0 err0]]; [|done].
    destruct (BuildDefinitions.listProviderDirs _) as [ids w]. cbv zeta.
    repeat (destruct (BuildDefinitions.assertInsideDir _ _ _); [done|]).
    unfold BuildDefinitions.writeJsonPretty.
    repeat destruct (writeFile _);
      (split; [done|split; [reflexivity|]]);
      cbn [fst BuildDefinitions.say BuildDefinitions.sayAll
           BuildDefinitions.perform BuildDefinitions.disk];
      rewrite ?map_app; reflexivity.
  - unfold BuildDefinitions.script, BuildDefinitions.main.
    rewrite Hroot. by destruct (BuildDefinitions.ensureDirs _) as [?|[? ?]].
Qed.

(** C2 fails on the code.  The sorts compare with [sensitivity: 'base'], so
    the group names [Tools] and [tools] compare equal and the stable sort of
    [listGroups] keeps them in the order [readdir] listed them.  Two runs on
    the same entries, listed in the two orders, started at the same time,
    both complete, and the groups of their manifests come in different
    orders: what they write differs in more than [generated_at]. *)
Lemma listing_order_reaches_manifest :
  match upperListedFirst, lowerListedFirst with
  | Some (Dir _ entries1), Some (Dir _ entries2) => entries1 ≡ₚ entries2
  | _, _ => False
  end
  /\ @localeCompare exampleHost (lit "Tools") (lit "tools") = 0
  /\ match @BuildSkills.main exampleHost upperListedFirst sampleStamp,
           @BuildSkills.main exampleHost lowerListedFirst sampleStamp with
     | inl built1, inl built2 =>
       map (fun g => getProp g "name")
         (groupsOf (BuildSkills.manifestPublic built1))
       = [VLit "Tools"; VLit "tools"]
       /\ map (fun g => getProp g "name")
            (groupsOf (BuildSkills.manifestPublic built2))
          = [VLit "tools"; VLit "Tools"]
       /\ map (fun g => getProp g "name")
            (groupsOf (BuildSkills.manifestInternal built1))
          = [VLit "Tools"; VLit "tools"]
       /\ map (fun g => getProp g "name")
            (groupsOf (BuildSkills.manifestInternal built2))
          = [VLit "tools"; VLit "Tools"]
     | _, _ => False
     end
  /\ map (restamp sampleStamp)
       (BuildSkills.disk
          (@BuildSkills.script exampleHost upperListedFirst sampleStamp).1)
     <> map (restamp sampleStamp)
          (BuildSkills.disk
             (@BuildSkills.script exampleHost lowerListedFirst sampleStamp).1).
Proof.
  split; [apply Permutation_swap|]. split; [reflexivity|].
  split; [vm_compute; repeat split|].
  vm_compute. discriminate.
Qed.

(** C5: in the manifests a run writes, every field of the public manifest,
    of its group or provider records and of their skill or model records is
    a field of the internal counterpart. *)
Theorem public_fields_within_internal `{Host}
    (skillsRoot providersRoot : option node) (generatedAt : jsstring) :
  match BuildSkills.main skillsRoot generatedAt with
  | inl built =>
    fieldsWithin (BuildSkills.manifestPublic built)
      (BuildSkills.manifestInternal built) = true
  | inr _ => True
  end
  /\ match BuildDefinitions.main providersRoot generatedAt with
     | BuildDefinitions.Built _ manifestPublic manifestInternal =>
       fieldsWithin manifestPublic manifestInternal = true
     | _ => True
     end.
Proof.
  split.
  - rewrite skills_main_records.
    destruct (BuildSkills.ensureDirs _) as [r0|]; [|done].
    destruct (negb _); [done|].
    destruct (BuildSkills.listGroups _) as [groupNames|]; [|done].
    destruct (allGroupRecords _ _ _) as [[[r gs] gs']|[r err]] eqn:E; [|done].
    cbv zeta. repeat (destruct (BuildSkills.writeJsonPretty _ _ _); [|done]).
    cbn [BuildSkills.manifestPublic BuildSkills.manifestInternal].
    apply skillsManifest_within. by eapply allGroupRecords_pairs.
  - destruct (isDirectory providersRoot) eqn:Hroot.
    + rewrite definitions_main_records by done.
      destruct (BuildDefinitions.ensureDirs _) as [r0|[r0 err0]]; [|done].
      destruct (BuildDefinitions.listProviderDirs _) as [ids w]. cbv zeta.
      repeat (destruct (BuildDefinitions.assertInsideDir _ _ _); [done|]).
      repeat (destruct (BuildDefinitions.writeJsonPretty _ _ _) as [?|[? ?]];
              [|done]).
      apply definitionsManifest_within; eauto. apply sorted_pairs.
    + unfold BuildDefinitions.main. rewrite Hroot.
      by destruct (BuildDefinitions.ensureDirs _) as [?|[? ?]].
Qed.

Lemma public_fields_within_internal_witness :
  (exists built,
     @BuildSkills.main exampleHost clashingGroups sampleStamp = inl built
     /\ fieldsWithin (BuildSkills.manifestPublic built)
          (BuildSkills.manifestInternal built) = true)
  /\ (exists r manifestPublic manifestInternal,
        @BuildDefinitions.main exampleHost sampleProviders sampleStamp
        = BuildDefinitions.Built r manifestPublic manifestInternal
        /\ fieldsWithin manifestPublic manifestInternal = true).
Proof.
  destruct (@public_fields_within_internal exampleHost clashingGroups
              sampleProviders sampleStamp) as [Hs Hd].
  split.
  - destruct (@BuildSkills.main exampleHost clashingGroups sampleStamp)
      as [built|thrown] eqn:E; [|vm_compute in E; discriminate E].
    exists built. split; [reflexivity|exact Hs].
  - destruct (@BuildDefinitions.main exampleHost sampleProviders sampleStamp)
      as [r mp mi|r|r err] eqn:E;
      [|vm_compute in E; discriminate E|vm_compute in E; discriminate E].
    exists r, mp, mi. split; [reflexivity|exact Hd].
Defined.

(** C7: in every manifest a run writes, each group's [skill_count] (each
    provider's [model_count]) is the length of its array of records,
    [total_skills] ([total_models]) is the sum of those lengths over the
    final sequence of groups (providers), and [total_providers] is the
    length of that sequence. *)
Theorem counts_agree `{Host} (skillsRoot providersRoot : option node)
    (generatedAt : jsstring) :
  match BuildSkills.main skillsRoot generatedAt with
  | inl built =>
    skillsCounted (BuildSkills.manifestPublic built)
    /\ skillsCounted (BuildSkills.manifestInternal built)
  | inr _ => True
  end
  /\ match BuildDefinitions.main providersRoot generatedAt with
     | BuildDefinitions.Built _ manifestPublic manifestInternal =>
       definitionsCounted manifestPublic
       /\ definitionsCounted manifestInternal
     | _ => True
     end.
Proof.
  split.
  - rewrite skills_main_records.
    destruct (BuildSkills.ensureDirs _) as [r0|]; [|done].
    destruct (negb _); [done|].
    destruct (BuildSkills.listGroups _) as [groupNames|]; [|done].
    destruct (allGroupRecords _ _ _) as [[[r gs] gs']|[r err]] eqn:E; [|done].
    cbv zeta. repeat (destruct (BuildSkills.writeJsonPretty _ _ _); [|done]).
    cbn [BuildSkills.manifestPublic BuildSkills.manifestInternal].
    apply allGroupRecords_pairs in E.
    assert (Forall groupCounted gs /\ Forall groupCounted gs') as [Hc Hc'].
    { induction E as [|g g' gs gs' Hg _ [IH IH']]; [by split|].
      destruct (groupPair_counted _ _ Hg). split; by constructor. }
    split; by apply skillsManifest_counted.
  - destruct (isDirectory providersRoot) eqn:Hroot.
    + rewrite definitions_main_records by done.
      destruct (BuildDefinitions.ensureDirs _) as [r0|[r0 err0]]; [|done].
      destruct (BuildDefinitions.listProviderDirs _) as [ids w]. cbv zeta.
      repeat (destruct (BuildDefinitions.assertInsideDir _ _ _); [done|]).
      repeat (destruct (BuildDefinitions.writeJsonPretty _ _ _) as [?|[? ?]];
              [|done]).
      split; apply definitionsManifest_counted; auto.
    + unfold BuildDefinitions.main. rewrite Hroot.
      by destruct (BuildDefinitions.ensureDirs _) as [?|[? ?]].
Qed.

Lemma counts_agree_witness :
  (exists built,
     @BuildSkills.main exampleHost clashingGroups sampleStamp = inl built
     /\ skillsCounted (BuildSkills.manifestPublic built)
     /\ getProp (BuildSkills.manifestPublic built) "total_skills" = VInt 2)
  /\ (exists r manifestPublic manifestInternal,
        @BuildDefinitions.main exampleHost sampleProviders sampleStamp
        = BuildDefinitions.Built r manifestPublic manifestInternal
        /\ definitionsCounted manifestPublic
        /\ getProp manifestPublic "total_models" = VInt 2).
Proof.
  destruct (@counts_agree exampleHost clashingGroups sampleProviders
              sampleStamp) as [Hs Hd].
  split.
  - destruct (@BuildSkills.main exampleHost clashingGroups sampleStamp)
      as [built|thrown] eqn:E; [|vm_compute in E; discriminate E].
    exists built. split; [reflexivity|]. split; [exact (proj1 Hs)|].
    vm_compute in E. injection E as <-. reflexivity.
  - destruct (@BuildDefinitions.main exampleHost sampleProviders sampleStamp)
      as [r mp mi|r|r err] eqn:E;
      [|vm_compute in E; discriminate E|vm_compute in E; discriminate E].
    exists r, mp, mi. split; [reflexivity|]. split; [exact (proj1 Hd)|].
    vm_compute in E. injection E as <- <- <-. reflexivity.
Defined.




(** ** Further properties of the scripts *)

Lemma if_true_orb (b c : bool) : (if b then true else c) = b || c.
Proof. by destruct b. Qed.

(** The exclusion filter is the disjunction of its rules. *)
Theorem exclusion_filter_rules `{Host} (rel : jsstring) (isDir : bool) :
  shouldExcludePath rel isDir
  = matchesNamePattern (basename rel) || underVcsDirectory rel
    || hasExcludedSegment rel
    || isDir && startsWith (basename rel) (lit ".").
Proof.
  unfold shouldExcludePath, matchesNamePattern, underVcsDirectory,
    hasExcludedSegment.
  rewrite join_split. change sep with 47%N.
  rewrite !if_true_orb.
  replace (if isDir && startsWith (basename rel) (lit ".") then true else false)
    with (isDir && startsWith (basename rel) (lit "."))
    by (by destruct (_ && _)).
  destruct (includes rel (lit "/.git/") || includes rel (lit "/.svn/")
            || includes rel (lit "/.hg/")).
  - repeat (rewrite orb_true_l || rewrite orb_true_r). reflexivity.
  - rewrite orb_false_l, !orb_false_r. by rewrite !orb_assoc.
Qed.

(** ** Slugs *)

Lemma collapseNonAlnum_units (inRun : bool) (s : jsstring) :
  Forall slugUnit (collapseNonAlnum inRun s).
Proof.
  revert inRun. induction s as [|c s IH]; intros inRun; simpl; [constructor|].
  destruct (isLowerAlnum c) eqn:E.
  - constructor; [by left|apply IH].
  - destruct inRun; [apply IH|]. constructor; [by right|apply IH].
Qed.

Lemma dropDashes_suffix (s : jsstring) : dropDashes s `suffix_of` s.
Proof.
  induction s as [|c s IH]; simpl; [done|].
  destruct (N.eqb c dash); [by apply suffix_cons_r|done].
Qed.

Lemma dropDashes_head (s : jsstring) : head (dropDashes s) <> Some dash.
Proof.
  induction s as [|c s IH]; simpl; [done|].
  destruct (N.eqb_spec c dash); [done|]. simpl. congruence.
Qed.

Lemma last_rev (s : jsstring) : last (rev s) = head s.
Proof. destruct s as [|c s]; [done|]. simpl. apply last_snoc. Qed.

Lemma head_rev (s : jsstring) : head (rev s) = last s.
Proof. by rewrite <- (rev_involutive s) at 2; rewrite last_rev. Qed.

Lemma stripDashes_spec (s : jsstring) :
  Forall slugUnit s ->
  Forall slugUnit (stripDashes s)
  /\ head (stripDashes s) <> Some dash
  /\ last (stripDashes s) <> Some dash.
Proof.
  intros Hs. unfold stripDashes.
  destruct (dropDashes_suffix s) as [pre Hpre].
  destruct (dropDashes_suffix (rev (dropDashes s))) as [pre' Hpre'].
  assert (Forall slugUnit (dropDashes s)) as H1.
  { rewrite Hpre in Hs. by apply Forall_app in Hs as [_ ?]. }
  split; [|split].
  - apply Forall_rev. apply Forall_rev in H1. rewrite Hpre' in H1.
    by apply Forall_app in H1 as [_ ?].
  - rewrite head_rev.
    pose proof (dropDashes_head s) as Hh.
    rewrite <- last_rev, Hpre', last_app in Hh.
    by destruct (last (dropDashes (rev (dropDashes s)))).
  - rewrite last_rev. apply dropDashes_head.
Qed.

(** The slug of a group holds only [a-z], [0-9] and dashes, and neither
    starts nor ends with a dash, whatever the host's case mapping. *)
Theorem slug_url_safe `{Host} (groupName : jsstring) :
  Forall slugUnit (slugifyGroupName groupName)
  /\ head (slugifyGroupName groupName) <> Some dash
  /\ last (slugifyGroupName groupName) <> Some dash.
Proof. apply stripDashes_spec, collapseNonAlnum_units. Qed.

Section ArchiveSafety.
Context `{Host}.
Import BuildSkills.

Lemma processSkill_archives (groupName groupSlug : jsstring) (s : Candidate)
    (r : Run) (gp gi : jsval) :
  Forall archiveInside (disk r) ->
  Forall archiveInside (disk (processSkill groupName groupSlug s (r, gp, gi)).1.1).
Proof.
  intros Hr. unfold processSkill.
  destruct (parseSkillFrontmatter _ _ _) as [[skillName fullDescription] ws].
  destruct (sayAll_fields ws r) as (_ & _ & _ & _ & _ & Hd).
  case_bool_decide; [simpl; by rewrite Hd|].
  destruct (escapesDownloads _) eqn:Hesc; [simpl; by rewrite Hd|].
  destruct (countIncludedFiles _); [destruct (createSkillZip _ _ _)|];
    simpl; rewrite Hd; [| |done];
    (apply Forall_app; split; [done|]); by repeat constructor.
Qed.

Lemma fold_processSkill_archives (groupName groupSlug : jsstring)
    (l : list Candidate) (acc : Run * jsval * jsval) :
  Forall archiveInside (disk acc.1.1) ->
  Forall archiveInside
    (disk (fold_left (fun acc s => processSkill groupName groupSlug s acc)
             l acc).1.1).
Proof.
  revert acc. induction l as [|s l IH]; intros [[r gp] gi] Hr;
    cbn [fold_left]; [done|].
  apply IH. by apply processSkill_archives.
Qed.

Lemma groupRecords_archives (skillsRoot : option node) (groupName : jsstring)
    (r r' : Run) (g g' : jsval) :
  groupRecords skillsRoot groupName r = Some (r', g, g') ->
  Forall archiveInside (disk r) -> Forall archiveInside (disk r').
Proof.
  unfold groupRecords. destruct (listSkillDirs _ _) as [skillDirs|]; [|done].
  intros E Hr.
  pose proof (fold_processSkill_archives groupName
                (slugifyGroupName groupName) skillDirs
                (r, newGroup groupName (slugifyGroupName groupName),
                 newGroup groupName (slugifyGroupName groupName)) Hr) as Hf.
  destruct (fold_left _ _ _) as [[r1 gp] gi]. by injection E as <- _ _.
Qed.

Lemma allGroupRecords_archives (skillsRoot : option node)
    (groupNames : list jsstring) (r : Run) :
  Forall archiveInside (disk r) ->
  match allGroupRecords skillsRoot groupNames r with
  | inl (r', _, _) => Forall archiveInside (disk r')
  | inr (r', _) => Forall archiveInside (disk r')
  end.
Proof.
  revert r. induction groupNames as [|groupName rest IH]; intros r Hr;
    cbn [allGroupRecords]; [done|].
  destruct (groupRecords _ _ _) as [[[r1 g] g']|] eqn:E; [|done].
  specialize (IH r1 (groupRecords_archives _ _ _ _ _ _ E Hr)).
  by destruct (allGroupRecords _ _ _) as [[[r2 gs] gs']|[r2 err]].
Qed.
End ArchiveSafety.

(** Whatever the corpus holds and however the run ends, every archive
    build-skills.mjs writes goes to a path that passed the boundary check of
    the downloads directory. *)
Theorem archives_written_inside `{Host} (skillsRoot : option node)
    (generatedAt : jsstring) :
  Forall archiveInside
    (BuildSkills.disk (BuildSkills.script skillsRoot generatedAt).1).
Proof.
  unfold BuildSkills.script. rewrite skills_main_records.
  pose proof (skills_ensureDirs BuildSkills.newRun) as He.
  destruct (BuildSkills.ensureDirs _) as [r0|[r0 err0]].
  - assert (Forall archiveInside (BuildSkills.disk r0)) as H0
      by (subst r0; by repeat constructor).
    clear He. destruct (negb _); [done|].
    destruct (BuildSkills.listGroups _) as [groupNames|]; [|done].
    pose proof (allGroupRecords_archives skillsRoot groupNames
                  (BuildSkills.say
                     (BuildSkills.LogBuilding BuildSkills.skillsRootDir
                        BuildSkills.downloadsDir) r0) H0) as Ha.
    destruct (allGroupRecords _ _ _) as [[[r gs] gs']|[r err]]; [|done].
    cbv zeta. unfold BuildSkills.writeJsonPretty.
    repeat destruct (writeFile _);
      cbn [fst BuildSkills.run BuildSkills.say BuildSkills.perform
           BuildSkills.disk];
      rewrite ?Forall_app; repeat split;
      first [exact Ha|by repeat constructor].
  - destruct He as (_ & made & Hd & Hmade).
    cbn [fst BuildSkills.say BuildSkills.disk]. rewrite Hd.
    eapply Forall_impl; [exact Hmade|]. by intros [].
Qed.

(** In every public skills manifest a run writes, the description of every
    skill record is at most 500 units long. *)
Theorem public_descriptions_bounded `{Host} (skillsRoot : option node)
    (generatedAt : jsstring) :
  match BuildSkills.main skillsRoot generatedAt with
  | inl built =>
    Forall (fun g => Forall descriptionBounded (skillsOf g))
      (groupsOf (BuildSkills.manifestPublic built))
  | inr _ => True
  end.
Proof.
  rewrite skills_main_records.
  destruct (BuildSkills.ensureDirs _) as [r0|]; [|done].
  destruct (negb _); [done|].
  destruct (BuildSkills.listGroups _) as [groupNames|]; [|done].
  destruct (allGroupRecords _ _ _) as [[[r gs] gs']|[r err]] eqn:E; [|done].
  cbv zeta. repeat (destruct (BuildSkills.writeJsonPretty _ _ _); [|done]).
  cbn [BuildSkills.manifestPublic].
  apply allGroupRecords_pairs in E.
  change (Forall (fun g => Forall descriptionBounded (skillsOf g)) gs).
  induction E as [|g g' gs gs' Hg _ IH]; constructor; [|done].
  destruct Hg as (name & ps & is_ & -> & _ & Hpairs).
  change (Forall descriptionBounded ps).
  induction Hpairs as [|p i ps is_ Hp _ IHp]; constructor; [|done].
  destruct Hp as (nm & d & f & z & fc & b1 & b2 & b3 & -> & _).
  eexists. split; [reflexivity|].
  change (VNum PUBLIC_DESC_MAX_CHARS) with (VInt 500).
  apply (truncate_whole_length d 500). lia.
Qed.

Lemma asNumber_finite (v : jsval) (n : jsnum) :
  BuildDefinitions.asNumber v = Some n -> exists q, n = Finite q.
Proof. destruct v as [| | |[| | |q]| | | |]; try done. intros [= <-]. eauto. Qed.

(** The public record of a model carries a cost only as an object with
    [input] and [output], each present only as a finite number. *)
Theorem public_cost_coarse (modelInternal : jsval) :
  coarseCost (getProp (BuildDefinitions.toPublicModel modelInternal) "cost").
Proof.
  unfold BuildDefinitions.toPublicModel.
  set (publicCost := if negb _ then VUndef else _).
  assert (coarseCost publicCost) as Hc.
  { unfold publicCost. destruct (negb _); [by left|].
    destruct (BuildDefinitions.asNumber (getProp _ "input")) as [ni|] eqn:Ei;
      [apply asNumber_finite in Ei as [qi ->]|];
      (destruct (BuildDefinitions.asNumber (getProp _ "output"))
         as [no|] eqn:Eo;
       [apply asNumber_finite in Eo as [qo ->]|]);
      try (by left);
      right; eexists; (split; [reflexivity|]); (split; [done|]);
      cbn [app];
      repeat (apply Forall_cons_2;
              [split; [first [by left|by right]|simpl; eauto]|]);
      apply Forall_nil_2. }
  assert (truthy publicCost = false -> publicCost = VUndef) as Hu.
  { destruct Hc as [->|(props & -> & _)]; [done|]. simpl. discriminate. }
  unfold BuildDefinitions.spreadIf at 1 2 3 4 5 6.
  destruct (truthy (getProp modelInternal "family")),
    (negb (isUndefined (getProp modelInternal "temperature"))),
    (negb (isUndefined (getProp modelInternal "structured_output"))),
    (truthy (getProp modelInternal "knowledge")),
    (truthy (getProp modelInternal "status")),
    (truthy (getProp modelInternal "description"));
    cbn [app getProp lookupProp String.eqb Ascii.eqb Bool.eqb];
    unfold BuildDefinitions.spreadIf;
    (destruct (truthy publicCost) eqn:Et;
     [exact Hc|by left]).
Qed.

(** A model whose TOML has no boolean [attachment] gets [attachment: false]
    and a warning that names the field. *)
Theorem missing_boolean_defaults `{Host} (providerId modelId : jsstring)
    (modelToml : jsval) (modelTomlPath : jsstring) :
  BuildDefinitions.asBoolean (getProp modelToml "attachment") = None ->
  let out :=
    BuildDefinitions.normalizeModelToml providerId modelId modelToml
      modelTomlPath in
  getProp out.1 "attachment" = VBool false
  /\ BuildDefinitions.WarnModelField providerId modelId "attachment"
       modelTomlPath ∈ out.2.
Proof.
  intros Hnone. unfold BuildDefinitions.normalizeModelToml.
  cbn [fst snd getProp lookupProp String.eqb Ascii.eqb Bool.eqb].
  rewrite Hnone. split; [reflexivity|].
  cbn [BuildDefinitions.isNone].
  rewrite !elem_of_app. do 3 right. left. apply list_elem_of_singleton.
  reflexivity.
Qed.

Lemma missing_boolean_defaults_witness :
  let out :=
    @BuildDefinitions.normalizeModelToml exampleHost (lit "acme") (lit "small")
      (VObj [("name", VLit "Acme Small")]) (lit "/repo/small.toml") in
  getProp out.1 "attachment" = VBool false
  /\ BuildDefinitions.WarnModelField (lit "acme") (lit "small") "attachment"
       (lit "/repo/small.toml") ∈ out.2.
Proof.
  apply (@missing_boolean_defaults exampleHost). reflexivity.
Defined.

(** When [main] completes, its last three writes are the public manifest,
    the internal catalog and the schema, at their fixed paths, in both
    scripts. *)
Theorem manifests_written_last `{Host} (skillsRoot providersRoot : option node)
    (generatedAt : jsstring) :
  match BuildSkills.main skillsRoot generatedAt with
  | inl built =>
    exists before,
      BuildSkills.disk (BuildSkills.run built)
      = before
        ++ [ WriteJson BuildSkills.publicManifestPath
               (BuildSkills.manifestPublic built);
             WriteJson BuildSkills.internalCatalogPath
               (BuildSkills.manifestInternal built);
             WriteJson BuildSkills.schemaPath BuildSkills.buildJsonSchema ]
  | inr _ => True
  end
  /\ match BuildDefinitions.main providersRoot generatedAt with
     | BuildDefinitions.Built r manifestPublic manifestInternal =>
       exists before,
         BuildDefinitions.disk r
         = before
           ++ [ WriteJson BuildDefinitions.publicManifestPath manifestPublic;
                WriteJson BuildDefinitions.internalCatalogPath
                  manifestInternal;
                WriteJson BuildDefinitions.schemaPath
                  BuildDefinitions.buildJsonSchema ]
     | _ => True
     end.
Proof.
  split.
  - rewrite skills_main_records.
    destruct (BuildSkills.ensureDirs _) as [r0|]; [|done].
    destruct (negb _); [done|].
    destruct (BuildSkills.listGroups _) as [groupNames|]; [|done].
    destruct (allGroupRecords _ _ _) as [[[r gs] gs']|[r err]]; [|done].
    cbv zeta. unfold BuildSkills.writeJsonPretty.
    repeat (destruct (writeFile _); [|done]).
    exists (BuildSkills.disk r).
    cbn [BuildSkills.run BuildSkills.manifestPublic
         BuildSkills.manifestInternal BuildSkills.say BuildSkills.perform
         BuildSkills.disk].
    rewrite <- !app_assoc. reflexivity.
  - destruct (isDirectory providersRoot) eqn:Hroot.
    + rewrite definitions_main_records by done.
      destruct (BuildDefinitions.ensureDirs _) as [r0|[r0 err0]]; [|done].
      destruct (BuildDefinitions.listProviderDirs _) as [ids w]. cbv zeta.
      repeat (destruct (BuildDefinitions.assertInsideDir _ _ _); [done|]).
      unfold BuildDefinitions.writeJsonPretty.
      repeat (destruct (writeFile _); [|done]).
      match goal with
      | |- exists _,
             BuildDefinitions.disk
               (BuildDefinitions.say _
                  (BuildDefinitions.perform _
                     (BuildDefinitions.perform _
                        (BuildDefinitions.perform _ ?r)))) = _ =>
        exists (BuildDefinitions.disk r)
      end.
      cbn [BuildDefinitions.say BuildDefinitions.sayAll
           BuildDefinitions.perform BuildDefinitions.disk].
      rewrite <- !app_assoc. reflexivity.
    + unfold BuildDefinitions.main. rewrite Hroot.
      by destruct (BuildDefinitions.ensureDirs _) as [?|[? ?]].
Qed.

(** ** The paths of the outputs *)

Lemma join_split' (s : jsstring) : join slash (split sep s) = s.
Proof. apply join_split. Qed.

Lemma startsWith_prefix (s p : jsstring) :
  startsWith s p = true -> p `prefix_of` s.
Proof.
  revert s. induction p as [|c p IH]; intros s E; [apply prefix_nil|].
  destruct s as [|d s]; [done|]. simpl in E.
  apply andb_true_iff in E as [Ec E]. apply N.eqb_eq in Ec as ->.
  by apply prefix_cons, IH.
Qed.

Lemma split_not_nil (s : jsstring) : split sep s <> [].
Proof.
  induction s as [|c s IH]; simpl; [done|].
  destruct (N.eqb c sep); [done|]. by destruct (split sep s).
Qed.

Lemma split_app (x y : jsstring) :
  split sep (x ++ sep :: y) = split sep x ++ split sep y.
Proof.
  induction x as [|c x IH]; simpl.
  - done.
  - destruct (N.eqb c sep); [by rewrite IH|].
    rewrite IH. pose proof (split_not_nil x).
    by destruct (split sep x).
Qed.

Lemma split_plain (s : jsstring) : sep ∉ s -> split sep s = [s].
Proof.
  induction s as [|c s IH]; intros Hs; simpl; [done|].
  apply not_elem_of_cons in Hs as [Hc Hs].
  destruct (N.eqb_spec c sep); [congruence|]. by rewrite IH.
Qed.

Lemma split_no_sep (s : jsstring) : Forall (fun w => sep ∉ w) (split sep s).
Proof.
  induction s as [|c s IH]; simpl.
  - apply Forall_cons_2; [apply not_elem_of_nil|apply Forall_nil_2].
  - destruct (N.eqb_spec c sep) as [->|Hc].
    + apply Forall_cons_2; [apply not_elem_of_nil|done].
    + destruct (split sep s) as [|w ws]; [apply Forall_cons_2; [|done]|].
      * apply not_elem_of_cons. split; [done|apply not_elem_of_nil].
      * apply Forall_cons in IH as [Hw Hws]. apply Forall_cons_2; [|done].
        by apply not_elem_of_cons.
Qed.

Lemma plainName_tests (s : jsstring) :
  plainName s ->
  str_eqb s [] = false /\ str_eqb s (lit ".") = false
  /\ str_eqb s (lit "..") = false /\ isAbsolute s = false.
Proof.
  intros (H0 & H1 & H2 & Hs). unfold str_eqb.
  rewrite !bool_decide_eq_false. repeat split; try done.
  destruct s as [|c s]; [done|]. simpl.
  apply not_elem_of_cons in Hs as [Hc _]. by apply N.eqb_neq.
Qed.

Lemma split_join (bs : list jsstring) :
  Forall plainName bs -> bs <> [] -> split sep (join slash bs) = bs.
Proof.
  induction 1 as [|b bs Hb Hbs IH]; [done|]. intros _.
  destruct bs as [|b' bs].
  - simpl. apply split_plain, Hb.
  - change (join slash (b :: b' :: bs)) with (b ++ sep :: join slash (b' :: bs)).
    rewrite split_app, IH by done. rewrite split_plain by apply Hb. done.
Qed.

Lemma normalize_plain (acc bs rest : list jsstring) :
  Forall plainName bs ->
  normalizeSegments false acc (bs ++ rest)
  = normalizeSegments false (rev bs ++ acc) rest.
Proof.
  intros Hbs. revert acc.
  induction Hbs as [|b bs Hb _ IH]; intros acc; [done|].
  destruct (plainName_tests b Hb) as (E0 & E1 & E2 & _).
  cbn [app normalizeSegments]. rewrite E0, E1, E2. cbn [orb].
  rewrite IH. cbn [rev]. by rewrite <- app_assoc.
Qed.

Lemma normalize_join (acc bs rest : list jsstring) :
  Forall plainName bs ->
  normalizeSegments false acc (split sep (join slash bs) ++ rest)
  = normalizeSegments false (rev bs ++ acc) rest.
Proof.
  intros Hbs. destruct bs as [|b bs]; [done|].
  rewrite split_join by done. by apply normalize_plain.
Qed.

Lemma normalize_kept (acc segs : list jsstring) :
  Forall plainName acc -> Forall (fun w => sep ∉ w) segs ->
  Forall plainName (normalizeSegments false acc segs).
Proof.
  intros Hacc Hsegs. revert acc Hacc.
  induction Hsegs as [|seg rest Hseg _ IH]; intros acc Hacc.
  - simpl. by apply Forall_rev.
  - cbn [normalizeSegments].
    destruct (str_eqb seg []) eqn:E0; [by apply IH|].
    destruct (str_eqb seg (lit ".")) eqn:E1; [by apply IH|].
    cbn [orb].
    destruct (str_eqb seg (lit "..")) eqn:E2.
    + destruct acc as [|top acc']; [by apply IH|].
      destruct (str_eqb top (lit "..")); apply IH; [done|].
      by apply Forall_cons in Hacc as [_ ?].
    + apply IH. apply Forall_cons_2; [|done].
      unfold str_eqb in *. apply bool_decide_eq_false in E0, E1, E2. done.
Qed.

Section Paths.
Context `{Host}.

Lemma resolve_absolute (args : list jsstring) :
  (resolveLoop (rev args) []).2 = true ->
  exists segs, resolve args = rooted segs /\ Forall plainName segs.
Proof.
  unfold resolve. destruct (resolveLoop (rev args) []) as [p abs]. simpl.
  intros ->. eexists. split; [reflexivity|].
  apply normalize_kept; [apply Forall_nil_2|apply split_no_sep].
Qed.

Lemma resolveLoop_plain (l : list jsstring) (a acc : jsstring) :
  Forall plainName l -> isAbsolute a = true ->
  resolveLoop (l ++ [a]) acc
  = (a ++ sep :: fold_left (fun r n => n ++ sep :: r) l acc, true).
Proof.
  intros Hl Ha. revert acc.
  induction Hl as [|n l Hn _ IH]; intros acc.
  - simpl. destruct a as [|c a]; [done|].
    unfold str_eqb. rewrite bool_decide_eq_false_2 by done.
    rewrite Ha. done.
  - destruct (plainName_tests n Hn) as (E0 & _ & _ & Eabs).
    cbn [app resolveLoop]. rewrite E0, Eabs.
    change (n ++ slash ++ acc) with (n ++ sep :: acc). by rewrite IH.
Qed.

Lemma split_fold (l : list jsstring) (acc : jsstring) :
  Forall plainName l ->
  split sep (fold_left (fun r n => n ++ sep :: r) l acc)
  = rev l ++ split sep acc.
Proof.
  intros Hl. revert acc. induction Hl as [|n l Hn _ IH]; intros acc; [done|].
  cbn [fold_left rev]. rewrite IH, split_app, split_plain by apply Hn.
  by rewrite <- app_assoc.
Qed.

Lemma rooted_absolute (segs : list jsstring) : isAbsolute (rooted segs) = true.
Proof. reflexivity. Qed.

(** Resolving plain names against a resolved directory appends them. *)
Lemma resolve_plain (bs names : list jsstring) :
  Forall plainName bs -> Forall plainName names ->
  resolve (rooted bs :: names) = rooted (bs ++ names).
Proof.
  intros Hbs Hnames. unfold resolve. cbn [rev].
  rewrite resolveLoop_plain by (by apply Forall_rev || done).
  cbn [negb]. f_equal. f_equal.
  rewrite split_app, split_fold by by apply Forall_rev.
  rewrite rev_involutive.
  change (split sep (rooted bs)) with ([] :: split sep (join slash bs)).
  cbn [app normalizeSegments].
  replace (str_eqb [] []) with true by reflexivity. cbn [orb].
  rewrite normalize_join by done. rewrite normalize_plain by done.
  change (split sep []) with [[] : jsstring]. cbn [normalizeSegments].
  replace (str_eqb [] []) with true by reflexivity. cbn [orb].
  by rewrite app_nil_r, <- rev_app_distr, rev_involutive.
Qed.

Lemma components_rooted (bs : list jsstring) :
  Forall plainName bs -> components (rooted bs) = bs.
Proof.
  intros Hbs. unfold components.
  change (split sep (rooted bs)) with ([] :: split sep (join slash bs)).
  rewrite filter_cons_False by (by intros ?).
  destruct bs as [|b bs]; [done|].
  rewrite split_join by done.
  induction Hbs as [|x xs Hx _ IH]; [done|].
  rewrite filter_cons_True; [by rewrite IH|].
  unfold nonEmpty. by rewrite (proj1 (plainName_tests x Hx)).
Qed.

Lemma dropCommon_split (a b up down : list jsstring) :
  dropCommon a b = (up, down) ->
  exists common, a = common ++ up /\ b = common ++ down.
Proof.
  revert b. induction a as [|x a IH]; intros b E.
  - exists []. simpl in E. by destruct b; injection E as <- <-.
  - destruct b as [|y b]; simpl in E.
    + exists []. by injection E as <- <-.
    + unfold str_eqb in E. case_bool_decide as Exy.
      * subst y. destruct (IH _ E) as (c & -> & ->). by exists (x :: c).
      * exists []. by injection E as <- <-.
Qed.

Lemma dropCommon_app (bs ds : list jsstring) :
  dropCommon bs (bs ++ ds) = ([], ds).
Proof.
  induction bs as [|b bs IH]; simpl; [by destruct ds|].
  unfold str_eqb. by rewrite bool_decide_eq_true_2.
Qed.

(** The check is sound: a target it lets through lies inside the base. *)
Lemma climbsOut_sound (base p : jsstring) :
  climbsOut (relative base p) = false -> lexicallyInside base p.
Proof.
  unfold climbsOut, lexicallyInside. rewrite join_split.
  unfold relative, str_eqb.
  case_bool_decide as E1; [subst; done|].
  case_bool_decide as E2; [by rewrite E2|].
  fold (components (resolve [base])). fold (components (resolve [p])).
  destruct (dropCommon _ _) as [up down] eqn:E.
  apply dropCommon_split in E as (common & -> & ->).
  destruct up as [|u up].
  - intros _. rewrite app_nil_r. by apply prefix_app_r.
  - intros Hc. exfalso. apply orb_false_elim in Hc as [Hc Hs].
    apply orb_false_elim in Hc as [_ Hc].
    cbn [map app] in *.
    destruct (map _ up ++ down) as [|w ws].
    + by rewrite bool_decide_eq_true_2 in Hc.
    + by destruct ws, w.
Qed.

(** The check is complete for plain names under a resolved base. *)
Lemma relative_plain (bs : list jsstring) (name : jsstring) :
  Forall plainName bs -> plainName name ->
  climbsOut (relative (rooted bs) (rooted (bs ++ [name]))) = false.
Proof.
  intros Hbs Hname.
  assert (climbsOut [] = false) as Hnil by reflexivity.
  assert (climbsOut name = false) as Hplain.
  { unfold climbsOut. rewrite join_split.
    destruct (plainName_tests name Hname) as (_ & _ & -> & ->).
    destruct Hname as (_ & _ & _ & Hs).
    destruct (startsWith name (lit "../")) eqn:Es; [|done].
    exfalso. apply Hs. apply startsWith_prefix in Es as [rest ->].
    rewrite elem_of_app. left. do 2 right. left. }
  unfold relative, str_eqb.
  case_bool_decide; [done|].
  pose proof (resolve_plain bs [] Hbs (Forall_nil_2 _)) as Eb.
  rewrite app_nil_r in Eb. rewrite Eb.
  assert (Forall plainName (bs ++ [name])) as Hall.
  { apply Forall_app. split; [done|]. by apply Forall_cons_2. }
  pose proof (resolve_plain (bs ++ [name]) [] Hall (Forall_nil_2 _)) as Et.
  rewrite app_nil_r in Et. rewrite Et.
  case_bool_decide; [done|].
  fold (components (rooted bs)). fold (components (rooted (bs ++ [name]))).
  rewrite !components_rooted by done.
  by rewrite dropCommon_app.
Qed.

(** The directory of the running script being absolute, the website
    directory is a resolved absolute path. *)
Lemma resolve_parent :
  isAbsolute __dirname = true ->
  exists ws, resolve [__dirname; lit ".."] = rooted ws /\ Forall plainName ws.
Proof.
  intros Habs. apply resolve_absolute.
  cbn [rev app resolveLoop].
  replace (str_eqb (lit "..") []) with false by reflexivity.
  replace (isAbsolute (lit "..")) with false by reflexivity.
  destruct __dirname as [|c d]; [done|].
  unfold str_eqb. rewrite bool_decide_eq_false_2 by done.
  by rewrite Habs.
Qed.
End Paths.


Section Boundaries.
Context `{Host}.

Lemma no_sep (s : jsstring) :
  forallb (fun c => negb (N.eqb c sep)) s = true -> sep ∉ s.
Proof.
  intros E Hs. rewrite forallb_forall in E.
  apply list_elem_of_In, E in Hs. by rewrite N.eqb_refl in Hs.
Qed.

Lemma literal_plain (s : jsstring) :
  nonEmpty s && negb (str_eqb s (lit ".")) && negb (str_eqb s (lit ".."))
  && forallb (fun c => negb (N.eqb c sep)) s = true ->
  plainName s.
Proof.
  intros E. repeat (apply andb_true_iff in E as [E ?]).
  unfold nonEmpty, str_eqb in *.
  repeat match goal with
         | H : negb _ = true |- _ =>
           apply negb_true_iff, bool_decide_eq_false in H
         end.
  repeat split; try done. by apply no_sep.
Qed.

Lemma zip_name_plain (skillFolderName : jsstring) :
  sep ∉ skillFolderName -> plainName (skillFolderName ++ lit ".zip").
Proof.
  intros Hs. repeat split.
  - by destruct skillFolderName.
  - intros E. apply (f_equal length) in E. rewrite length_app in E.
    simpl in E. lia.
  - intros E. apply (f_equal length) in E. rewrite length_app in E.
    simpl in E. lia.
  - rewrite elem_of_app. intros [?|Hz]; [done|].
    by apply (no_sep (lit ".zip")) in Hz.
Qed.

Lemma skills_downloadsDir :
  isAbsolute __dirname = true ->
  exists ds, BuildSkills.downloadsDir = rooted ds /\ Forall plainName ds
             /\ ds <> [].
Proof.
  intros Habs. destruct (resolve_parent Habs) as (ws & Ews & Hws).
  assert (Forall plainName [lit "public"]) as Hp.
  { apply Forall_cons_2; [by apply literal_plain|apply Forall_nil_2]. }
  assert (Forall plainName [lit "skills"; lit "downloads"]) as Hd.
  { repeat apply Forall_cons_2; try apply Forall_nil_2;
      by apply literal_plain. }
  exists ((ws ++ [lit "public"]) ++ [lit "skills"; lit "downloads"]).
  split; [|split].
  - unfold BuildSkills.downloadsDir, BuildSkills.publicDir,
      BuildSkills.websiteDir.
    rewrite Ews, resolve_plain by done.
    rewrite resolve_plain; [done| |done].
    apply Forall_app. by split.
  - rewrite !Forall_app. by repeat split.
  - by destruct ws.
Qed.
End Boundaries.

(** A folder name without a separator never fails the boundary check: its
    archive goes to [<downloads>/<name>.zip]. *)
Theorem plain_folder_names_pass `{Host} (skillFolderName : jsstring) :
  isAbsolute __dirname = true ->
  sep ∉ skillFolderName ->
  let zipOutAbs :=
    resolve [BuildSkills.downloadsDir; skillFolderName ++ lit ".zip"] in
  zipOutAbs = BuildSkills.downloadsDir ++ slash ++ skillFolderName ++ lit ".zip"
  /\ BuildSkills.escapesDownloads zipOutAbs = false.
Proof.
  intros Habs Hname zipOutAbs.
  destruct (skills_downloadsDir Habs) as (ds & Eds & Hds & Hne).
  pose proof (zip_name_plain _ Hname) as Hzip.
  assert (zipOutAbs = rooted (ds ++ [skillFolderName ++ lit ".zip"])) as Ez.
  { unfold zipOutAbs. rewrite Eds. apply resolve_plain; [done|].
    by apply Forall_cons_2. }
  split.
  - rewrite Ez, Eds. unfold rooted. rewrite <- app_assoc. f_equal.
    clear -Hne. induction ds as [|d ds IH]; [done|].
    destruct ds as [|d' ds]; [done|].
    change (join slash ((d :: d' :: ds) ++ ?x))
      with (d ++ slash ++ join slash ((d' :: ds) ++ x)).
    rewrite IH by done. change (join slash (d :: d' :: ds))
      with (d ++ slash ++ join slash (d' :: ds)).
    by rewrite <- !app_assoc.
  - rewrite Ez. unfold BuildSkills.escapesDownloads. rewrite Eds.
    by apply relative_plain.
Qed.

Lemma plain_folder_names_pass_witness :
  let zipOutAbs :=
    @resolve exampleHost
      [@BuildSkills.downloadsDir exampleHost; lit "notes" ++ lit ".zip"] in
  zipOutAbs = lit "/repo/website/public/skills/downloads/notes.zip"
  /\ @BuildSkills.escapesDownloads exampleHost zipOutAbs = false.
Proof.
  apply (@plain_folder_names_pass exampleHost (lit "notes")).
  - reflexivity.
  - by apply no_sep.
Defined.


Section OutputBoundaries.
Context `{Host}.

Lemma assertInsideDir_plain (bs : list jsstring) (name : jsstring)
    (label : string) :
  Forall plainName bs -> plainName name ->
  BuildDefinitions.assertInsideDir (rooted bs) (resolve [rooted bs; name]) label
  = None.
Proof.
  intros Hbs Hname. rewrite resolve_plain by (done || by apply Forall_cons_2).
  pose proof (relative_plain bs name Hbs Hname) as E.
  unfold BuildDefinitions.assertInsideDir. unfold climbsOut in E.
  by rewrite E.
Qed.

Lemma definitions_asserts :
  isAbsolute __dirname = true ->
  BuildDefinitions.assertInsideDir BuildDefinitions.publicDefinitionsDir
    BuildDefinitions.publicManifestPath "public manifest" = None
  /\ BuildDefinitions.assertInsideDir BuildDefinitions.astroDataDir
       BuildDefinitions.internalCatalogPath "internal catalog" = None
  /\ BuildDefinitions.assertInsideDir BuildDefinitions.publicDefinitionsDir
       BuildDefinitions.schemaPath "schema" = None.
Proof.
  intros Habs. destruct (resolve_parent Habs) as (ws & Ews & Hws).
  assert (forall a, plainName (lit a) ->
                    Forall plainName [lit a]) as Hone.
  { intros a Ha. by apply Forall_cons_2. }
  assert (BuildDefinitions.publicDefinitionsDir
          = rooted ((ws ++ [lit "public"]) ++ [lit "definitions"])) as Ed.
  { unfold BuildDefinitions.publicDefinitionsDir, BuildDefinitions.publicDir,
      BuildDefinitions.websiteDir.
    rewrite Ews, resolve_plain by (done || by apply Hone, literal_plain).
    apply resolve_plain; [|by apply Hone, literal_plain].
    apply Forall_app. split; [done|]. by apply Hone, literal_plain. }
  assert (BuildDefinitions.astroDataDir
          = rooted (ws ++ [lit "src"; lit "data"])) as Ea.
  { unfold BuildDefinitions.astroDataDir, BuildDefinitions.websiteDir.
    rewrite Ews. apply resolve_plain; [done|].
    repeat apply Forall_cons_2; try apply Forall_nil_2;
      by apply literal_plain. }
  unfold BuildDefinitions.publicManifestPath,
    BuildDefinitions.internalCatalogPath, BuildDefinitions.schemaPath.
  rewrite Ed, Ea.
  repeat split; apply assertInsideDir_plain;
    try (by apply literal_plain);
    rewrite ?Forall_app; repeat split; try done;
    repeat apply Forall_cons_2; try apply Forall_nil_2;
    by apply literal_plain.
Qed.

End OutputBoundaries.

(** When the boundary check of the downloads directory lets a path through,
    and when [assertInsideDir] does not throw, the components of the target,
    resolved, begin with those of the directory, resolved. *)
Theorem boundary_checks_sound `{Host} (baseDirAbs targetAbs : jsstring)
    (label : string) :
  (BuildSkills.escapesDownloads targetAbs = false ->
   lexicallyInside BuildSkills.downloadsDir targetAbs)
  /\ (BuildDefinitions.assertInsideDir baseDirAbs targetAbs label = None ->
      lexicallyInside baseDirAbs targetAbs).
Proof.
  split.
  - apply climbsOut_sound.
  - unfold BuildDefinitions.assertInsideDir. intros E.
    apply climbsOut_sound. unfold climbsOut.
    by destruct (_ || _).
Qed.

Lemma boundary_checks_sound_witness :
  @lexicallyInside exampleHost (@BuildSkills.downloadsDir exampleHost)
    (lit "/repo/website/public/skills/downloads/notes.zip")
  /\ @lexicallyInside exampleHost (lit "/repo/website/public/definitions")
       (lit "/repo/website/public/definitions/schema.json").
Proof.
  split.
  - apply (@boundary_checks_sound exampleHost [] _ ""). reflexivity.
  - apply (@boundary_checks_sound exampleHost _ _ "schema"). reflexivity.
Defined.

(** The script's directory being absolute, the three output paths of
    build-definitions.mjs pass their boundary assertions: [main] never throws
    an output boundary violation. *)
Theorem definitions_outputs_inside `{Host} (providersRoot : option node)
    (generatedAt : jsstring) :
  isAbsolute __dirname = true ->
  forall r label targetAbs baseDirAbs,
    BuildDefinitions.main providersRoot generatedAt
    <> BuildDefinitions.Threw r
         (BuildDefinitions.OutputBoundaryViolation label targetAbs baseDirAbs).
Proof.
  intros Habs r label targetAbs baseDirAbs.
  destruct (definitions_asserts Habs) as (E1 & E2 & E3).
  unfold BuildDefinitions.main, BuildDefinitions.ensureDirs,
    BuildDefinitions.makeDir.
  repeat (destruct (mkdir _); [|done]).
  destruct (negb _); [done|].
  destruct (BuildDefinitions.listProviderDirs _) as [ids w].
  rewrite E1, E2, E3. unfold BuildDefinitions.writeJsonPretty.
  by repeat destruct (writeFile _).
Qed.

Lemma definitions_outputs_inside_witness :
  isAbsolute (@__dirname exampleHost) = true
  /\ forall r label targetAbs baseDirAbs,
       @BuildDefinitions.main exampleHost sampleProviders sampleStamp
       <> BuildDefinitions.Threw r
            (BuildDefinitions.OutputBoundaryViolation label targetAbs
               baseDirAbs).
Proof.
  split; [reflexivity|].
  apply (@definitions_outputs_inside exampleHost sampleProviders sampleStamp).
  reflexivity.
Defined.


(** ** Accounting for the skills *)

Lemma sumZ_app (a b : list Z) : sumZ (a ++ b) = sumZ a + sumZ b.
Proof. induction a as [|x a IH]; simpl; lia. Qed.

Lemma sumZ_Permutation (a b : list Z) : a ≡ₚ b -> sumZ a = sumZ b.
Proof. induction 1; simpl; lia. Qed.

Lemma downloadUrl_inj (f g : jsstring) :
  BuildSkills.downloadUrl f = BuildSkills.downloadUrl g -> f = g.
Proof.
  unfold BuildSkills.downloadUrl. intros E.
  apply app_inv_head in E. by apply app_inv_tail in E.
Qed.

Lemma tally_refl (r : BuildSkills.Run) : tally 0 r r [].
Proof.
  repeat split; try done; try (simpl; lia).
  - apply NoDup_nil_2.
Qed.

Lemma tally_trans (n m : nat) (r r' r'' : BuildSkills.Run) (x y : list jsval) :
  tally n r r' x -> tally m r' r'' y -> tally (n + m) r r'' (x ++ y).
Proof.
  intros (S1 & C1 & L1 & U1 & N1 & Z1 & D1 & F1)
         (S2 & C2 & L2 & U2 & N2 & Z2 & D2 & F2).
  repeat split.
  - by etrans.
  - lia.
  - lia.
  - rewrite length_app. lia.
  - rewrite length_app. lia.
  - rewrite map_app, sumZ_app. lia.
  - rewrite map_app. apply NoDup_app. split; [done|]. split; [|done].
    intros u Hx Hy.
    apply list_elem_of_fmap in Hx as (p & -> & Hp).
    apply list_elem_of_fmap in Hy as (q & Eq & Hq).
    rewrite Forall_forall in F1, F2.
    destruct (F1 p Hp) as (f & Ef & Hf & _).
    destruct (F2 q Hq) as (g & Eg & _ & Hg).
    rewrite Ef, Eg in Eq.
    assert (f = g) as -> by (apply downloadUrl_inj; congruence). done.
  - apply Forall_app. split.
    + eapply Forall_impl; [exact F1|]. intros p (f & ? & ? & ?).
      exists f. repeat split; [done| |done]. by apply S2.
    + eapply Forall_impl; [exact F2|]. intros p (f & ? & ? & Hf).
      exists f. repeat split; [done|done|]. intros Hr. by apply Hf, S1.
Qed.

Lemma tally_Permutation (n : nat) (r r' : BuildSkills.Run) (x y : list jsval) :
  x ≡ₚ y -> tally n r r' x -> tally n r r' y.
Proof.
  intros Hp (S1 & C1 & L1 & U1 & N1 & Z1 & D1 & F1).
  repeat split; try done.
  - by rewrite <- Hp.
  - by rewrite <- Hp.
  - rewrite Z1. f_equal. apply sumZ_Permutation. by rewrite Hp.
  - by rewrite <- Hp.
  - by rewrite <- Hp.
Qed.

Section Tally.
Context `{Host}.
Import BuildSkills.

Lemma zipSizeOf_public (a b c d : jsstring) (z : N) (n : nat) (v : jsval) :
  zipSizeOf (newSkillPublic a b c d z n v) = Z.of_N z.
Proof. unfold zipSizeOf. simpl. apply toInteger_ofZ. Qed.

Lemma zipSizeOf_internal (a b c d : jsstring) (z : N) (n : nat) (v : jsval) :
  zipSizeOf (newSkillInternal a b c d z n v) = Z.of_N z.
Proof. unfold zipSizeOf. simpl. apply toInteger_ofZ. Qed.

(** One turn of the loop over the skills. *)
Lemma processSkill_tally (groupName groupSlug : jsstring) (s : Candidate)
    (r : Run) (name slug : jsstring) (count : jsval) (ps is_ : list jsval) :
  exists r' ps' is',
    processSkill groupName groupSlug s
      (r, groupRecord name slug count ps, groupRecord name slug count is_)
    = (r', groupRecord name slug count (ps ++ ps'),
       groupRecord name slug count (is_ ++ is'))
    /\ tally 1 r r' ps' /\ tally 1 r r' is'.
Proof.
  unfold processSkill.
  destruct (parseSkillFrontmatter _ _ _) as [[skillName fullDescription] ws].
  destruct (sayAll_fields ws r) as (Hs & Hp & He & Hz & _ & _).
  case_bool_decide as Hseen.
  { eexists _, [], []. rewrite !app_nil_r. split; [reflexivity|].
    split; (repeat split; simpl; rewrite ?Hs, ?Hp, ?He, ?Hz;
            try done; try lia; try apply NoDup_nil_2). }
  rewrite Hs in Hseen.
  destruct (escapesDownloads _).
  { eexists _, [], []. rewrite !app_nil_r. split; [reflexivity|].
    split; (repeat split; simpl; rewrite ?Hs, ?Hp, ?He, ?Hz;
            try done; try lia; try apply NoDup_nil_2;
            try apply union_subseteq_r). }
  destruct (countIncludedFiles _); [destruct (createSkillZip _ _ _)|];
    (eexists _, [_], [_]; split; [reflexivity|]);
    (split;
     (repeat split;
      [ simpl; rewrite Hs; apply union_subseteq_r
      | simpl; rewrite ?Hp, ?He; lia
      | simpl; rewrite ?Hp; lia
      | simpl; rewrite ?Hp; lia
      | simpl; lia
      | cbn [map sumZ fold_right];
        rewrite ?zipSizeOf_public, ?zipSizeOf_internal;
        simpl; rewrite ?Hz; lia
      | apply NoDup_singleton
      | apply Forall_cons_2; [|apply Forall_nil_2];
        exists (dirName s); split; [reflexivity|];
        simpl; rewrite Hs; split; [|done];
        by apply elem_of_union_l, elem_of_singleton_2 ])).
Qed.

Lemma fold_processSkill_tally (groupName groupSlug : jsstring)
    (l : list Candidate) (r : Run) (name slug : jsstring) (count : jsval)
    (ps is_ : list jsval) :
  exists r' ps' is',
    fold_left (fun acc s => processSkill groupName groupSlug s acc) l
      (r, groupRecord name slug count ps, groupRecord name slug count is_)
    = (r', groupRecord name slug count (ps ++ ps'),
       groupRecord name slug count (is_ ++ is'))
    /\ tally (length l) r r' ps' /\ tally (length l) r r' is'.
Proof.
  revert r ps is_. induction l as [|s l IH]; intros r ps is_; cbn [fold_left].
  - exists r, [], []. rewrite !app_nil_r. split; [done|].
    split; apply tally_refl.
  - destruct (processSkill_tally groupName groupSlug s r name slug count
                ps is_) as (r1 & ps1 & is1 & -> & P1 & I1).
    destruct (IH r1 (ps ++ ps1) (is_ ++ is1))
      as (r2 & ps2 & is2 & -> & P2 & I2).
    exists r2, (ps1 ++ ps2), (is1 ++ is2). rewrite !app_assoc.
    split; [done|].
    split; apply (tally_trans 1 (length l) r r1 r2); done.
Qed.

Lemma groupRecords_tally (skillsRoot : option node) (groupName : jsstring)
    (r r' : Run) (g g' : jsval) :
  groupRecords skillsRoot groupName r = Some (r', g, g') ->
  tally (length (skillDirsOf skillsRoot groupName)) r r' (skillsOf g)
  /\ tally (length (skillDirsOf skillsRoot groupName)) r r' (skillsOf g').
Proof.
  unfold groupRecords, skillDirsOf.
  destruct (listSkillDirs _ _) as [skillDirs|]; [|done].
  destruct (fold_processSkill_tally groupName (slugifyGroupName groupName)
              skillDirs r groupName (slugifyGroupName groupName) (VInt 0)
              [] []) as (r1 & ps & is_ & E & P & I).
  change (groupRecord groupName (slugifyGroupName groupName) (VInt 0) [])
    with (newGroup groupName (slugifyGroupName groupName)) in E.
  rewrite E. simpl. intros [= <- <- <-].
  rewrite !finishGroup_record.
  split.
  - apply (tally_Permutation _ _ _ ps); [|done].
    symmetry. apply sortBy_Permutation.
  - apply (tally_Permutation _ _ _ is_); [|done].
    symmetry. apply sortBy_Permutation.
Qed.

Lemma allGroupRecords_tally (skillsRoot : option node)
    (groupNames : list jsstring) (r r' : Run) (gs gs' : list jsval) :
  allGroupRecords skillsRoot groupNames r = inl (r', gs, gs') ->
  let n := total (map (fun g => length (skillDirsOf skillsRoot g))
                    groupNames) in
  tally n r r' (concat (map skillsOf gs))
  /\ tally n r r' (concat (map skillsOf gs')).
Proof.
  revert r r' gs gs'.
  induction groupNames as [|groupName rest IH]; intros r r' gs gs';
    cbn [allGroupRecords].
  - intros [= <- <- <-]. split; apply tally_refl.
  - destruct (groupRecords _ _ _) as [[[r1 g] g']|] eqn:E; [|done].
    destruct (allGroupRecords _ _ _) as [[[r2 hs] hs']|] eqn:E'; [|done].
    intros [= <- <- <-].
    destruct (groupRecords_tally _ _ _ _ _ _ E) as [P1 I1].
    destruct (IH _ _ _ _ E') as [P2 I2].
    split; cbn [map concat total fold_right];
      eapply tally_trans; eassumption.
Qed.
End Tally.

(** In the manifests of a completed run no two skill records have the same
    download URL. *)
Theorem download_urls_distinct `{Host} (skillsRoot : option node)
    (generatedAt : jsstring) :
  match BuildSkills.main skillsRoot generatedAt with
  | inl built =>
    NoDup (map urlOf (allSkills (BuildSkills.manifestPublic built)))
    /\ NoDup (map urlOf (allSkills (BuildSkills.manifestInternal built)))
  | inr _ => True
  end.
Proof.
  rewrite skills_main_records.
  destruct (BuildSkills.ensureDirs _) as [r0|]; [|done].
  destruct (negb _); [done|].
  destruct (BuildSkills.listGroups _) as [groupNames|]; [|done].
  destruct (allGroupRecords _ _ _) as [[[r gs] gs']|[r err]] eqn:E; [|done].
  cbv zeta. repeat (destruct (BuildSkills.writeJsonPretty _ _ _); [|done]).
  apply allGroupRecords_tally in E as [P I].
  split; [apply P|apply I].
Qed.

(** When the run completes every skill directory met has been counted once,
    as packaged or as an error; no more skills are counted as packaged than
    the manifest lists; and the byte total is the sum of the sizes the
    manifest records. *)
Theorem skills_accounted `{Host} (skillsRoot : option node)
    (generatedAt : jsstring) :
  match BuildSkills.main skillsRoot generatedAt with
  | inl built =>
    let r := BuildSkills.run built in
    let listed := allSkills (BuildSkills.manifestPublic built) in
    (BuildSkills.packagedCount r + BuildSkills.errorCount r
     = N.of_nat (candidateCount skillsRoot))%N
    /\ (BuildSkills.packagedCount r <= N.of_nat (length listed))%N
    /\ (length listed <= candidateCount skillsRoot)%nat
    /\ Z.of_N (BuildSkills.totalZipBytes r) = sumZ (map zipSizeOf listed)
  | inr _ => True
  end.
Proof.
  rewrite skills_main_records. unfold candidateCount.
  pose proof (skills_ensureDirs BuildSkills.newRun) as He.
  destruct (BuildSkills.ensureDirs _) as [r0|]; [|done]. subst r0.
  destruct (negb _); [done|].
  destruct (BuildSkills.listGroups _) as [groupNames|]; [|done].
  destruct (allGroupRecords _ _ _) as [[[r gs] gs']|[r err]] eqn:E; [|done].
  cbv zeta. unfold BuildSkills.writeJsonPretty.
  repeat (destruct (writeFile _); [|done]).
  apply allGroupRecords_tally in E as [(_ & C & _ & U & L & Z & _) _].
  cbn [BuildSkills.run BuildSkills.manifestPublic default] in *.
  cbn in C, U, Z. repeat split; try done; lia.
Qed.


(** ** The order of the records *)

Section Ordering.
Context `{Host} {A : Type} (key : A -> jsstring).

Lemma insertSorted_sorted (x : A) (l : list A) :
  consistentCollation -> sortedBy key l -> sortedBy key (insertSorted key x l).
Proof.
  intros [Hasym Htrans]. induction l as [|y l IH]; intros Hl.
  - simpl. split; [apply Forall_nil_2|done].
  - destruct Hl as [Hy Hl]. cbn [insertSorted].
    destruct (localeCompare (key y) (key x) <? 0) eqn:E.
    + split; [|by apply IH].
      rewrite insertSorted_Permutation. apply Forall_cons_2; [|done].
      unfold notAfter. apply Z.ltb_ge. apply Z.ltb_lt in E.
      apply Z.nlt_ge. by apply Hasym.
    + split; [|by split].
      apply Forall_cons_2; [done|].
      eapply Forall_impl; [exact Hy|]. intros z Hz.
      by apply (Htrans _ (key y)).
Qed.

Lemma sortBy_sorted (l : list A) :
  consistentCollation -> sortedBy key (sortBy key l).
Proof.
  intros Hc. induction l as [|x l IH]; [done|].
  by apply insertSorted_sorted.
Qed.

Lemma sortedBy_map {B : Type} (f : B -> A) (l : list B) :
  sortedBy key (map f l) <-> sortedBy (fun b => key (f b)) l.
Proof.
  induction l as [|b l IH]; [done|]. simpl.
  by rewrite IH, Forall_fmap.
Qed.
End Ordering.

Lemma sortedBy_ext `{Host} {A : Type} (key key' : A -> jsstring) (l : list A) :
  (forall a, key a = key' a) -> sortedBy key l -> sortedBy key' l.
Proof.
  intros E. induction l as [|a l IH]; [done|]. intros [Ha Hl].
  split; [|by apply IH]. eapply Forall_impl; [exact Ha|].
  intros b. by rewrite !E.
Qed.

Section ProviderShape.
Context `{Host}.
Import BuildDefinitions.

Lemma fold_processModel_normalized (providerId : jsstring)
    (l : list ModelFile) (models : list jsval) (warned : list message) :
  Forall (normalizedFor providerId) models ->
  Forall (normalizedFor providerId)
    (fold_left (fun acc f => processModel providerId f acc) l
       (models, warned)).1.
Proof.
  revert models warned.
  induction l as [|f l IH]; intros models warned Hall; cbn [fold_left];
    [done|].
  unfold processModel at 2.
  destruct (readTomlFile _ _ _) as [parsed w1].
  destruct (negb (truthy parsed)); [by apply IH|].
  destruct (normalizeModelToml _ _ _ _) as [normalized w2] eqn:E.
  apply IH. apply Forall_app. split; [done|].
  apply Forall_cons_2; [|apply Forall_nil_2].
  eexists _, _, _. by rewrite E.
Qed.

(** What one turn of the loop over the providers adds to the manifests. *)
Lemma added_shape (providersRoot : option node) (providerId : jsstring) :
  exists meta hasLogo unsorted,
    addedInternal providersRoot providerId
    = providerInternal meta hasLogo unsorted
    /\ addedPublic providersRoot providerId
       = providerPublic meta hasLogo unsorted
    /\ normalizedProvider providerId meta
    /\ Forall (normalizedFor providerId) unsorted.
Proof.
  unfold addedInternal, addedPublic, providerAdded, processProvider.
  destruct (if pathExists _ then _ else _) as [providerToml w1].
  destruct (normalizeProviderToml _ _ _) as [providerMeta w2] eqn:Em.
  destruct (match _ ≫= stat with Some (Dir _ _) => _ | _ => _ end)
    as [modelFiles w4].
  pose proof (fold_processModel_normalized providerId modelFiles [] []
                (Forall_nil_2 _)) as Hmodels.
  destruct (fold_left _ modelFiles _) as [unsorted w5].
  exists providerMeta, (pathExists
            (child (child providersRoot providerId) (lit "logo.svg"))),
    unsorted.
  split; [reflexivity|]. split; [reflexivity|]. split; [|done].
  eexists _, _. by rewrite Em.
Qed.

Lemma modelsOf_internal (meta : jsval) (hasLogo : bool)
    (unsorted : list jsval) :
  modelsOf (providerInternal meta hasLogo unsorted) = sortBy nameOf unsorted.
Proof.
  unfold providerInternal, spreadIf. by destruct (truthy _).
Qed.

Lemma modelsOf_public (meta : jsval) (hasLogo : bool)
    (unsorted : list jsval) :
  modelsOf (providerPublic meta hasLogo unsorted)
  = map toPublicModel (sortBy nameOf unsorted).
Proof.
  unfold providerPublic, spreadIf. by destruct (truthy _).
Qed.

Lemma nameOf_toPublicModel (m : jsval) : nameOf (toPublicModel m) = nameOf m.
Proof. reflexivity. Qed.
End ProviderShape.

Section GroupShape.
Context `{Host}.
Import BuildSkills.

Lemma groupRecords_shape (skillsRoot : option node) (groupName : jsstring)
    (r r' : Run) (g g' : jsval) :
  groupRecords skillsRoot groupName r = Some (r', g, g') ->
  exists ps is_,
    g = groupRecord groupName (slugifyGroupName groupName)
          (VLen (sortBy nameOf ps)) (sortBy nameOf ps)
    /\ g' = groupRecord groupName (slugifyGroupName groupName)
              (VLen (sortBy nameOf is_)) (sortBy nameOf is_)
    /\ Forall2 (skillPair (slugifyGroupName groupName)) ps is_.
Proof.
  unfold groupRecords. destruct (listSkillDirs _ _) as [skillDirs|]; [|done].
  destruct (fold_processSkill_pushes groupName (slugifyGroupName groupName)
              skillDirs r groupName (slugifyGroupName groupName) (VInt 0)
              [] []) as (r1 & ps & is_ & E & Hpairs).
  change (groupRecord groupName (slugifyGroupName groupName) (VInt 0) [])
    with (newGroup groupName (slugifyGroupName groupName)) in E.
  rewrite E. simpl. intros [= <- <- <-].
  rewrite !finishGroup_record. by exists ps, is_.
Qed.

Lemma allGroupRecords_shape (skillsRoot : option node)
    (groupNames : list jsstring) (r r' : Run) (gs gs' : list jsval) :
  allGroupRecords skillsRoot groupNames r = inl (r', gs, gs') ->
  Forall2 (fun groupName g =>
             exists ps, g = groupRecord groupName (slugifyGroupName groupName)
                              (VLen (sortBy nameOf ps)) (sortBy nameOf ps))
    groupNames gs
  /\ Forall2 (fun groupName g =>
                exists ps, g = groupRecord groupName
                                 (slugifyGroupName groupName)
                                 (VLen (sortBy nameOf ps)) (sortBy nameOf ps))
       groupNames gs'.
Proof.
  revert r r' gs gs'.
  induction groupNames as [|groupName rest IH]; intros r r' gs gs'; simpl.
  - intros [= <- <- <-]. split; constructor.
  - destruct (groupRecords _ _ _) as [[[r1 g] g']|] eqn:E; [|done].
    destruct (allGroupRecords _ _ _) as [[[r2 hs] hs']|] eqn:E'; [|done].
    intros [= <- <- <-].
    apply groupRecords_shape in E as (ps & is_ & -> & -> & _).
    destruct (IH _ _ _ _ E') as [IH1 IH2].
    split; (constructor; [eauto|done]).
Qed.
End GroupShape.

(** With a consistent collation, the groups and the skills of each group,
    and the providers and the models of each provider, are listed in the
    order of their names, in the public and in the internal manifest. *)
Theorem manifests_ordered `{Host} (skillsRoot providersRoot : option node)
    (generatedAt : jsstring) :
  consistentCollation ->
  match BuildSkills.main skillsRoot generatedAt with
  | inl built =>
    skillsOrdered (BuildSkills.manifestPublic built)
    /\ skillsOrdered (BuildSkills.manifestInternal built)
  | inr _ => True
  end
  /\ match BuildDefinitions.main providersRoot generatedAt with
     | BuildDefinitions.Built _ manifestPublic manifestInternal =>
       definitionsOrdered manifestPublic
       /\ definitionsOrdered manifestInternal
     | _ => True
     end.
Proof.
  intros Hc. split.
  - rewrite skills_main_records.
    destruct (BuildSkills.ensureDirs _) as [r0|]; [|done].
    destruct (negb _); [done|].
    unfold BuildSkills.listGroups.
    destruct (readdir skillsRoot) as [entries|]; [|done].
    set (names := sortAlphaCaseInsensitive _).
    assert (sortedBy (fun v => v) names) as Hnames
      by by apply sortBy_sorted.
    destruct (allGroupRecords _ _ _) as [[[r gs] gs']|[r err]] eqn:E;
      [|done].
    apply allGroupRecords_shape in E as [Hp Hi].
    cbv zeta. repeat (destruct (BuildSkills.writeJsonPretty _ _ _); [|done]).
    cbn [BuildSkills.manifestPublic BuildSkills.manifestInternal].
    assert (forall hs,
              Forall2 (fun groupName g =>
                         exists ps,
                           g = groupRecord groupName
                                 (slugifyGroupName groupName)
                                 (VLen (sortBy nameOf ps))
                                 (sortBy nameOf ps)) names hs ->
              sortedBy nameOf hs
              /\ Forall (fun g => sortedBy nameOf (skillsOf g)) hs) as Hall.
    { clear -Hc Hnames. intros hs Hhs.
      assert (map nameOf hs = names) as Enames.
      { clear -Hhs. induction Hhs as [|n g ns hs (ps & ->) _ IH]; [done|].
        simpl. by rewrite IH. }
      split.
      - apply (sortedBy_map (fun v => v)). by rewrite Enames.
      - clear Enames Hnames.
        induction Hhs as [|n g ns hs (ps & ->) _ IH]; constructor; [|done].
        by apply sortBy_sorted. }
    split; by apply Hall.
  - destruct (isDirectory providersRoot) eqn:Hroot.
    + rewrite definitions_main_records by done.
      destruct (BuildDefinitions.ensureDirs _) as [r0|[r0 err0]]; [|done].
      destruct (BuildDefinitions.listProviderDirs _) as [ids w]. cbv zeta.
      repeat (destruct (BuildDefinitions.assertInsideDir _ _ _); [done|]).
      repeat (destruct (BuildDefinitions.writeJsonPretty _ _ _) as [?|[? ?]];
              [|done]).
      assert (forall added : jsstring -> jsval,
                Forall (fun p => sortedBy nameOf (modelsOf p))
                  (map added ids) ->
                definitionsOrdered
                  (definitionsManifest generatedAt
                     (VLen (sortBy nameOf (map added ids)))
                     (VNum (ofNat (total (map (addedModels providersRoot)
                                            ids))))
                     (sortBy nameOf (map added ids)))) as Hall.
      { intros added Hm. split.
        - by apply sortBy_sorted.
        - change (Forall (fun p => sortedBy nameOf (modelsOf p))
                    (sortBy nameOf (map added ids))).
          by rewrite sortBy_Permutation. }
      split; apply Hall; apply Forall_fmap, Forall_forall; intros id _;
        destruct (added_shape providersRoot id)
          as (meta & hasLogo & unsorted & Ei & Ep & _);
        simpl.
      * rewrite Ep, modelsOf_public. apply sortedBy_map.
        apply (sortedBy_ext nameOf); [done|]. by apply sortBy_sorted.
      * rewrite Ei, modelsOf_internal. by apply sortBy_sorted.
    + unfold BuildDefinitions.main. rewrite Hroot.
      by destruct (BuildDefinitions.ensureDirs _) as [?|[? ?]].
Qed.


Lemma compareFolded_range (a b : jsstring) :
  compareFolded a b = -1 \/ compareFolded a b = 0 \/ compareFolded a b = 1.
Proof.
  revert b. induction a as [|x a IH]; intros [|y b]; simpl; auto.
  destruct (N.compare _ _); auto.
Qed.

Lemma compareFolded_antisym (a b : jsstring) :
  compareFolded b a = - compareFolded a b.
Proof.
  revert b. induction a as [|x a IH]; intros [|y b]; simpl; try done.
  rewrite (N.compare_antisym (asciiLower x) (asciiLower y)).
  destruct (N.compare (asciiLower x) (asciiLower y)); simpl; [apply IH|done|done].
Qed.

Lemma compareFolded_trans (a b c : jsstring) :
  compareFolded a b <= 0 -> compareFolded b c <= 0 -> compareFolded a c <= 0.
Proof.
  revert b c. induction a as [|x a IH]; intros [|y b] [|z c]; simpl;
    try done; try lia.
  destruct (N.compare_spec (asciiLower x) (asciiLower y)) as [Exy|Exy|Exy];
    destruct (N.compare_spec (asciiLower y) (asciiLower z)) as [Eyz|Eyz|Eyz];
    destruct (N.compare_spec (asciiLower x) (asciiLower z)) as [Exz|Exz|Exz];
    try lia; try (intros; exfalso; lia).
  apply IH.
Qed.

Lemma compareFolded_consistent : @consistentCollation exampleHost.
Proof.
  split.
  - intros a b. simpl. rewrite (compareFolded_antisym a b). lia.
  - intros a b c. unfold notAfter. simpl. rewrite !Z.ltb_ge.
    rewrite (compareFolded_antisym a b), (compareFolded_antisym b c),
      (compareFolded_antisym a c).
    pose proof (compareFolded_trans a b c). lia.
Qed.

Lemma manifests_ordered_witness :
  (exists built,
     @BuildSkills.main exampleHost clashingGroups sampleStamp = inl built
     /\ @skillsOrdered exampleHost (BuildSkills.manifestPublic built))
  /\ (exists r manifestPublic manifestInternal,
        @BuildDefinitions.main exampleHost sampleProviders sampleStamp
        = BuildDefinitions.Built r manifestPublic manifestInternal
        /\ @definitionsOrdered exampleHost manifestPublic).
Proof.
  destruct (@manifests_ordered exampleHost clashingGroups sampleProviders
              sampleStamp compareFolded_consistent) as [Hs Hd].
  split.
  - destruct (@BuildSkills.main exampleHost clashingGroups sampleStamp)
      as [built|thrown] eqn:E; [|vm_compute in E; discriminate E].
    exists built. split; [reflexivity|exact (proj1 Hs)].
  - destruct (@BuildDefinitions.main exampleHost sampleProviders sampleStamp)
      as [r mp mi|r|r err] eqn:E;
      [|vm_compute in E; discriminate E|vm_compute in E; discriminate E].
    exists r, mp, mi. split; [reflexivity|exact (proj1 Hd)].
Defined.


(** ** The walks over a directory *)

Section Counting.
Context `{Host}.
Import BuildSkills.

Lemma walkCount_entries (es : list (jsstring * node)) (rel : jsstring) :
  walkCount (Dir true es) rel = sumCounts (map (counted rel) es).
Proof.
  cbn [walkCount]. induction es as [|[name ent] es IH]; [done|].
  cbn [map sumCounts fold_right]. fold (sumCounts (map (counted rel) es)).
  rewrite <- IH. unfold counted, childRelOf. cbn [fst snd].
  match goal with
  | |- _ = addCounts _ ?rest => generalize rest
  end.
  intros rest. destruct (shouldExcludePath _ _); [by destruct rest|].
  destruct (direntIsDirectory ent).
  { destruct (walkCount ent _); [|done]. by destruct rest. }
  destruct (direntIsFile ent); by destruct rest.
Qed.

Lemma addCounts_swap (a b c : option nat) :
  addCounts a (addCounts b c) = addCounts b (addCounts a c).
Proof. destruct a, b, c; simpl; try done. f_equal. lia. Qed.

Lemma addCounts_zero (o : option nat) : addCounts (Some 0%nat) o = o.
Proof. by destruct o. Qed.

Lemma sumCounts_Permutation (l l' : list (option nat)) :
  l ≡ₚ l' -> sumCounts l = sumCounts l'.
Proof.
  induction 1 as [|x l l' _ IH|x y l|l l' l'' _ IH1 _ IH2]; simpl.
  - done.
  - by rewrite IH.
  - apply addCounts_swap.
  - by rewrite IH1.
Qed.

Lemma sumCounts_visited (es : list (jsstring * node)) (rel : jsstring) :
  sumCounts (map (counted rel) es)
  = sumCounts (map (counted rel)
                 (filter (fun e => visited rel e = true) es)).
Proof.
  induction es as [|e es IH]; [done|].
  destruct (visited rel e) eqn:E.
  - rewrite filter_cons_True by done. cbn [map sumCounts fold_right].
    f_equal. apply IH.
  - rewrite filter_cons_False by (by rewrite E).
    assert (counted rel e = Some 0%nat) as E0.
    { unfold visited in E. unfold counted.
      destruct (shouldExcludePath _ _); [done|].
      by destruct (direntIsDirectory e.2), (direntIsFile e.2). }
    cbn [map sumCounts fold_right]. rewrite E0.
    fold (sumCounts (map (counted rel) es)). rewrite IH.
    apply addCounts_zero.
Qed.
End Counting.

(** The count of [countIncludedFiles] depends only on the entries its walk
    looks into, not on the order [readdir] lists them in nor on what else
    the directory holds: excluded entries (readable or not), symbolic links
    and special files leave it as it is. *)
Theorem count_of_visited_entries `{Host} (es es' : list (jsstring * node))
    (relFromRoot : jsstring) :
  filter (fun e => visited relFromRoot e = true) es
  ≡ₚ filter (fun e => visited relFromRoot e = true) es' ->
  BuildSkills.walkCount (Dir true es) relFromRoot
  = BuildSkills.walkCount (Dir true es') relFromRoot.
Proof.
  intros Hp. rewrite !walkCount_entries.
  rewrite (sumCounts_visited es), (sumCounts_visited es').
  apply sumCounts_Permutation. by rewrite Hp.
Qed.

Lemma count_of_visited_entries_witness :
  let es := [ (lit ".git", Dir false []); (lit "a.md", File None);
              (lit "link", Symlink None);
              (lit "docs", Dir true [(lit "b.md", File None)]) ] in
  let es' := [ (lit "docs", Dir true [(lit "b.md", File None)]);
               (lit "a.md", File None) ] in
  @BuildSkills.countIncludedFiles exampleHost (Dir true es) = Some 2%nat
  /\ @BuildSkills.countIncludedFiles exampleHost (Dir true es') = Some 2%nat.
Proof.
  intros es es'.
  pose proof (@count_of_visited_entries exampleHost es es' []) as E.
  split; [|reflexivity].
  unfold BuildSkills.countIncludedFiles. rewrite E; [reflexivity|].
  vm_compute. apply perm_swap.
Defined.


Section Walk.
Context `{Host}.
Import BuildDefinitions.

Lemma walk_found (dir : node) (dirAbs relFromModelsRoot : jsstring) :
  Forall tomlFound (walk dirAbs dir relFromModelsRoot).1.
Proof.
  revert dir dirAbs relFromModelsRoot. fix IH 1.
  intros [doc|readable es|t|] dirAbs rel; try apply Forall_nil_2.
  destruct readable; [|apply Forall_nil_2]. cbn [walk].
  induction es as [|[name ent] es IHes]; [apply Forall_nil_2|].
  revert IHes. cbn [fst].
  match goal with
  | |- Forall _ (fst ?rest) -> _ => generalize rest
  end.
  intros [others warned'] Hothers. cbn [fst] in Hothers.
  destruct (shouldExcludePath _ _) eqn:Ex; [exact Hothers|].
  destruct (direntIsDirectory ent) eqn:Ed.
  { specialize (IH ent (resolve [dirAbs; name])
                  (if nonEmpty rel then rel ++ slash ++ name else name)).
    destruct (walk _ ent _) as [inner warned].
    apply Forall_app. by split. }
  destruct (direntIsFile ent) eqn:Ef; [|exact Hothers].
  destruct (negb _) eqn:Et; [exact Hothers|].
  apply Forall_cons_2; [|exact Hothers].
  repeat split; [done|done|]. exists rel, name. split; [done|].
  by apply negb_false_iff in Et.
Qed.
End Walk.


(** Every model file [listModelTomlFiles] returns is a regular [.toml] file
    that the exclusion filter lets through, whatever the directory holds and
    whether it can be read. *)
Theorem model_files_found `{Host} (modelsRootAbs : jsstring)
    (modelsRoot : node) :
  Forall tomlFound
    (BuildDefinitions.listModelTomlFiles modelsRootAbs modelsRoot).1.
Proof.
  unfold BuildDefinitions.listModelTomlFiles.
  pose proof (walk_found modelsRoot modelsRootAbs []) as Hw.
  destruct (BuildDefinitions.walk _ _ _) as [out warnings].
  cbn [fst] in *. by rewrite sortBy_Permutation.
Qed.

(** ** Records and the records that hold them *)

Section Parents.
Context `{Host}.

Lemma normalizedFor_provider (providerId : jsstring) (m : jsval) :
  normalizedFor providerId m ->
  getProp m "provider" = VStr providerId
  /\ getProp (BuildDefinitions.toPublicModel m) "provider" = VStr providerId.
Proof.
  intros (modelId & toml & path & ->). split; [reflexivity|].
  unfold BuildDefinitions.toPublicModel, BuildDefinitions.spreadIf.
  by destruct (truthy _).
Qed.

Lemma normalizedProvider_id (providerId : jsstring) (meta : jsval) :
  normalizedProvider providerId meta -> getProp meta "id" = VStr providerId.
Proof. by intros (toml & path & ->). Qed.

Lemma added_parents (providersRoot : option node) (providerId : jsstring) :
  let pub := addedPublic providersRoot providerId in
  let int := addedInternal providersRoot providerId in
  getProp pub "id" = VStr providerId
  /\ getProp int "id" = VStr providerId
  /\ Forall (fun m => getProp m "provider" = getProp pub "id") (modelsOf pub)
  /\ Forall (fun m => getProp m "provider" = getProp int "id") (modelsOf int).
Proof.
  destruct (added_shape providersRoot providerId)
    as (meta & hasLogo & unsorted & Ei & Ep & Hmeta & Hmodels).
  cbn zeta. rewrite Ei, Ep, modelsOf_public, modelsOf_internal.
  apply normalizedProvider_id in Hmeta.
  change (getProp (providerPublic meta hasLogo unsorted) "id")
    with (getProp meta "id").
  change (getProp (providerInternal meta hasLogo unsorted) "id")
    with (getProp meta "id").
  rewrite Hmeta. repeat split.
  - rewrite Forall_fmap, sortBy_Permutation.
    eapply Forall_impl; [exact Hmodels|]. intros m Hm.
    apply (normalizedFor_provider providerId m Hm).
  - rewrite sortBy_Permutation.
    eapply Forall_impl; [exact Hmodels|]. intros m Hm.
    apply (normalizedFor_provider providerId m Hm).
Qed.
End Parents.

(** In the manifests of a completed run every skill names the slug of its
    group; there is one provider record for each provider directory listed,
    with the name of the directory as its id, and every model names the id
    of its provider. *)
Theorem records_name_their_parent `{Host}
    (skillsRoot providersRoot : option node) (generatedAt : jsstring) :
  match BuildSkills.main skillsRoot generatedAt with
  | inl built =>
    skillsNameTheirGroup (BuildSkills.manifestPublic built)
    /\ skillsNameTheirGroup (BuildSkills.manifestInternal built)
  | inr _ => True
  end
  /\ match BuildDefinitions.main providersRoot generatedAt with
     | BuildDefinitions.Built _ manifestPublic manifestInternal =>
       let ids := (BuildDefinitions.listProviderDirs providersRoot).1 in
       modelsNameTheirProvider ids manifestPublic
       /\ modelsNameTheirProvider ids manifestInternal
     | _ => True
     end.
Proof.
  split.
  - rewrite skills_main_records.
    destruct (BuildSkills.ensureDirs _) as [r0|]; [|done].
    destruct (negb _); [done|].
    destruct (BuildSkills.listGroups _) as [groupNames|]; [|done].
    destruct (allGroupRecords _ _ _) as [[[r gs] gs']|[r err]] eqn:E; [|done].
    cbv zeta. repeat (destruct (BuildSkills.writeJsonPretty _ _ _); [|done]).
    apply allGroupRecords_pairs in E.
    cbn [BuildSkills.manifestPublic BuildSkills.manifestInternal].
    unfold skillsNameTheirGroup.
    change (Forall (fun g => Forall (fun s => getProp s "group"
                                              = getProp g "slug")
                               (skillsOf g)) gs
            /\ Forall (fun g => Forall (fun s => getProp s "group"
                                                 = getProp g "slug")
                                  (skillsOf g)) gs').
    induction E as [|g g' gs gs' Hg _ [IH1 IH2]]; [by split|].
    destruct Hg as (name & ps & is_ & -> & -> & Hpairs).
    split; (apply Forall_cons_2; [|done]).
    + change (Forall (fun s => getProp s "group"
                               = VStr (slugifyGroupName name)) ps).
      clear -Hpairs. induction Hpairs as [|p i ps is_ Hp _ IH]; [done|].
      apply Forall_cons_2; [|done].
      by destruct Hp as (?&?&?&?&?&?&?&?&->&_).
    + change (Forall (fun s => getProp s "group"
                               = VStr (slugifyGroupName name)) is_).
      clear -Hpairs. induction Hpairs as [|p i ps is_ Hp _ IH]; [done|].
      apply Forall_cons_2; [|done].
      by destruct Hp as (?&?&?&?&?&?&?&?&_&->).
  - destruct (isDirectory providersRoot) eqn:Hroot.
    + rewrite definitions_main_records by done.
      destruct (BuildDefinitions.ensureDirs _) as [r0|[r0 err0]]; [|done].
      destruct (BuildDefinitions.listProviderDirs _) as [ids w]. cbv zeta.
      repeat (destruct (BuildDefinitions.assertInsideDir _ _ _); [done|]).
      repeat (destruct (BuildDefinitions.writeJsonPretty _ _ _) as [?|[? ?]];
              [|done]).
      cbn [fst]. unfold modelsNameTheirProvider.
      change (providersOf (definitionsManifest ?t ?a ?b ?ps)) with ps.
      rewrite !sortBy_Permutation.
      rewrite <- !list_fmap_compose.
      split; (split; [induction ids as [|id ids IH]; [done|]; cbn [map];
                      apply Permutation_cons; [|exact IH];
                      apply (added_parents providersRoot id)
                     |apply Forall_fmap, Forall_forall; intros id _;
                      apply (added_parents providersRoot id)]).
    + unfold BuildDefinitions.main. rewrite Hroot.
      by destruct (BuildDefinitions.ensureDirs _) as [?|[? ?]].
Qed.


(** ** The skills manifests against their schema *)

Lemma wholeNumber_ofZ (z : Z) : wholeNumber (Q2Qc (inject_Z z)) = true.
Proof. unfold wholeNumber. by rewrite this_ofZ. Qed.

Lemma atLeast_ofZ (a b : Z) :
  atLeast (Q2Qc (inject_Z a)) (Q2Qc (inject_Z b)) = (a <=? b).
Proof. unfold atLeast. by rewrite !this_ofZ, Qle_bool_inject. Qed.

(** One step of [validate]. *)
Lemma validate_step (bounds : bool) (root : jsval) (fuel : nat)
    (schema v : jsval) :
  validate bounds root (S fuel) schema v
  = match getProp schema "$ref" with
    | VStr r =>
      match resolveRef root r with
      | Some target => validate bounds root fuel target v
      | None => false
      end
    | _ => true
    end
    && typeOk schema v && enumOk schema v
    && (negb bounds || minimumOk schema v)
    && match v with
       | VObj props =>
         requiredOk schema props
         && forallb
              (fun kv =>
                 isUndefined kv.2
                 || match getProp (getProp schema "properties") kv.1 with
                    | VUndef =>
                      match getProp schema "additionalProperties" with
                      | VBool false => false
                      | VObj more => validate bounds root fuel (VObj more) kv.2
                      | _ => true
                      end
                    | known => validate bounds root fuel known kv.2
                    end)
              props
       | VArr items =>
         match getProp schema "items" with
         | VUndef => true
         | each => forallb (validate bounds root fuel each) items
         end
       | _ => true
       end.
Proof. reflexivity. Qed.

(** A schema that is a reference alone stands for its target. *)
Lemma validate_ref (bounds : bool) (root : jsval) (fuel : nat) (r : string)
    (target v : jsval) :
  resolveRef root (lit r) = Some target ->
  validate bounds root (S fuel) (VObj [("$ref", VLit r)]) v
  = validate bounds root fuel target v.
Proof.
  intros E. cbn [validate getProp lookupProp String.eqb Ascii.eqb Bool.eqb].
  unfold VLit. rewrite E.
  assert (forall props : list (string * jsval),
            forallb (fun kv => isUndefined kv.2 || true) props = true) as Hall.
  { induction props as [|kv props IH]; [done|].
    simpl. by rewrite orb_true_r. }
  unfold typeOk, enumOk, minimumOk, requiredOk.
  cbn [getProp lookupProp String.eqb Ascii.eqb Bool.eqb].
  rewrite orb_true_r, !andb_true_r.
  destruct v; rewrite ?andb_true_r; try done.
  rewrite Hall. by rewrite andb_true_r.
Qed.

(** The checks of one schema on a value whose shape is known evaluate. *)
Ltac settle_keywords :=
  repeat match goal with
         | |- context [typeOk ?s ?v] => change (typeOk s v) with true
         | |- context [enumOk ?s ?v] => change (enumOk s v) with true
         | |- context [minimumOk ?s ?v] => change (minimumOk s v) with true
         | |- context [requiredOk ?s ?v] => change (requiredOk s v) with true
         end;
  rewrite ?orb_true_r, ?andb_true_r, ?andb_true_l.

Lemma validate_string (bounds : bool) (root : jsval) (fuel : nat)
    (s : jsstring) :
  validate bounds root (S fuel) (VObj [("type", VLit "string")]) (VStr s)
  = true.
Proof. rewrite validate_step. settle_keywords. reflexivity. Qed.

Lemma validate_boolean (bounds : bool) (root : jsval) (fuel : nat) (b : bool) :
  validate bounds root (S fuel) (VObj [("type", VLit "boolean")]) (VBool b)
  = true.
Proof. rewrite validate_step. settle_keywords. reflexivity. Qed.

Lemma validate_count (bounds : bool) (root : jsval) (fuel : nat) (n : Z) :
  0 <= n ->
  validate bounds root (S fuel)
    (VObj [("type", VLit "integer"); ("minimum", VInt 0)]) (VInt n) = true.
Proof.
  intros Hn. rewrite validate_step.
  change (typeOk _ _) with (wholeNumber (Q2Qc (inject_Z n))).
  change (minimumOk _ _)
    with (atLeast (Q2Qc (inject_Z 0)) (Q2Qc (inject_Z n))).
  settle_keywords.
  rewrite wholeNumber_ofZ, atLeast_ofZ.
  destruct (Z.leb_spec 0 n); [|lia]. by rewrite orb_true_r.
Qed.

Lemma validate_items (bounds : bool) (root : jsval) (fuel : nat)
    (each : list (string * jsval)) (items : list jsval) :
  validate bounds root (S fuel)
    (VObj [("type", VLit "array"); ("items", VObj each)]) (VArr items)
  = forallb (validate bounds root fuel (VObj each)) items.
Proof. rewrite validate_step. settle_keywords. reflexivity. Qed.

Ltac open_object :=
  rewrite validate_step;
  cbv beta iota zeta
      delta [getProp lookupProp String.eqb Ascii.eqb Bool.eqb fst snd forallb
             isUndefined];
  settle_keywords; rewrite ?orb_false_l.

Section SkillsSchema.
Context `{Host}.

Lemma valid_skill (bounds : bool) (fuel : nat) (groupSlug : jsstring)
    (pub int : jsval) :
  skillPair groupSlug pub int ->
  let schema := getProp (getProp BuildSkills.buildJsonSchema "$defs") "skill" in
  validate bounds BuildSkills.buildJsonSchema (S (S (S fuel))) schema pub = true
  /\ validate bounds BuildSkills.buildJsonSchema (S (S (S fuel))) schema int
     = true.
Proof.
  intros (nm & d & f & z & fc & b1 & b2 & b3 & -> & ->).
  unfold BuildSkills.newSkillPublic, BuildSkills.newSkillInternal,
    contentsRecord.
  set (root := BuildSkills.buildJsonSchema) at 1 3.
  cbv beta iota zeta
      delta [getProp lookupProp String.eqb Ascii.eqb Bool.eqb
             BuildSkills.buildJsonSchema BuildSkills.ofType
             BuildSkills.count0].
  split; open_object; rewrite !validate_string;
    rewrite !validate_count by lia; open_object;
    by rewrite !validate_boolean.
Qed.

Lemma valid_skills (bounds : bool) (fuel : nat) (groupSlug : jsstring)
    (ps is_ : list jsval) :
  Forall2 (skillPair groupSlug) ps is_ ->
  let each := validate bounds BuildSkills.buildJsonSchema
                (S (S (S (S fuel)))) (VObj [("$ref", VLit "#/$defs/skill")]) in
  forallb each ps = true /\ forallb each is_ = true.
Proof.
  intros Hpairs each.
  induction Hpairs as [|p i ps is_ Hp _ [IH1 IH2]]; [done|].
  destruct (valid_skill bounds fuel groupSlug p i Hp) as [Vp Vi].
  cbn [forallb]. rewrite IH1, IH2. unfold each.
  rewrite !(validate_ref _ _ _ _
              (getProp (getProp BuildSkills.buildJsonSchema "$defs") "skill"))
    by reflexivity.
  by rewrite Vp, Vi.
Qed.

Lemma valid_group (bounds : bool) (fuel : nat) (pub int : jsval) :
  groupPair pub int ->
  let schema := getProp (getProp BuildSkills.buildJsonSchema "$defs") "group" in
  validate bounds BuildSkills.buildJsonSchema (S (S (S (S (S (S fuel))))))
    schema pub = true
  /\ validate bounds BuildSkills.buildJsonSchema (S (S (S (S (S (S fuel))))))
       schema int = true.
Proof.
  intros (name & ps & is_ & -> & -> & Hpairs).
  destruct (valid_skills bounds fuel _ _ _ Hpairs) as [Vp Vi].
  unfold groupRecord, VLen, ofNat. fold (VInt (Z.of_nat (length ps))).
  fold (VInt (Z.of_nat (length is_))).
  set (root := BuildSkills.buildJsonSchema) at 1 3.
  cbv beta iota zeta
      delta [getProp lookupProp String.eqb Ascii.eqb Bool.eqb
             BuildSkills.buildJsonSchema BuildSkills.ofType
             BuildSkills.count0 BuildSkills.arrayOf].
  split; open_object; rewrite ?validate_string;
    rewrite ?validate_count by lia; rewrite validate_items.
  - exact Vp.
  - exact Vi.
Qed.

Lemma valid_groups (bounds : bool) (fuel : nat) (gs gs' : list jsval) :
  Forall2 groupPair gs gs' ->
  let each := validate bounds BuildSkills.buildJsonSchema
                (S (S (S (S (S (S (S fuel)))))))
                (VObj [("$ref", VLit "#/$defs/group")]) in
  forallb each gs = true /\ forallb each gs' = true.
Proof.
  intros Hpairs each.
  induction Hpairs as [|g g' gs gs' Hg _ [IH1 IH2]]; [done|].
  destruct (valid_group bounds fuel g g' Hg) as [Vp Vi].
  cbn [forallb]. rewrite IH1, IH2. unfold each.
  rewrite !(validate_ref _ _ _ _
              (getProp (getProp BuildSkills.buildJsonSchema "$defs") "group"))
    by reflexivity.
  by rewrite Vp, Vi.
Qed.

Lemma valid_skillsManifest (generatedAt : jsstring) (n n' : nat)
    (gs gs' : list jsval) :
  Forall2 groupPair gs gs' ->
  validates true BuildSkills.buildJsonSchema
    (skillsManifest generatedAt (VNum (ofNat n)) gs) = true
  /\ validates true BuildSkills.buildJsonSchema
       (skillsManifest generatedAt (VNum (ofNat n')) gs') = true.
Proof.
  intros Hpairs.
  destruct (valid_groups true 3 gs gs' Hpairs) as [Vp Vi].
  unfold validates, skillsManifest, ofNat.
  fold (VInt (Z.of_nat n)). fold (VInt (Z.of_nat n')).
  set (root := BuildSkills.buildJsonSchema) at 1 3.
  cbv beta iota zeta
      delta [BuildSkills.buildJsonSchema BuildSkills.ofType
             BuildSkills.count0 BuildSkills.arrayOf].
  split; open_object; rewrite ?validate_string;
    rewrite ?validate_count by lia; rewrite validate_items.
  - exact Vp.
  - exact Vi.
Qed.
End SkillsSchema.

(** The public manifest and the internal catalog a completed run of
    build-skills.mjs writes satisfy the schema it writes. *)
Theorem skills_manifest_satisfies_schema `{Host} (skillsRoot : option node)
    (generatedAt : jsstring) :
  match BuildSkills.main skillsRoot generatedAt with
  | inl built =>
    validates true BuildSkills.buildJsonSchema
      (BuildSkills.manifestPublic built) = true
    /\ validates true BuildSkills.buildJsonSchema
         (BuildSkills.manifestInternal built) = true
  | inr _ => True
  end.
Proof.
  rewrite skills_main_records.
  destruct (BuildSkills.ensureDirs _) as [r0|]; [|done].
  destruct (negb _); [done|].
  destruct (BuildSkills.listGroups _) as [groupNames|]; [|done].
  destruct (allGroupRecords _ _ _) as [[[r gs] gs']|[r err]] eqn:E; [|done].
  cbv zeta. repeat (destruct (BuildSkills.writeJsonPretty _ _ _); [|done]).
  apply allGroupRecords_pairs in E.
  cbn [BuildSkills.manifestPublic BuildSkills.manifestInternal].
  assert (Forall groupCounted gs /\ Forall groupCounted gs') as [Cp Ci].
  { clear -E. induction E as [|g g' gs gs' Hg _ [IH1 IH2]]; [by split|].
    destruct (groupPair_counted g g' Hg). split; by constructor. }
  destruct (skillsManifest_counted generatedAt gs Cp) as [_ Ep].
  destruct (skillsManifest_counted generatedAt gs' Ci) as [_ Ei].
  change (getProp (skillsManifest generatedAt ?t ?g) "total_skills")
    with t in Ep, Ei.
  rewrite Ep, Ei. by apply valid_skillsManifest.
Qed.


(** ** The order of a listing *)

Section Canonical.
Context `{Host} {A : Type} (key : A -> jsstring).

Lemma untiedBy_Permutation (l l' : list A) :
  l ≡ₚ l' -> untiedBy key l -> untiedBy key l'.
Proof.
  intros Hp Hu a b Ha Hb. apply Hu; by rewrite Hp.
Qed.

Lemma untiedBy_subset (l l' : list A) :
  l' ⊆ l -> untiedBy key l -> untiedBy key l'.
Proof. intros Hsub Hu a b Ha Hb. apply Hu; by apply Hsub. Qed.

Lemma untiedBy_cons (a : A) (l : list A) :
  untiedBy key (a :: l) -> untiedBy key l.
Proof. apply untiedBy_subset. intros x Hx. by apply elem_of_cons; right. Qed.

(** Two sorted lists with the same items, none of which tie, are the same
    list. *)
Lemma sorted_canonical (l l' : list A) :
  sortedBy key l -> sortedBy key l' -> l ≡ₚ l' -> untiedBy key l -> l = l'.
Proof.
  revert l'. induction l as [|a l IH]; intros l' Hl Hl' Hp Hu.
  - by apply Permutation_nil_l in Hp.
  - destruct l' as [|a' l']; [by apply Permutation_nil_r in Hp|].
    destruct Hl as [Ha Hl], Hl' as [Ha' Hl'].
    assert (a = a') as <-.
    { assert (a' ∈ a :: l) as Hin by (rewrite Hp; left).
      assert (a ∈ a' :: l') as Hin' by (rewrite <- Hp; left).
      apply elem_of_cons in Hin as [E|Hin]; [done|].
      apply elem_of_cons in Hin' as [E|Hin']; [done|].
      rewrite Forall_forall in Ha, Ha'.
      apply Hu; [left|by right|by apply Ha|by apply Ha']. }
    f_equal. apply IH; [done|done| |by eapply untiedBy_cons].
    by apply Permutation_cons_inv in Hp.
Qed.
End Canonical.

Section Listings.
Context `{Host}.

Lemma sortBy_canonical {A : Type} (key : A -> jsstring) (l l' : list A) :
  consistentCollation -> l ≡ₚ l' -> untiedBy key l ->
  sortBy key l = sortBy key l'.
Proof.
  intros Hc Hp Hu. apply (sorted_canonical key).
  - by apply sortBy_sorted.
  - by apply sortBy_sorted.
  - by rewrite !sortBy_Permutation.
  - apply (untiedBy_Permutation key l); [|done].
    symmetry. apply sortBy_Permutation.
Qed.

Lemma untiedBy_map {A B : Type} (key : A -> jsstring) (key' : B -> jsstring)
    (f : A -> B) (l : list A) :
  (forall a, key' (f a) = key a) ->
  untiedBy key l -> untiedBy key' (map f l).
Proof.
  intros E Hu x y Hx Hy.
  apply list_elem_of_fmap in Hx as (a & -> & Ha).
  apply list_elem_of_fmap in Hy as (b & -> & Hb).
  rewrite !E. intros H1 H2. f_equal. by apply Hu.
Qed.

Lemma untiedBy_filter {A : Type} (key : A -> jsstring) (P : A -> Prop)
    `{!forall a, Decision (P a)} (l : list A) :
  untiedBy key l -> untiedBy key (filter P l).
Proof.
  apply untiedBy_subset. intros a Ha.
  by apply list_elem_of_filter in Ha as [_ ?].
Qed.

Lemma notAfter_refl (a : jsstring) : consistentCollation -> notAfter a a.
Proof.
  intros [Hasym _]. unfold notAfter. apply Z.ltb_ge.
  destruct (Z.lt_ge_cases (localeCompare a a) 0) as [Hlt|Hge]; [|lia].
  by destruct (Hasym a a Hlt).
Qed.

(** In a directory none of whose entries tie, a name finds the same entry
    whatever the order of the listing. *)
Lemma lookupEntry_elem (name : jsstring) (es : list (jsstring * node))
    (x : node) :
  lookupEntry name es = Some x -> (name, x) ∈ es.
Proof.
  induction es as [|[n y] es IH]; [done|]. simpl. unfold str_eqb.
  case_bool_decide as E.
  - intros [= ->]. subst n. left.
  - intros Hl. right. by apply IH.
Qed.

Lemma lookupEntry_found (name : jsstring) (es : list (jsstring * node))
    (x : node) :
  (name, x) ∈ es -> exists y, lookupEntry name es = Some y.
Proof.
  induction es as [|[n y] es IH]; [by intros ?%elem_of_nil|].
  intros Hin. simpl. unfold str_eqb. case_bool_decide as E; [eauto|].
  apply elem_of_cons in Hin as [[= ? ?]|Hin]; [by destruct E|]. by apply IH.
Qed.

Lemma lookupEntry_Permutation (name : jsstring)
    (es es' : list (jsstring * node)) :
  consistentCollation -> es ≡ₚ es' -> untiedBy fst es ->
  lookupEntry name es = lookupEntry name es'.
Proof.
  intros Hc Hp Hu.
  assert (forall l l' x, l ≡ₚ l' -> untiedBy fst l ->
                         lookupEntry name l = Some x ->
                         lookupEntry name l' = Some x) as Hone.
  { intros l l' x Hl Hul Hx.
    pose proof (lookupEntry_elem _ _ _ Hx) as Hin.
    assert ((name, x) ∈ l') as Hin' by by rewrite <- Hl.
    destruct (lookupEntry_found _ _ _ Hin') as [y Hy].
    rewrite Hy. f_equal.
    apply lookupEntry_elem in Hy. rewrite <- Hl in Hy.
    assert ((name, y) = (name, x)) as [= ->]; [|done].
    apply Hul; [done|done| |]; by apply notAfter_refl. }
  destruct (lookupEntry name es) as [x|] eqn:E.
  - symmetry. by apply (Hone es es').
  - destruct (lookupEntry name es') as [y|] eqn:E'; [|done].
    rewrite <- E. apply (Hone es' es); [done| |done].
    by apply (untiedBy_Permutation fst es).
Qed.

Lemma child_Permutation (readable : bool) (es es' : list (jsstring * node))
    (name : jsstring) :
  consistentCollation -> es ≡ₚ es' -> untiedBy fst es ->
  child (Some (Dir readable es)) name = child (Some (Dir readable es')) name.
Proof.
  intros Hc Hp Hu. unfold child. simpl. destruct readable; [|done].
  by apply lookupEntry_Permutation.
Qed.

Lemma names_canonical (P : jsstring * node -> Prop)
    `{!forall e, Decision (P e)} (es es' : list (jsstring * node)) :
  consistentCollation -> es ≡ₚ es' -> untiedBy fst es ->
  sortAlphaCaseInsensitive (map fst (filter P es))
  = sortAlphaCaseInsensitive (map fst (filter P es')).
Proof.
  intros Hc Hp Hu. apply sortBy_canonical; [done|by rewrite Hp|].
  apply (untiedBy_map fst); [done|]. by apply untiedBy_filter.
Qed.

Lemma listGroups_Permutation (readable : bool)
    (es es' : list (jsstring * node)) :
  consistentCollation -> es ≡ₚ es' -> untiedBy fst es ->
  BuildSkills.listGroups (Some (Dir readable es))
  = BuildSkills.listGroups (Some (Dir readable es')).
Proof.
  intros Hc Hp Hu. unfold BuildSkills.listGroups, readdir. simpl.
  destruct readable; [|done]. f_equal. by apply names_canonical.
Qed.

Lemma listSkillDirs_Permutation (groupDirAbs : jsstring) (readable : bool)
    (es es' : list (jsstring * node)) :
  consistentCollation -> es ≡ₚ es' -> untiedBy fst es ->
  BuildSkills.listSkillDirs groupDirAbs (Some (Dir readable es))
  = BuildSkills.listSkillDirs groupDirAbs (Some (Dir readable es')).
Proof.
  intros Hc Hp Hu. unfold BuildSkills.listSkillDirs, readdir. simpl.
  destruct readable; [|done]. f_equal.
  apply sortBy_canonical; [done|by rewrite Hp|].
  apply untiedBy_filter. apply (untiedBy_map fst); [done|].
  by apply untiedBy_filter.
Qed.

Lemma listProviderDirs_Permutation (readable : bool)
    (es es' : list (jsstring * node)) :
  consistentCollation -> es ≡ₚ es' -> untiedBy fst es ->
  BuildDefinitions.listProviderDirs (Some (Dir readable es))
  = BuildDefinitions.listProviderDirs (Some (Dir readable es')).
Proof.
  intros Hc Hp Hu.
  unfold BuildDefinitions.listProviderDirs, BuildDefinitions.safeReadDir,
    readdir.
  simpl. destruct readable; [|done]. f_equal. by apply names_canonical.
Qed.

Lemma allGroupRecords_children (root root' : option node)
    (groupNames : list jsstring) (r : BuildSkills.Run) :
  (forall name, child root name = child root' name) ->
  allGroupRecords root groupNames r = allGroupRecords root' groupNames r.
Proof.
  intros Hch. revert r.
  induction groupNames as [|groupName rest IH]; intros r; [done|].
  cbn [allGroupRecords]. unfold groupRecords. rewrite Hch.
  destruct (BuildSkills.listSkillDirs _ _); [|done].
  destruct (fold_left _ _ _) as [[r1 gp] gi]. by rewrite IH.
Qed.

Lemma processProvider_children (root root' : option node)
    (providerIds : list jsstring) (st : BuildDefinitions.Loop) :
  (forall name, child root name = child root' name) ->
  fold_left (fun st providerId =>
               BuildDefinitions.processProvider root providerId st)
    providerIds st
  = fold_left (fun st providerId =>
                 BuildDefinitions.processProvider root' providerId st)
      providerIds st.
Proof.
  intros Hch. revert st.
  induction providerIds as [|providerId rest IH]; intros st; [done|].
  cbn [fold_left]. rewrite IH. f_equal.
  unfold BuildDefinitions.processProvider. by rewrite Hch.
Qed.
End Listings.

(** The lists [listGroups], [listSkillDirs] and [listProviderDirs] return do
    not depend on the order in which [readdir] lists a directory, when the
    collation is consistent and no two entries of the directory tie. *)
Theorem listings_ignore_readdir_order `{Host} (readable : bool)
    (es es' : list (jsstring * node)) (dirAbs : jsstring) :
  consistentCollation -> es ≡ₚ es' -> untiedBy fst es ->
  BuildSkills.listGroups (Some (Dir readable es))
  = BuildSkills.listGroups (Some (Dir readable es'))
  /\ BuildSkills.listSkillDirs dirAbs (Some (Dir readable es))
     = BuildSkills.listSkillDirs dirAbs (Some (Dir readable es'))
  /\ BuildDefinitions.listProviderDirs (Some (Dir readable es))
     = BuildDefinitions.listProviderDirs (Some (Dir readable es')).
Proof.
  intros Hc Hp Hu. split; [|split].
  - by apply listGroups_Permutation.
  - by apply listSkillDirs_Permutation.
  - by apply listProviderDirs_Permutation.
Qed.

(** A run does not depend on the order in which [readdir] lists the corpus
    root, when the collation is consistent and no two entries of the root
    tie: exit status, console and writes are the same, in both scripts. *)
Theorem root_listing_order_immaterial `{Host} (readable : bool)
    (es es' : list (jsstring * node)) (generatedAt : jsstring) :
  consistentCollation -> es ≡ₚ es' -> untiedBy fst es ->
  BuildSkills.script (Some (Dir readable es)) generatedAt
  = BuildSkills.script (Some (Dir readable es')) generatedAt
  /\ BuildDefinitions.script (Some (Dir readable es)) generatedAt
     = BuildDefinitions.script (Some (Dir readable es')) generatedAt.
Proof.
  intros Hc Hp Hu.
  pose proof (fun name => child_Permutation readable es es' name Hc Hp Hu)
    as Hch.
  split.
  - unfold BuildSkills.script. rewrite !skills_main_records.
    rewrite (listGroups_Permutation readable es es') by done.
    destruct (BuildSkills.ensureDirs _) as [r0|]; [|done].
    change (isDirectory (Some (Dir readable es)))
      with (isDirectory (Some (Dir readable es'))).
    destruct (negb _); [done|].
    destruct (BuildSkills.listGroups _) as [groupNames|]; [|done].
    by rewrite (allGroupRecords_children _ (Some (Dir readable es'))).
  - unfold BuildDefinitions.script, BuildDefinitions.main.
    rewrite (listProviderDirs_Permutation readable es es') by done.
    destruct (BuildDefinitions.ensureDirs _) as [r0|]; [|done].
    change (isDirectory (Some (Dir readable es)))
      with (isDirectory (Some (Dir readable es'))).
    destruct (negb _); [done|].
    destruct (BuildDefinitions.listProviderDirs _) as [ids w].
    by rewrite (processProvider_children _ (Some (Dir readable es'))).
Qed.

Lemma sample_groups_untied :
  @untiedBy exampleHost _ fst [writingGroup; codingGroup].
Proof.
  intros a b Ha Hb H1 H2.
  rewrite !elem_of_cons, elem_of_nil in Ha, Hb.
  destruct Ha as [->|[->|[]]], Hb as [->|[->|[]]]; try done;
    vm_compute in H1, H2; discriminate.
Qed.

Lemma listings_ignore_readdir_order_witness :
  @consistentCollation exampleHost
  /\ [writingGroup; codingGroup] ≡ₚ [codingGroup; writingGroup]
  /\ @untiedBy exampleHost _ fst [writingGroup; codingGroup]
  /\ @BuildSkills.listGroups exampleHost
       (Some (Dir true [writingGroup; codingGroup]))
     = Some [lit "Coding"; lit "writing"]
  /\ @BuildSkills.listGroups exampleHost
       (Some (Dir true [codingGroup; writingGroup]))
     = Some [lit "Coding"; lit "writing"].
Proof.
  pose proof (@listings_ignore_readdir_order exampleHost true
                [writingGroup; codingGroup] [codingGroup; writingGroup] []
                compareFolded_consistent (perm_swap _ _ _)
                sample_groups_untied) as (E & _ & _).
  split; [exact compareFolded_consistent|].
  split; [apply perm_swap|]. split; [exact sample_groups_untied|].
  split; [rewrite E|]; reflexivity.
Defined.

Lemma root_listing_order_immaterial_witness :
  @consistentCollation exampleHost
  /\ [writingGroup; codingGroup] ≡ₚ [codingGroup; writingGroup]
  /\ @untiedBy exampleHost _ fst [writingGroup; codingGroup]
  /\ @BuildSkills.script exampleHost
       (Some (Dir true [writingGroup; codingGroup])) sampleStamp
     = @BuildSkills.script exampleHost
         (Some (Dir true [codingGroup; writingGroup])) sampleStamp
  /\ @BuildDefinitions.script exampleHost
       (Some (Dir true [writingGroup; codingGroup])) sampleStamp
     = @BuildDefinitions.script exampleHost
         (Some (Dir true [codingGroup; writingGroup])) sampleStamp.
Proof.
  split; [exact compareFolded_consistent|].
  split; [apply perm_swap|]. split; [exact sample_groups_untied|].
  exact (@root_listing_order_immaterial exampleHost true
           [writingGroup; codingGroup] [codingGroup; writingGroup]
           sampleStamp compareFolded_consistent (perm_swap _ _ _)
           sample_groups_untied).
Defined.

